(** * Remote Client 93-0000020: script interpreter and log-frame decoder

    A shallow embedding of the parts of [93-0000020.py] (V1.4.0) that the
    specification talks about: the register catalogue ([products]), the
    log-frame decoder ([showlog]), the transport wrappers ([read_register],
    [read_registers], [write_register]) and the script interpreter
    ([do_script_line], [run_script]).  The older build kept next to it
    (V1.01 BUILD 20220216) is embedded in [Module V101] where it differs.

    Around them: the poll of the log ([readlog], [Module Poll]), the
    command entry and the connection ([is_run_ok], [connect_port] and the
    handlers of [main] that convert text, [Module Gui]), and of the older
    build the row loop ([Module V101Script]), the port scan at the start
    ([Module V101Startup]) and the log ([Module V101Log]).

    Python integers are [Z]; text is [string] (one [ascii] per character,
    so the development covers ASCII text); a [dict] whose iteration order is
    observable is an association list in insertion order; an exception is a
    value of [exn] carried by [outcome]. *)

From Stdlib Require Import ZArith String Ascii List Bool Lia.
From Stdlib Require DecimalString HexadecimalString.
Import ListNotations.

Local Open Scope string_scope.
Local Open Scope Z_scope.

(* ===================================================================== *)
(** ** Python values that the program handles *)
(* ===================================================================== *)

Module Py.

(** Exception classes that the program raises, catches or lets escape. *)
Inductive exn_class : Type :=
| KeyError | TypeError | NameError | SyntaxError | IndexError
| AttributeError | ValueError
| IllegalRequestError | InvalidResponseError | NoResponseError
| OtherException (name : string).

(** An exception instance: its class and [str(e)]. *)
Record exn : Type := mk_exn { exn_cls : exn_class; exn_msg : string }.

Inductive outcome (A : Type) : Type :=
| Returned (a : A)
| Raised (e : exn).
Arguments Returned {A} a.
Arguments Raised {A} e.

Definition obind {A B} (c : outcome A) (k : A -> outcome B) : outcome B :=
  match c with
  | Returned a => k a
  | Raised e => Raised e
  end.

Definition is_returned {A} (c : outcome A) : bool :=
  match c with Returned _ => true | Raised _ => false end.

(** Characters with a name. *)
Definition nl : string := String "010"%char "".
Definition dquote_c : ascii := "034"%char.
Definition squote_c : ascii := "039"%char.
Definition backslash_c : ascii := "092"%char.

(** [str(n)] and [f'{n}'] for an integer. *)
Definition str_int (n : Z) : string :=
  DecimalString.NilZero.string_of_int (Z.to_int n).

Definition hex_digits (n : Z) : string :=
  HexadecimalString.NilZero.string_of_int (Z.to_hex_int n).

(** [hex(n)]: lower-case digits behind [0x], the sign first. *)
Definition hex (n : Z) : string :=
  if n <? 0 then "-0x" ++ hex_digits (- n) else "0x" ++ hex_digits n.

(** [f'{n:02x}']: hexadecimal without prefix, zero-filled to width 2
    (the sign counts for the width). *)
Definition fmt_02x (n : Z) : string :=
  if n <? 0 then "-" ++ hex_digits (- n)
  else if n <? 16 then "0" ++ hex_digits n
  else hex_digits n.

(** [l[i]] on a list: negative indices count from the end, anything out
    of range raises [IndexError]. *)
Definition getitem {A} (l : list A) (i : Z) : outcome A :=
  let len := Z.of_nat (length l) in
  let j := if i <? 0 then i + len else i in
  if (j <? 0) || (len <=? j) then
    Raised (mk_exn IndexError "list index out of range")
  else
    match nth_error l (Z.to_nat j) with
    | Some a => Returned a
    | None => Raised (mk_exn IndexError "list index out of range")
    end.

(** Index normalisation of a slice bound. *)
Definition slice_bound (len i : Z) : Z :=
  if i <? 0 then Z.max (i + len) 0 else Z.min i len.

(** [l[start:stop]]; never raises. *)
Definition slice {A} (l : list A) (start stop : Z) : list A :=
  let len := Z.of_nat (length l) in
  let a := slice_bound len start in
  let b := slice_bound len stop in
  firstn (Z.to_nat (b - a)) (skipn (Z.to_nat a) l).

(** [math.floor(b / 2)] and [math.ceil(b / 2)] on an integer [b]. *)
Definition floor_half (b : Z) : Z := b / 2.
Definition ceil_half (b : Z) : Z := (b + 1) / 2.

(** [d.get(k)] on a dict with integer keys. *)
Fixpoint dict_get {V} (d : list (Z * V)) (k : Z) : option V :=
  match d with
  | [] => None
  | (k', v) :: d' => if k' =? k then Some v else dict_get d' k
  end.

(** [d[k]] on a dict with text keys. *)
Fixpoint dict_lookup {V} (d : list (string * V)) (k : string) : option V :=
  match d with
  | [] => None
  | (k', v) :: d' => if String.eqb k' k then Some v else dict_lookup d' k
  end.

(** Truth value of [d.get(k)] when the values are text: [None] and the
    empty text are false. *)
Definition truthy_text (o : option string) : bool :=
  match o with
  | Some s => negb (String.eqb s "")
  | None => false
  end.

(** [f'{v}'] for the result of [d.get(k)]. *)
Definition fmt_opt_text (o : option string) : string :=
  match o with
  | Some s => s
  | None => "None"
  end.

(** [sep.join(l)]. *)
Definition join (sep : string) (l : list string) : string :=
  String.concat sep l.

(** [s.lstrip(';')], [s.rstrip(';')] and [s.strip(';')]. *)
Fixpoint lstrip_char (c : ascii) (s : string) : string :=
  match s with
  | String a s' => if Ascii.eqb a c then lstrip_char c s' else s
  | EmptyString => EmptyString
  end.

Fixpoint rstrip_char (c : ascii) (s : string) : string :=
  match s with
  | String a s' =>
      match rstrip_char c s' with
      | EmptyString => if Ascii.eqb a c then EmptyString else String a EmptyString
      | r => String a r
      end
  | EmptyString => EmptyString
  end.

Definition strip_char (c : ascii) (s : string) : string :=
  rstrip_char c (lstrip_char c s).

(** [pat in s]. *)
Definition contains (pat s : string) : bool :=
  match String.index 0 pat s with
  | Some _ => true
  | None => false
  end.

(** [repr(s)] for a text: single quotes unless the text has a single
    quote and no double quote; backslash escapes for the quote, the
    backslash and the control characters. *)
Definition has_char (c : ascii) (s : string) : bool :=
  existsb (Ascii.eqb c) (list_ascii_of_string s).

Definition hex2 (n : nat) : string :=
  let d := hex_digits (Z.of_nat n) in
  if (n <? 16)%nat then "0" ++ d else d.

Definition repr_char (quote c : ascii) : string :=
  let n := nat_of_ascii c in
  if Ascii.eqb c quote then String backslash_c (String c "")
  else if Ascii.eqb c backslash_c then String backslash_c (String c "")
  else if (n =? 9)%nat then String backslash_c "t"
  else if (n =? 10)%nat then String backslash_c "n"
  else if (n =? 13)%nat then String backslash_c "r"
  else if ((n <? 32) || (n =? 127))%nat then
    String backslash_c ("x" ++ hex2 n)
  else String c "".

Definition repr_text (s : string) : string :=
  let quote := if has_char squote_c s && negb (has_char dquote_c s)
               then dquote_c else squote_c in
  String quote
    (String.concat "" (map (repr_char quote) (list_ascii_of_string s))
     ++ String quote "").

(** [repr(row)] for a list of texts, which is also its [str()]. *)
Definition repr_row (row : list string) : string :=
  "[" ++ join ", " (map repr_text row) ++ "]".

End Py.

Export Py.

Declare Scope outcome_scope.
Delimit Scope outcome_scope with outcome.
Notation "x <- c ;; k" := (obind c (fun x => k))
  (at level 61, c at next level, right associativity) : outcome_scope.

(* ===================================================================== *)
(** ** Register catalogue ([products]) *)
(* ===================================================================== *)

(** A register dictionary in insertion order, as [dict.items()] walks it. *)
Definition RegisterMap : Type := list (string * Z).

(** One entry of [products]: product name, baud rate, Modbus address,
    register dictionary, Modbus write function code. *)
Record Product : Type := mk_product {
  product_name : string;
  product_baud : Z;
  product_address : Z;
  product_regs : RegisterMap;
  product_write_fc : Z
}.

Definition hypr6000_regs : RegisterMap :=
  [
    ("BIT", 0); ("TOTAL_ERRORS", 1); ("LOG_HEAD", 2); ("LOG_TAIL", 3);
    ("LOG_STATUS", 4); ("LOG_LEVEL", 5); ("LOG_CODE", 6); ("LOG_DEVICE", 7);
    ("LOG_MSG_LEN", 8); ("LOG_VALUE0", 9); ("LOG_VALUE1", 10);
    ("LOG_VALUE2", 11); ("LOG_VALUE3", 12); ("LOG1_LEVEL", 13);
    ("LOG1_CODE", 14); ("LOG1_DEVICE", 15); ("LOG1_MSG_LEN", 16);
    ("LOG1_VALUE0", 17); ("LOG1_VALUE1", 18); ("LOG1_VALUE2", 19);
    ("LOG1_VALUE3", 20); ("LOG2_LEVEL", 21); ("LOG2_CODE", 22);
    ("LOG2_DEVICE", 23); ("LOG2_MSG_LEN", 24); ("LOG2_VALUE0", 25);
    ("LOG2_VALUE1", 26); ("LOG2_VALUE2", 27); ("LOG2_VALUE3", 28);
    ("LOG3_LEVEL", 29); ("LOG3_CODE", 30); ("LOG3_DEVICE", 31);
    ("LOG3_MSG_LEN", 32); ("LOG3_VALUE0", 33); ("LOG3_VALUE1", 34);
    ("LOG3_VALUE2", 35); ("LOG3_VALUE3", 36); ("START_VOLTAGE", 37);
    ("START_DELAY", 38); ("STOP_VOLTAGE", 39); ("STOP_DELAY", 40);
    ("CRANK_TIMEOUT", 41); ("REGULATED_VOLTAGE", 42);
    ("MAX_CHARGING_CURRENT", 43); ("LVCO", 44); ("BUS_VOLTAGE", 45);
    ("CURRENTS", 46); ("GEN_CONTROL", 47); ("AGS_STATUS", 48);
    ("AC_INPUT", 49); ("AMMPS_RESPONSE", 50); ("GEN_WARMUP", 51);
    ("WARMUP_STATE", 52); ("GENERATOR_POWER_SETTINGS", 53);
    ("AVAILABLE_CURRENT", 54); ("CHARGER_MODE", 55); ("PID_KP", 56);
    ("PID_KI", 57); ("PID_KD", 58); ("PID_INPUT", 59); ("PID_OUTPUT", 60);
    ("PID_SET_POINT", 61); ("CHARGING_CURRENT_OFFSET", 62);
    ("REGULATED_CURRENT_OFFSET", 63); ("VERSION", 64); ("TOTAL_REGS_SIZE", 65)
  ].

Definition proverter_regs : RegisterMap :=
  [
    ("Absorb time", 46); ("Absorb exit amps", 47); ("Bulk current", 48);
    ("Absorb voltage", 49); ("Equalization voltage", 50);
    ("Floating voltage", 51); ("Temperature compensation", 52);
    ("Battery low voltage", 53); ("Battery over voltage", 54);
    ("Low voltage alarm", 55); ("Reset voltage", 56);
    ("Low voltage detect time", 57); ("Low voltage cut off time", 58);
    ("Charge mode (equalization)", 59); ("Mode (Online mode)", 60);
    ("Online option", 61); ("Reset to Bulk stage", 62);
    ("Charging profile", 63); ("Default frequency", 64);
    ("Grid input max current", 65); ("Low frequency cut off", 66);
    ("Low frequency reset", 67); ("High frequency cut off", 68);
    ("High frequency reset", 69); ("Low voltage reset", 70);
    ("Low voltage cut off 1", 71); ("Low voltage cut off 2", 72);
    ("Low voltage cut off 3", 73); ("Low voltage detect time 1", 74);
    ("Low voltage detect time 2", 75); ("Low voltage detect time 3", 76);
    ("High voltage reset", 77); ("High voltage cut off 1", 78);
    ("High voltage cut off 2", 79); ("High voltage cut off 3", 80);
    ("High voltage detect time 1", 81); ("High voltage detect time 2", 82);
    ("High voltage detect time 3", 83); ("Gen input maximum current", 84);
    ("GS detect time", 85); ("GEN ON time", 86); ("GEN OFF delay", 87);
    ("Battery type", 88); ("Input OC Protection", 89);
    ("Input Recovery", 90); ("Sync. Grid", 91); ("Sync. GEN", 92);
    ("Safe Charging", 93); ("External Charger", 95); ("Power saving", 96);
    ("Enter point", 97); ("Wake up point", 98); ("Remote switch", 99);
    ("Relay function", 100); ("Comm. ID", 101); ("Buzzer", 102);
    ("Discharge beep", 103); ("Default reset", 104); ("Data log time", 105);
    ("Temperature unit", 107); ("Password disable", 108);
    ("Remote switch delay time", 109); ("Status of GEN input", 256);
    ("Frequency of GEN input", 257); ("Voltage of GEN input", 258);
    ("Status of Grid input", 259); ("Frequency of Grid input", 260);
    ("Voltage of Grid input", 261); ("Input current", 262);
    ("Input VA", 264); ("Input watt", 266); ("Output frequency", 268);
    ("Output voltage", 269); ("Invert/Charge current", 270);
    ("Invert/Charge VA", 272); ("Invert/Charge watt", 274);
    ("Battery voltage", 276); ("Battery current", 277);
    ("External current", 278); ("Battery temperature", 279);
    ("Transformer temperature", 280); ("Bus bar temperature", 281);
    ("Heat sink temperature", 282); ("Fan speed", 283);
    ("Operating mode", 284); ("Error code", 285); ("Charge stage", 286);
    ("Version", 287); ("Compensating voltage", 288); ("Control", 512)
  ].

Definition products : list Product :=
  [ mk_product "24VDC HyPR 6000 (20-0104024)" 57600 1 hypr6000_regs 16;
    mk_product "24VDC PRO-Verter 5000-220 AFF1 (20-0104033)" 9600 1
      proverter_regs 6 ].

(** [products[product][3]] for the selected product index. *)
Definition active_regs (product : nat) : RegisterMap :=
  match nth_error products product with
  | Some p => product_regs p
  | None => []
  end.

(** [regs[name]]: the address, or [KeyError] whose text is [repr(name)]. *)
Definition resolve (regs : RegisterMap) (name : string) : option Z :=
  dict_lookup regs name.

(** [';'.join([k for k, v in regs.items() if v == address])]. *)
Definition reverseRegister (regs : RegisterMap) (address : Z) : string :=
  join ";" (map fst (filter (fun kv => snd kv =? address) regs)).

(* ===================================================================== *)
(** ** Log-frame decoder ([showlog]) *)
(* ===================================================================== *)

Module Decoder.

Local Open Scope outcome_scope.

Definition log_levels : list string :=
  [ "EMERG"; "ALERT"; "CRIT"; "ERR"; "WARNING"; "NOTICE"; "INFO"; "DEBUG";
    "UNDEF"; "UNDEF"; "UNDEF"; "UNDEF"; "UNDEF"; "UNDEF"; "UNDEF"; "NULL" ].

Definition devices : list string := [ "CAN_A"; "CAN_B"; "RS485" ].

Definition pgn_names : list (Z * string) :=
  [ (0, "null"); (1, "ADDRESS_CLAIMED"); (2, "J1939_STATUS");
    (0xFECA, "Active DTIC"); (0xFF17, "AdvDCS Response");
    (0xFF15, "Controller 1st PGN"); (0xFF19, "Controller 2nd PGN");
    (0xFF22, "Controller 3rd PGN"); (0xFF23, "Modbus Registers") ].

Definition j1939_statuses : list (Z * string) :=
  [ (0, "ADDRESSCLAIM_INIT"); (1, "ADDRESSCLAIM_INPROGRESS");
    (2, "NORMALDATATRAFFIC"); (3, "ADDRESSCLAIM_FAILED") ].

Definition charger_modes : list (Z * string) :=
  [ (0, "Charging"); (1, "Standby"); (2, "Off"); (3, "Delay") ].

Definition genset_statuses : list (Z * string) :=
  [ (0, "NOT READY TO CRANK"); (1, "READY TO CRANK");
    (2, "DELAY TO CRANK - WTR KIT"); (3, "DELAY TO CRANK - GLW PLG");
    (4, "CRANK"); (5, "RUNNING"); (6, "EMERGENCY STOP"); (7, "IDLE MODE");
    (8, "POWERING DOWN"); (9, "FACTORY TEST");
    (10, "DELAY TO CRANK - WINTER KIT TEST");
    (11, "DELAY TO CRANK - WINTER KIT DETECT");
    (12, "DELAY TO CRANK - ECM DATASAVE"); (13, "RUNNING - SYNCHRONIZING");
    (14, "RUNNING - SYNCHRONIZED"); (15, "RUNNING - LOAD SHARE") ].

Definition control_switch_positions : list (Z * string) :=
  [ (0, "Off"); (1, "Prime and run Aux fuel"); (2, "Prime and run");
    (3, "Start") ].

Definition warmup_states : list (Z * string) :=
  [ (0, "NoAC"); (1, "WarmingUp"); (2, "Running") ].

Definition ac_inputs : list (Z * string) :=
  [ (0, "Not sensed"); (1, "Sensed") ].

Definition gen_controls : list (Z * string) :=
  [ (0, "Off"); (1, "Auto"); (5, "On") ].

(** The colour escapes of [showlog]; both are the empty text in the
    source ("didn't work"). *)
Definition red : string := "".
Definition black : string := "".

(** [hex(v)] applied to what a table's [.get] returned: neither [None]
    nor a text is an integer. *)
Definition hex_of_lookup (v : option string) : outcome string :=
  match v with
  | None =>
      Raised (mk_exn TypeError
                "'NoneType' object cannot be interpreted as an integer")
  | Some _ =>
      Raised (mk_exn TypeError
                "'str' object cannot be interpreted as an integer")
  end.

(** The module-level name [regs] as a function sees it.  V1.4.0 binds
    [regs] only as a local of [main] (its [global] statement does not list
    it), so a function that reads [regs] finds no binding. *)
Definition module_regs : option RegisterMap := None.

Definition global_regs (g : option RegisterMap) : outcome RegisterMap :=
  match g with
  | Some r => Returned r
  | None => Raised (mk_exn NameError "name 'regs' is not defined")
  end.

(** [code == name] where [code] came from [pgn_names.get]. *)
Definition code_is (code : option string) (name : string) : bool :=
  match code with
  | Some c => String.eqb c name
  | None => false
  end.

(** The two texts that [showlog] builds side by side: [line] for the log
    file and [cline] for the window. *)
Definition Lines : Type := (string * string)%type.

Definition add (p : Lines) (l c : string) : Lines :=
  (fst p ++ l, snd p ++ c).

Definition add_both (p : Lines) (more : string) : Lines := add p more more.

(** The loop of the unformatted branch: two bytes per word. *)
Fixpoint dump_words (ws : list Z) (p : Lines) : Lines :=
  match ws with
  | [] => p
  | i :: ws' =>
      let p := (fst p ++ hex (Z.shiftr i 8) ++ " ", snd p) in
      let p := (fst p ++ hex (Z.land i 0x00FF) ++ " ", snd p) in
      let p := (fst p, snd p ++ hex (Z.shiftr i 8) ++ " ") in
      let p := (fst p, snd p ++ hex (Z.land i 0x00FF) ++ " ") in
      dump_words ws' p
  end.

Section Showlog.

(** What [datetime.datetime.now().isoformat()] and [time.asctime()]
    return at the call. *)
Variable now_iso now_asc : string.

(** The binding of the global [regs]. *)
Variable g_regs : option RegisterMap.

(** [if show_time:] *)
Definition show_stamp (show_time : bool) (p : Lines) : Lines :=
  if show_time then add p (now_iso ++ ", ") (now_asc ++ " ") else p.

(** The severity, [ret[0]]. *)
Definition show_level (ret : list Z) (p : Lines) : outcome Lines :=
  r0 <- getitem ret 0 ;;
  if r0 >? Z.of_nat (length log_levels) - 1 then
    Returned (add p (str_int r0) (red ++ str_int r0 ++ black))
  else
    lvl <- getitem log_levels r0 ;;
    Returned (add_both p lvl).

(** The code, [ret[1]]: the name that [pgn_names] has for it, kept for
    the dispatch, or the number in hexadecimal. *)
Definition show_code (ret : list Z) (p : Lines)
  : outcome (Lines * option string) :=
  r1 <- getitem ret 1 ;;
  let code := dict_get pgn_names r1 in
  if truthy_text code then
    Returned (add_both p (", " ++ fmt_opt_text code), code)
  else (* unknown code *)
    Returned (add p (", " ++ hex r1) (", " ++ red ++ hex r1 ++ black), code).

(** Device and optional node address, [ret[2]]. *)
Definition show_device (ret : list Z) (p : Lines) : outcome Lines :=
  r2 <- getitem ret 2 ;;
  let device := Z.land r2 0x00FF in
  r2' <- getitem ret 2 ;;
  let node := Z.shiftr r2' 8 in
  if device >? Z.of_nat (length devices) - 1 then
    Returned (add p (", illegel device: " ++ str_int device)
                (", " ++ red ++ "illegel device: " ++ str_int device ++ black))
  else
    d <- getitem devices device ;;
    let p := add_both p (", " ++ d) in
    Returned (if node >? 0 then add_both p (":" ++ fmt_02x node) else p).

(** The byte count, [ret[3]]: shown as it is, used no larger than 8. *)
Definition show_bytes (ret : list Z) (p : Lines) : outcome (Lines * Z) :=
  bytes <- getitem ret 3 ;;
  if bytes <=? 8 then
    Returned (add_both p (", bytes:" ++ str_int bytes), bytes)
  else
    Returned (add p (", bytes(illegal value, max 8):" ++ str_int bytes)
                (", " ++ red ++ "bytes(illegal value, max 8):"
                      ++ str_int bytes ++ black),
              8 (* show the legal number *)).

(** [code == 'J1939_STATUS'] *)
Definition show_j1939_status (ret : list Z) (p : Lines) : outcome Lines :=
  r4 <- getitem ret 4 ;;
  let j1939_status := dict_get j1939_statuses r4 in
  if truthy_text j1939_status then
    Returned (add_both p (", " ++ fmt_opt_text j1939_status))
  else
    h <- hex_of_lookup j1939_status ;;
    h' <- hex_of_lookup j1939_status ;;
    Returned (add p (", " ++ h) (", " ++ red ++ h' ++ black)).

(** [code == 'Controller 1st PGN'] *)
Definition show_controller_1st (ret : list Z) (p : Lines) : outcome Lines :=
  generator_power_settings <- getitem ret 4 ;;
  r5 <- getitem ret 5 ;;
  let control_voltage := Z.shiftr r5 8 in
  r5' <- getitem ret 5 ;;
  let max_charging_current := Z.land r5' 0x00FF in
  r6 <- getitem ret 6 ;;
  let start_delay := Z.shiftr r6 8 in
  r6' <- getitem ret 6 ;;
  let stop_delay := Z.land r6' 0x00FF in
  lvco <- getitem ret 7 ;;
  let more :=
    ", GENERATOR_POWER_SETTINGS:" ++ str_int generator_power_settings
    ++ ", CONTROL_VOLTAGE:" ++ str_int control_voltage
    ++ ", MAX_CHARGING_CURRENT:" ++ str_int max_charging_current
    ++ ", START_DELAY:" ++ str_int start_delay
    ++ ", STOP_DELAY:" ++ str_int stop_delay
    ++ ", LVCO:" ++ str_int lvco in
  Returned (add_both p more).

(** [code == 'Controller 2nd PGN'] *)
Definition show_controller_2nd (ret : list Z) (p : Lines) : outcome Lines :=
  start_voltage <- getitem ret 4 ;;
  stop_voltage <- getitem ret 5 ;;
  r6 <- getitem ret 6 ;;
  let unregulated_current := Z.shiftr r6 8 in
  r6' <- getitem ret 6 ;;
  let regulated_current := Z.land r6' 0x00FF in
  regulated_voltage <- getitem ret 7 ;;
  let more :=
    ", START_VOLTAGE:" ++ str_int start_voltage
    ++ ", STOP_VOLTAGE:" ++ str_int stop_voltage
    ++ ", UNREGULATED_CURRENT:" ++ str_int unregulated_current
    ++ ", REGULATED_CURRENT:" ++ str_int regulated_current
    ++ ", REGULATED_VOLTAGE:" ++ str_int regulated_voltage in
  Returned (add_both p more).

(** The two flag texts of the third controller frame and their join:
    ['Low voltage warning' if r5 & 0x0001 == 1 else ''],
    ['LVCO' if r5 & 0x0002 == 1 else ''] (where [&] binds tighter than
    [==]), then [';'.join([...]).strip(';')]. *)
Definition bit_low_voltage_warning (r5 : Z) : string :=
  if Z.land r5 0x0001 =? 1 then "Low voltage warning" else "".

Definition bit_lvco (r5 : Z) : string :=
  if Z.land r5 0x0002 =? 1 then "LVCO" else "".

Definition join_flags (a b : string) : string :=
  strip_char ";" (join ";" [a; b]).

(** [code == 'Controller 3rd PGN'] *)
Definition show_controller_3rd (ret : list Z) (p : Lines) : outcome Lines :=
  battery_voltage <- getitem ret 4 ;;
  r5 <- getitem ret 5 ;;
  let charger_mode := dict_get charger_modes (Z.shiftr r5 8) in
  r5' <- getitem ret 5 ;;
  r5'' <- getitem ret 5 ;;
  let bit := join_flags (bit_low_voltage_warning r5') (bit_lvco r5'') in
  r6 <- getitem ret 6 ;;
  let charging_current := Z.shiftr r6 8 in
  r6' <- getitem ret 6 ;;
  let gen_control := dict_get gen_controls (Z.land r6' 0x00FF) in
  let more :=
    ", BATTERY_VOLTAGE:" ++ str_int battery_voltage
    ++ ", CHARGER_MODE:" ++ fmt_opt_text charger_mode
    ++ ", BIT:" ++ bit
    ++ ", CHARGING_CURRENT:" ++ str_int charging_current
    ++ ", GEN_CONTROL:" ++ fmt_opt_text gen_control in
  Returned (add_both p more).

(** [code == 'Modbus Registers'] *)
Definition show_modbus_registers (ret : list Z) (p : Lines)
  : outcome Lines :=
  regs <- global_regs g_regs ;;
  r4 <- getitem ret 4 ;;
  let register := reverseRegister regs r4 in
  value <- getitem ret 5 ;;
  let value :=
    if String.eqb register "WARMUP_STATE" then
      fmt_opt_text (dict_get warmup_states value)
    else if String.eqb register "AC_INPUT" then
      fmt_opt_text (dict_get ac_inputs value)
    else str_int value in
  let more := ", " ++ register ++ ":" ++ value in
  Returned (add_both p more).

(** [code == 'AdvDCS Response'] *)
Definition show_advdcs_response (ret : list Z) (p : Lines)
  : outcome Lines :=
  r4 <- getitem ret 4 ;;
  let genset_status :=
    dict_get genset_statuses (Z.land (Z.shiftr r4 8) 0x0F) in
  r4' <- getitem ret 4 ;;
  let control_switch_position :=
    dict_get control_switch_positions
      (Z.shiftr (Z.land (Z.shiftr r4' 8) 0x40) 4) in
  let more :=
    ", GENSET_STATUS:" ++ fmt_opt_text genset_status
    ++ ", CONTROL_SWITCH_POSITION:"
    ++ fmt_opt_text control_switch_position in
  Returned (add_both p more).

(** The last branch: unformatted data. *)
Definition show_unformatted (ret : list Z) (bytes : Z) (p : Lines)
  : outcome Lines :=
  let p := add_both p ", data: " in
  (* ret[3] is in bytes, but values are in words *)
  let p := dump_words (slice ret 4 (4 + floor_half bytes)) p in
  if bytes mod 2 =? 1 then
    (* if an odd number, there's one more byte *)
    w <- getitem ret (4 + ceil_half bytes) ;;
    let p := (fst p ++ hex (Z.shiftr w 8) ++ " ", snd p) in
    w' <- getitem ret (4 + ceil_half bytes) ;;
    Returned (fst p, snd p ++ hex (Z.shiftr w' 8) ++ " ")
  else Returned p.

(** The [if code == ...: ... elif ...: ... else: ...] chain. *)
Definition show_payload (ret : list Z) (code : option string) (bytes : Z)
           (p : Lines) : outcome Lines :=
  if code_is code "J1939_STATUS" then show_j1939_status ret p
  else if code_is code "Controller 1st PGN" then show_controller_1st ret p
  else if code_is code "Controller 2nd PGN" then show_controller_2nd ret p
  else if code_is code "Controller 3rd PGN" then show_controller_3rd ret p
  else if code_is code "Modbus Registers" then show_modbus_registers ret p
  else if code_is code "AdvDCS Response" then show_advdcs_response ret p
  else show_unformatted ret bytes p.

(** The decode of [showlog], up to and including [line += '\n']:
    the pair ([line], [cline]), or the exception that escapes. *)
Definition showlog_decode (ret : list Z) (show_time : bool)
  : outcome Lines :=
  let p : Lines := ("", "") in
  let p := show_stamp show_time p in
  (* decode *)
  p <- show_level ret p ;;
  pc <- show_code ret p ;;
  let '(p, code) := pc in
  p <- show_device ret p ;;
  pb <- show_bytes ret p ;;
  let '(p, bytes) := pb in
  p <- show_payload ret code bytes p ;;
  Returned (fst p ++ nl, snd p).

End Showlog.

(** Where the decoded texts go: the [-LOG-] element of the window and,
    when [log_handle] is not [None], the log file, flushed every 100
    writes. *)
Record LogSink : Type := mk_sink {
  window_log : list string;
  log_handle : option (list string);
  write_count : Z;
  flushes : nat
}.

Definition showlog_emit (p : Lines) (s : LogSink) : LogSink :=
  let s := mk_sink (window_log s ++ [snd p])%list (log_handle s)
                   (write_count s) (flushes s) in
  match log_handle s with
  | Some written =>
      let wc := write_count s + 1 in
      if wc >=? 100 then
        mk_sink (window_log s) (Some (written ++ [fst p])%list) 0 (S (flushes s))
      else
        mk_sink (window_log s) (Some (written ++ [fst p])%list) wc (flushes s)
  | None => s
  end.

(** [showlog(ret, show_time, log_handle)] as V1.4.0 runs it. *)
Definition showlog (now_iso now_asc : string) (ret : list Z)
           (show_time : bool) (s : LogSink) : outcome LogSink :=
  p <- showlog_decode now_iso now_asc module_regs ret show_time ;;
  Returned (showlog_emit p s).

(** The decode without time stamp, as the running program has it. *)
Definition decode (ret : list Z) : outcome Lines :=
  showlog_decode "" "" module_regs ret false.

End Decoder.

(* ===================================================================== *)
(** ** Value coercion of a script cell (the inner loop of [run_script]) *)
(* ===================================================================== *)

Module Coercion.

(** A float as [float(text)] read it: the decimal value [mant * 10^exp10]
    before rounding to a double, or one of the special values.  The
    rounding is not part of this development. *)
Inductive pyfloat : Type :=
| FNan
| FInf (negative : bool)
| FDec (negative : bool) (mant : Z) (exp10 : Z).

(** The value that one script cell becomes. *)
Inductive Token : Type :=
| TInt (n : Z)
| TFloat (f : pyfloat)
| TBool (b : bool)
| TText (s : string).

(** White space that [str.strip()] drops. *)
Definition is_space (c : ascii) : bool :=
  let n := nat_of_ascii c in
  ((9 <=? n) && (n <=? 13) || (28 <=? n) && (n <=? 32))%nat.

Definition is_digit (c : ascii) : bool :=
  let n := nat_of_ascii c in ((48 <=? n) && (n <=? 57))%nat.

Definition digit_val (c : ascii) : Z := Z.of_nat (nat_of_ascii c) - 48.

Fixpoint lstrip_l (s : list ascii) : list ascii :=
  match s with
  | c :: s' => if is_space c then lstrip_l s' else s
  | [] => []
  end.

Definition strip_l (s : list ascii) : list ascii :=
  rev (lstrip_l (rev (lstrip_l s))).

(** [s.strip()]. *)
Definition strip (s : string) : string :=
  string_of_list_ascii (strip_l (list_ascii_of_string s)).

(** White space that [int()] and [float()] drop around an ASCII text:
    tab, newline, vertical tab, form feed, carriage return and blank, not
    the four separators 0x1c-0x1f that [str.strip()] drops as well. *)
Definition is_number_space (c : ascii) : bool :=
  let n := nat_of_ascii c in
  ((9 <=? n) && (n <=? 13) || (n =? 32))%nat.

Fixpoint lstrip_number (s : list ascii) : list ascii :=
  match s with
  | c :: s' => if is_number_space c then lstrip_number s' else s
  | [] => []
  end.

Definition strip_number (s : list ascii) : list ascii :=
  rev (lstrip_number (rev (lstrip_number s))).

Definition lower_c (c : ascii) : ascii :=
  let n := nat_of_ascii c in
  if ((65 <=? n) && (n <=? 90))%nat then ascii_of_nat (n + 32) else c.

(** [s.lower()]. *)
Definition lower (s : string) : string :=
  string_of_list_ascii (map lower_c (list_ascii_of_string s)).

(** Digits with single underscores between them: the accumulated value
    and the number of digits.  [prev_digit] tells whether the previous
    character was a digit (an underscore must follow one). *)
Fixpoint digitpart_from (s : list ascii) (prev_digit : bool) (acc : Z)
         (count : nat) : option (Z * nat) :=
  match s with
  | [] => if prev_digit then Some (acc, count) else None
  | c :: s' =>
      if is_digit c then
        digitpart_from s' true (10 * acc + digit_val c) (S count)
      else if Ascii.eqb c "_" then
        if prev_digit then
          match s' with
          | d :: _ => if is_digit d then digitpart_from s' false acc count
                      else None
          | [] => None
          end
        else None
      else None
  end.

(** A non-empty run of digits, underscores allowed between digits. *)
Definition digitpart (s : list ascii) : option (Z * nat) :=
  match s with
  | [] => None
  | _ => digitpart_from s false 0 0%nat
  end.

(** An optional sign in front: the sign and the rest. *)
Definition take_sign (s : list ascii) : bool * list ascii :=
  match s with
  | c :: s' =>
      if Ascii.eqb c "-" then (true, s')
      else if Ascii.eqb c "+" then (false, s')
      else (false, s)
  | [] => (false, [])
  end.

(** The default of [sys.get_int_max_str_digits()], which the program
    leaves as it is. *)
Definition int_max_str_digits : Z := 4300.

(** The integer literal in a text, sign and white space apart: its value
    and the number of its digits, leading zeros included. *)
Definition int_literal (a : string) : option (Z * nat) :=
  let '(neg, body) := take_sign (strip_number (list_ascii_of_string a)) in
  match digitpart body with
  | Some (v, count) => Some (if neg then - v else v, count)
  | None => None
  end.

(** [int(a)] on a text: [None] stands for [ValueError], which is raised
    for a text that is no integer literal and for a literal of more
    digits than the limit. *)
Definition parse_int (a : string) : option Z :=
  match int_literal a with
  | Some (v, count) =>
      if Z.of_nat count <=? int_max_str_digits then Some v else None
  | None => None
  end.

(** Split at the first character that satisfies [p]. *)
Fixpoint split_at (p : ascii -> bool) (s : list ascii)
  : list ascii * option (list ascii) :=
  match s with
  | [] => ([], None)
  | c :: s' =>
      if p c then ([], Some s')
      else let '(a, b) := split_at p s' in (c :: a, b)
  end.

Definition is_e (c : ascii) : bool := Ascii.eqb c "e" || Ascii.eqb c "E".
Definition is_dot (c : ascii) : bool := Ascii.eqb c ".".

(** The mantissa [digits [. [digits]]] or [. digits]: its value as an
    integer and the number of digits behind the point. *)
Definition parse_mantissa (s : list ascii) : option (Z * nat) :=
  match split_at is_dot s with
  | (ip, None) =>
      match digitpart ip with
      | Some (v, _) => Some (v, 0%nat)
      | None => None
      end
  | (ip, Some fp) =>
      match ip, fp with
      | [], [] => None
      | _ :: _, [] =>
          match digitpart ip with
          | Some (v, _) => Some (v, 0%nat)
          | None => None
          end
      | [], _ :: _ =>
          match digitpart fp with
          | Some (v, n) => Some (v, n)
          | None => None
          end
      | _ :: _, _ :: _ =>
          match digitpart ip, digitpart fp with
          | Some (v, _), Some (w, n) => Some (v * 10 ^ Z.of_nat n + w, n)
          | _, _ => None
          end
      end
  end.

Definition parse_exponent (s : list ascii) : option Z :=
  let '(neg, body) := take_sign s in
  match digitpart body with
  | Some (v, _) => Some (if neg then - v else v)
  | None => None
  end.

(** [float(a)] on a text: [None] stands for [ValueError]. *)
Definition parse_float (a : string) : option pyfloat :=
  let '(neg, body) := take_sign (strip_number (list_ascii_of_string a)) in
  let word := string_of_list_ascii (map lower_c body) in
  if String.eqb word "inf" || String.eqb word "infinity" then Some (FInf neg)
  else if String.eqb word "nan" then Some FNan
  else
    match split_at is_e body with
    | (m, None) =>
        match parse_mantissa m with
        | Some (v, n) => Some (FDec neg v (- Z.of_nat n))
        | None => None
        end
    | (m, Some e) =>
        match parse_mantissa m, parse_exponent e with
        | Some (v, n), Some x => Some (FDec neg v (x - Z.of_nat n))
        | _, _ => None
        end
    end.

(** The text of the [ValueError] of [int(a)]. *)
Definition int_error_text (a : string) : string :=
  match int_literal a with
  | Some (_, count) =>
      "Exceeds the limit (" ++ str_int int_max_str_digits
        ++ " digits) for integer string conversion: value has "
        ++ str_int (Z.of_nat count)
        ++ " digits; use sys.set_int_max_str_digits() to increase the limit"
  | None => "invalid literal for int() with base 10: " ++ repr_text a
  end.

Definition int_error (a : string) : exn :=
  mk_exn ValueError (int_error_text a).

(** [int(a)] and [float(a)] with the exception they raise. *)
Definition py_int (a : string) : outcome Z :=
  match parse_int a with
  | Some n => Returned n
  | None => Raised (int_error a)
  end.

Definition py_float (a : string) : outcome pyfloat :=
  match parse_float a with
  | Some f => Returned f
  | None =>
      Raised (mk_exn ValueError
                ("could not convert string to float: " ++ repr_text a))
  end.

(** [try: c  except ValueError: handler]. *)
Definition except_ValueError {A} (c handler : outcome A) : outcome A :=
  match c with
  | Returned a => Returned a
  | Raised e =>
      match exn_cls e with
      | ValueError => handler
      | _ => Raised e
      end
  end.

(** The body of [for a in row]: convert things that look like numbers
    to numbers. *)
Definition coerce (a : string) : outcome Token :=
  except_ValueError
    (n <- py_int a ;; Returned (TInt n))%outcome
    (except_ValueError
       (f <- py_float a ;; Returned (TFloat f))%outcome
       (if String.eqb (lower a) "false" then Returned (TBool false)
        else if String.eqb (lower a) "true" then Returned (TBool true)
        else Returned (TText a))).

(** [b = []] and the loop [for a in row] that appends to it. *)
Fixpoint coerce_row (row : list string) : outcome (list Token) :=
  match row with
  | [] => Returned []
  | a :: row' =>
      (t <- coerce a ;;
       b <- coerce_row row' ;;
       Returned (t :: b))%outcome
  end.

End Coercion.

Export Coercion.

(* ===================================================================== *)
(** ** Results, their texts and the assertion language *)
(* ===================================================================== *)

Module Values.

(** What a command's [result] can be: what the instrument returned, [None]
    after a swallowed error, or a placeholder text.  [VOther] is any other
    object, of which only the type name, [str()] and truth value matter. *)
Inductive PyVal : Type :=
| VNone
| VBool (b : bool)
| VInt (n : Z)
| VText (s : string)
| VList (l : list Z)
| VOther (type_name text : string) (truth : bool).

Definition type_name (v : PyVal) : string :=
  match v with
  | VNone => "NoneType"
  | VBool _ => "bool"
  | VInt _ => "int"
  | VText _ => "str"
  | VList _ => "list"
  | VOther t _ _ => t
  end.

Definition str_bool (b : bool) : string := if b then "True" else "False".

(** [str(l)] for a list of integers. *)
Definition str_list (l : list Z) : string :=
  "[" ++ join ", " (map str_int l) ++ "]".

(** [str(v)]. *)
Definition str_val (v : PyVal) : string :=
  match v with
  | VNone => "None"
  | VBool b => str_bool b
  | VInt n => str_int n
  | VText s => s
  | VList l => str_list l
  | VOther _ t _ => t
  end.

(** The truth value that [if v:] tests. *)
Definition truthy (v : PyVal) : bool :=
  match v with
  | VNone => false
  | VBool b => b
  | VInt n => negb (n =? 0)
  | VText s => negb (String.eqb s "")
  | VList l => match l with [] => false | _ => true end
  | VOther _ _ b => b
  end.

(** *** Comparison, for the assertion language *)

Inductive cmp_op : Type := Lt | Le | Gt | Ge | Eq | Ne.

Definition op_text (o : cmp_op) : string :=
  match o with
  | Lt => "<" | Le => "<=" | Gt => ">" | Ge => ">=" | Eq => "==" | Ne => "!="
  end.

Definition of_comparison (o : cmp_op) (c : comparison) : bool :=
  match o, c with
  | Lt, Datatypes.Lt => true
  | Le, Datatypes.Lt | Le, Datatypes.Eq => true
  | Gt, Datatypes.Gt => true
  | Ge, Datatypes.Gt | Ge, Datatypes.Eq => true
  | Eq, Datatypes.Eq => true
  | Ne, Datatypes.Lt | Ne, Datatypes.Gt => true
  | _, _ => false
  end.

Fixpoint compare_lists (a b : list Z) : comparison :=
  match a, b with
  | [], [] => Datatypes.Eq
  | [], _ :: _ => Datatypes.Lt
  | _ :: _, [] => Datatypes.Gt
  | x :: a', y :: b' =>
      match Z.compare x y with
      | Datatypes.Eq => compare_lists a' b'
      | c => c
      end
  end.

(** The integer that a number is in a comparison. *)
Definition as_number (v : PyVal) : option Z :=
  match v with
  | VInt n => Some n
  | VBool b => Some (if b then 1 else 0)
  | _ => None
  end.

Definition unorderable (o : cmp_op) (a b : PyVal) : exn :=
  mk_exn TypeError
    ("'" ++ op_text o ++ "' not supported between instances of '"
         ++ type_name a ++ "' and '" ++ type_name b ++ "'").

(** [a op b] on the built-in types; [None] (no answer) when an operand is
    a [VOther], whose comparison methods are not known here. *)
Definition compare_vals (o : cmp_op) (a b : PyVal)
  : option (outcome PyVal) :=
  match a, b with
  | VOther _ _ _, _ | _, VOther _ _ _ => None
  | _, _ =>
      match as_number a, as_number b with
      | Some x, Some y =>
          Some (Returned (VBool (of_comparison o (Z.compare x y))))
      | _, _ =>
          match a, b with
          | VText s, VText t =>
              Some (Returned (VBool (of_comparison o (String.compare s t))))
          | VList l, VList m =>
              Some (Returned (VBool (of_comparison o (compare_lists l m))))
          | VNone, VNone =>
              match o with
              | Eq => Some (Returned (VBool true))
              | Ne => Some (Returned (VBool false))
              | _ => Some (Raised (unorderable o a b))
              end
          | _, _ =>
              match o with
              | Eq => Some (Returned (VBool false))
              | Ne => Some (Returned (VBool true))
              | _ => Some (Raised (unorderable o a b))
              end
          end
      end
  end.

(** *** The comparison fragment of assertion expressions

    [atom op atom] with [atom] the name [x] or a decimal integer literal
    and blanks between the tokens. *)
Inductive atom : Type := AX | ALit (n : Z).

Definition is_blank (c : ascii) : bool :=
  Ascii.eqb c " " || Ascii.eqb c "009"%char.

Fixpoint skip_blanks (s : list ascii) : list ascii :=
  match s with
  | c :: s' => if is_blank c then skip_blanks s' else s
  | [] => []
  end.

Fixpoint take_digits (s : list ascii) : list ascii * list ascii :=
  match s with
  | c :: s' =>
      if Coercion.is_digit c then
        let '(d, r) := take_digits s' in (c :: d, r)
      else ([], s)
  | [] => ([], [])
  end.

Definition is_name_char (c : ascii) : bool :=
  let n := nat_of_ascii c in
  (Coercion.is_digit c || Ascii.eqb c "_" || (128 <=? n)%nat
   || (65 <=? n) && (n <=? 90) || (97 <=? n) && (n <=? 122))%nat.

(** A decimal literal: [0], or digits that do not start with [0], no
    more of them than the limit of integer conversion. *)
Definition literal_value (d : list ascii) : option Z :=
  match d with
  | [] => None
  | [c] => Some (Coercion.digit_val c)
  | c :: _ =>
      if Ascii.eqb c "0" then None
      else if Z.of_nat (length d) <=? Coercion.int_max_str_digits then
        Some (fold_left (fun acc c => 10 * acc + Coercion.digit_val c) d 0)
      else None
  end.

Definition lex_atom (s : list ascii) : option (atom * list ascii) :=
  match s with
  | [] => None
  | c :: s' =>
      if Ascii.eqb c "x" then
        match s' with
        | d :: _ => if is_name_char d then None else Some (AX, s')
        | [] => Some (AX, s')
        end
      else
        let '(d, r) := take_digits s in
        match literal_value d, r with
        | Some n, [] => Some (ALit n, r)
        | Some n, e :: _ =>
            if is_name_char e || Ascii.eqb e "." then None
            else Some (ALit n, r)
        | None, _ => None
        end
  end.

Definition lex_op (s : list ascii) : option (cmp_op * list ascii) :=
  match s with
  | "<"%char :: "="%char :: r => Some (Le, r)
  | ">"%char :: "="%char :: r => Some (Ge, r)
  | "="%char :: "="%char :: r => Some (Eq, r)
  | "!"%char :: "="%char :: r => Some (Ne, r)
  | "<"%char :: r =>
      match r with
      | "<"%char :: _ | ">"%char :: _ => None
      | _ => Some (Lt, r)
      end
  | ">"%char :: r =>
      match r with
      | ">"%char :: _ => None
      | _ => Some (Gt, r)
      end
  | _ => None
  end.

Definition parse_comparison (src : string)
  : option (atom * cmp_op * atom) :=
  match lex_atom (skip_blanks (list_ascii_of_string src)) with
  | Some (a, r) =>
      match lex_op (skip_blanks r) with
      | Some (o, r) =>
          match lex_atom (skip_blanks r) with
          | Some (b, r) =>
              match skip_blanks r with
              | [] => Some (a, o, b)
              | _ => None
              end
          | None => None
          end
      | None => None
      end
  | None => None
  end.

Definition atom_val (x : PyVal) (a : atom) : PyVal :=
  match a with
  | AX => x
  | ALit n => VInt n
  end.

(** [eval(src, {}, {"x": x})] on the comparison fragment; [None] when
    [src] is outside the fragment. *)
Definition eval_comparison (src : string) (x : PyVal)
  : option (outcome PyVal) :=
  match parse_comparison src with
  | Some (a, o, b) => compare_vals o (atom_val x a) (atom_val x b)
  | None => None
  end.

End Values.

Export Values.

(* ===================================================================== *)
(** ** The program state and the collaborators *)
(* ===================================================================== *)

Module Machine.

(** A call on the [minimalmodbus] instrument, with its arguments. *)
Inductive Call : Type :=
| ReadRegister (registeraddress number_of_decimals : Z)
| ReadRegisters (addr : Z) (count : Token)
| WriteRegister (addr : Z) (val : Token) (number_of_decimals fc : Z).

(** The state that the interpreter reads and writes: the global
    [comm_status], the two elements of the window that it updates, and
    what it did to the outside (instrument calls, console lines and
    pop-ups, sleeps), oldest first. *)
Record World : Type := mk_world {
  comm_status : string;
  win_output : string;
  win_comms : string;
  calls : list Call;
  console : list string;
  sleeps : list Token
}.

Definition initial_world : World := mk_world "" "" "" [] [] [].

(** What Python does with a float, kept abstract (see [pyfloat]). *)
Record FloatOps : Type := mk_float_ops {
  float_repr : pyfloat -> string;        (* repr(f) *)
  float_gt_one : pyfloat -> bool;        (* f > 1 *)
  float_truthy : pyfloat -> bool;        (* bool(f) *)
  float_sleepable : pyfloat -> bool      (* neither negative nor NaN *)
}.

(** The collaborators outside the program.

    [instrument] answers a call given the calls made before it; an error
    of the transport is a [Raised] outcome.  [host_eval] is Python's
    [eval(src, {}, {"x": x})] for expressions outside the comparison
    fragment of [Values]; the class of its exception stands for that
    class and its subclasses.  [csv_reader] is
    [csv.reader(lines, skipinitialspace=True, strict=False)], read to the
    end. *)
Record Host : Type := mk_host {
  instrument : list Call -> Call -> outcome PyVal;
  host_eval : string -> PyVal -> outcome PyVal;
  floats : FloatOps;
  csv_reader : list string -> list (list string)
}.

(** Computations that read and write the [World] and may raise; the
    state survives an exception. *)
Definition M (A : Type) : Type := World -> outcome A * World.

Definition mret {A} (a : A) : M A := fun w => (Returned a, w).

Definition mbind {A B} (c : M A) (k : A -> M B) : M B :=
  fun w =>
    match c w with
    | (Returned a, w') => k a w'
    | (Raised e, w') => (Raised e, w')
    end.

Definition mraise {A} (e : exn) : M A := fun w => (Raised e, w).

Definition lift {A} (o : outcome A) : M A := fun w => (o, w).

(** [try: c  except ...: handler], where [handler e] is [None] for an
    exception that no clause catches. *)
Definition try_except {A} (c : M A) (handler : exn -> option (M A)) : M A :=
  fun w =>
    match c w with
    | (Returned a, w') => (Returned a, w')
    | (Raised e, w') =>
        match handler e with
        | Some h => h w'
        | None => (Raised e, w')
        end
    end.

Definition set_comm_status (s : string) : M unit :=
  fun w => (Returned tt,
            mk_world s (win_output w) (win_comms w) (calls w) (console w)
                     (sleeps w)).

Definition get_comm_status : M string :=
  fun w => (Returned (comm_status w), w).

(** [print(s)], [sg.popup(s)] and [sg.popup_timed(s)]. *)
Definition emit (s : string) : M unit :=
  fun w => (Returned tt,
            mk_world (comm_status w) (win_output w) (win_comms w) (calls w)
                     (console w ++ [s])%list (sleeps w)).

(** [window['-OUTPUT-'].update(ret)]. *)
Definition update_output (ret : string) : M unit :=
  fun w => (Returned tt,
            mk_world (comm_status w) ret (win_comms w) (calls w) (console w)
                     (sleeps w)).

(** [window['-COMMS-'].update(comm_status)]. *)
Definition update_comms : M unit :=
  fun w => (Returned tt,
            mk_world (comm_status w) (win_output w) (comm_status w) (calls w)
                     (console w) (sleeps w)).

(** A call on the instrument: recorded, then answered. *)
Definition call_instrument (h : Host) (c : Call) : M PyVal :=
  fun w => (instrument h (calls w) c,
            mk_world (comm_status w) (win_output w) (win_comms w)
                     (calls w ++ [c])%list (console w) (sleeps w)).

Definition record_sleep (d : Token) : M unit :=
  fun w => (Returned tt,
            mk_world (comm_status w) (win_output w) (win_comms w) (calls w)
                     (console w) (sleeps w ++ [d])%list).

End Machine.

Export Machine.

Declare Scope M_scope.
Delimit Scope M_scope with M.
Notation "x <- c ;; k" := (mbind c (fun x => k))
  (at level 61, c at next level, right associativity) : M_scope.
Notation "c ;;; k" := (mbind c (fun _ => k))
  (at level 61, right associativity) : M_scope.

(* ===================================================================== *)
(** ** Transport wrappers and the script interpreter *)
(* ===================================================================== *)

Module Interpreter.

Local Open Scope M_scope.

Section WithHost.

Variable h : Host.

(** The global [product]: the index of the selected product. *)
Variable product : nat.

(** *** Tokens as Python values *)

(** [f'{t}']. *)
Definition fmt_token (t : Token) : string :=
  match t with
  | TInt n => str_int n
  | TFloat f => float_repr (floats h) f
  | TBool b => str_bool b
  | TText s => s
  end.

(** [repr(t)], which is the text of a [KeyError] on the key [t]. *)
Definition repr_token (t : Token) : string :=
  match t with
  | TText s => repr_text s
  | _ => fmt_token t
  end.

Definition token_type (t : Token) : string :=
  match t with
  | TInt _ => "int"
  | TFloat _ => "float"
  | TBool _ => "bool"
  | TText _ => "str"
  end.

(** [if t:]. *)
Definition token_truthy (t : Token) : bool :=
  match t with
  | TInt n => negb (n =? 0)
  | TFloat f => float_truthy (floats h) f
  | TBool b => b
  | TText s => negb (String.eqb s "")
  end.

(** [t > 1]. *)
Definition token_gt_one (t : Token) : outcome bool :=
  match t with
  | TInt n => Returned (n >? 1)
  | TFloat f => Returned (float_gt_one (floats h) f)
  | TBool _ => Returned false
  | TText _ =>
      Raised (mk_exn TypeError
                "'>' not supported between instances of 'str' and 'int'")
  end.

(** [t.strip()]. *)
Definition token_strip (t : Token) : outcome string :=
  match t with
  | TText s => Returned (Coercion.strip s)
  | _ =>
      Raised (mk_exn AttributeError
                ("'" ++ token_type t ++ "' object has no attribute 'strip'"))
  end.

(** The integer that [range(t)] counts to. *)
Definition range_count (t : Token) : outcome Z :=
  match t with
  | TInt n => Returned n
  | TBool b => Returned (if b then 1 else 0)
  | _ =>
      Raised (mk_exn TypeError
                ("'" ++ token_type t
                     ++ "' object cannot be interpreted as an integer"))
  end.

(** [time.sleep(delay)]. *)
Definition time_sleep (delay : Token) : M unit :=
  match delay with
  | TInt n =>
      if n <? 0 then
        mraise (mk_exn ValueError "sleep length must be non-negative")
      else record_sleep delay
  | TBool _ => record_sleep delay
  | TFloat f =>
      if float_sleepable (floats h) f then record_sleep delay
      else mraise (mk_exn ValueError "sleep length must be non-negative")
  | TText _ =>
      mraise (mk_exn TypeError
                "'str' object cannot be interpreted as an integer")
  end.

(** [products[product][3][key]]. *)
Definition lookup_register (line : list Token) : outcome Z :=
  (p <- getitem products (Z.of_nat product) ;;
   key <- getitem line 0 ;;
   match key with
   | TText s =>
       match resolve (product_regs p) s with
       | Some a => Returned a
       | None => Raised (mk_exn KeyError (repr_token key))
       end
   | _ => Raised (mk_exn KeyError (repr_token key))
   end)%outcome.

(** *** The transport wrappers *)

(** Returns the value read or an exception. *)
Definition read_register (registeraddress number_of_decimals : Z)
  : M PyVal :=
  try_except
    (call_instrument h (ReadRegister registeraddress number_of_decimals))
    (fun e =>
       match exn_cls e with
       | IllegalRequestError =>
           Some (set_comm_status (exn_msg e) ;;; mraise e)
       | InvalidResponseError =>
           Some (set_comm_status (exn_msg e) ;;;
                 emit ("Invalid Response error " ++ exn_msg e
                         ++ ". Continuing...") ;;;
                 mret VNone)
       | NoResponseError =>
           Some (set_comm_status (exn_msg e) ;;;
                 cs <- get_comm_status ;;
                 emit cs ;;;
                 emit "[ignoring error]" ;;;
                 mret VNone)
       | _ => None
       end).

Definition read_registers (addr : Z) (val : Token) : M PyVal :=
  try_except
    (call_instrument h (ReadRegisters addr val))
    (fun e =>
       match exn_cls e with
       | IllegalRequestError =>
           Some (set_comm_status (exn_msg e) ;;;
                 emit (exn_msg e) ;;;
                 mret VNone)
       | InvalidResponseError =>
           Some (set_comm_status (exn_msg e) ;;;
                 emit (exn_msg e) ;;;
                 mret VNone)
       | NoResponseError =>
           Some (set_comm_status (exn_msg e) ;;;
                 emit (exn_msg e) ;;;
                 emit "[Ignoring error]" ;;;
                 mret VNone)
       | NameError => Some (mraise e)
       | _ => None
       end).

Definition write_register (addr : Z) (val : Token) (desc : string)
  : M PyVal :=
  let failed (ret : string) : option (M string) :=
    Some (set_comm_status ret ;;; mret ret) in
  ret <- try_except
           (p <- lift (getitem products (Z.of_nat product)) ;;
            call_instrument h
              (WriteRegister addr val 0 (product_write_fc p)) ;;;
            set_comm_status "" ;;;
            mret "OK")
           (fun e =>
              match exn_cls e with
              | IllegalRequestError => failed "Illegal request error"
              | InvalidResponseError => failed "Invalid response error"
              | NoResponseError =>
                  failed "No communication with the instrument (null answer)"
              | _ => None
              end) ;;
  mret (VText ret).

(** *** Assertions *)

(** [eval(assertion, {}, {"x": result})]. *)
Definition py_eval (assertion : string) (result : PyVal) : outcome PyVal :=
  match eval_comparison assertion result with
  | Some r => r
  | None => host_eval h assertion result
  end.

(** The classes of [except (NameError, TypeError, SyntaxError)]. *)
Definition caught_by_assert (c : exn_class) : bool :=
  match c with
  | NameError | TypeError | SyntaxError => true
  | _ => false
  end.

(** The [if len(assertion) > 0:] statement of the loop body. *)
Definition check_assertion (assertion : string) (result : PyVal)
           (ret : string) : M string :=
  if (0 <? String.length assertion)%nat then
    match py_eval assertion result with
    | Raised e =>
        if caught_by_assert (exn_cls e)
        then mret (ret ++ ": *** ERROR *** " ++ exn_msg e)
        else mraise e
    | Returned asserted =>
        if truthy asserted then mret (ret ++ ": PASS")
        else mret (ret ++ ": *** FAIL ***")
    end
  else mret ret.

(** *** One script line *)

(** The part of the loop body that obtains [result]. *)
Definition obtain_result (write val : Token) (addr : Z) (desc : string)
  : M PyVal :=
  if token_truthy write then
    write_register addr val desc
  else
    gt <- lift (token_gt_one val) ;;
    if gt then (* read_registers() *)
      try_except (read_registers addr val)
        (fun e =>
           match exn_cls e with
           | ValueError =>
               Some (emit "ValueError. Maybe you asked for too many registers?" ;;;
                     mret (VText "(null)"))
           | _ => None
           end)
    else (* read_register *)
      try_except (read_register addr 0)
        (fun e =>
           match exn_cls e with
           | IllegalRequestError =>
               Some (emit "IllegalRequestError. Probably the register does not exist on the host." ;;;
                     mret (VText "(Null)"))
           | _ => None
           end).

(** The body of [for i in range(iterations)]. *)
Definition iteration (write val delay : Token) (iterations addr : Z)
           (desc assertion : string) (i : Z) (ret : string) : M string :=
  let ret := if iterations >? 1 then ret ++ str_int (i + 1) ++ ":"
             else ret in
  result <- obtain_result write val addr desc ;;
  let ret := ret ++ str_val result in
  ret <- check_assertion assertion result ret ;;
  let ret := if i + 1 <? iterations then ret ++ "; " else ret in
  update_output ret ;;;
  update_comms ;;;
  time_sleep delay ;;;
  mret (ret ++ nl).

Fixpoint iterate (n : nat) (body : Z -> string -> M string) (i : Z)
         (ret : string) : M string :=
  match n with
  | O => mret ret
  | S n' => ret <- body i ret ;; iterate n' body (i + 1) ret
  end.

(** [line[k]] behind the guard [len(line) < k + 1]. *)
Definition field_or (line : list Token) (k : nat) (default : Token)
  : outcome Token :=
  if (length line <? k + 1)%nat then Returned default
  else getitem line (Z.of_nat k).

(** The description cell, stripped; the empty text when there is none. *)
Definition description (line : list Token) : outcome string :=
  if (length line <? 6)%nat then Returned ""
  else
    (t <- getitem line 5 ;;
     s <- token_strip t ;;
     if (String.length s =? 0)%nat then Returned ""
     else
       t' <- getitem line 5 ;;
       token_strip t')%outcome.

(** The expression behind a case-insensitive [assert:] prefix. *)
Definition assertion_of (desc : string) : string :=
  if (7 <=? String.length desc)%nat
     && String.eqb (Coercion.lower (substring 0 7 desc)) "assert:"
  then Coercion.strip (substring 7 (String.length desc - 7) desc)
  else "".

(** Process a line from the script.
    [line]: command to execute, as a list of parameters;
    [preserve]: content of -OUTPUT- to not overwrite. *)
Definition do_script_line (line : list Token) (preserve : string)
  : M string :=
  let ret := preserve in
  match lookup_register line with
  | Raised e =>
      let status := "Unexpected register name: " ++ exn_msg e
                      ++ ". *** FAIL ***" in
      set_comm_status status ;;;
      let ret := ret ++ status in
      update_output ret ;;;
      update_comms ;;;
      mret ret
  | Returned addr =>
      set_comm_status "" ;;;
      val <- lift (getitem line 1) ;;
      write <- lift (field_or line 2 (TBool false)) ;;
      delay <- lift (field_or line 3 (TInt 0)) ;;
      iterations <- lift (field_or line 4 (TInt 1)) ;;
      desc <- lift (description line) ;;
      let assertion := assertion_of desc in
      let desc := if (String.length desc =? 0)%nat then ": "
                  else " [" ++ desc ++ "]: " in
      name <- lift (getitem line 0) ;;
      ret <- (if token_truthy write then
                mret (ret ++ "Write " ++ fmt_token val ++ " to "
                          ++ fmt_token name)
              else
                gt <- lift (token_gt_one val) ;;
                if gt then (* read multiple registers *)
                  mret (ret ++ "Read " ++ fmt_token val
                            ++ " registers starting at " ++ fmt_token name)
                else
                  mret (ret ++ "Read from " ++ fmt_token name)) ;;
      let ret := ret ++ desc in
      n <- lift (range_count iterations) ;;
      ret <- iterate (Z.to_nat n)
               (iteration write val delay n addr desc assertion) 0 ret ;;
      update_output ret ;;;
      update_comms ;;;
      mret ret
  end.

(** *** A whole script *)

(** The file's text with [\r\n] and [\r] turned into [\n], as a file
    opened in text mode hands it over. *)
Fixpoint translate_newlines (s : list ascii) : list ascii :=
  match s with
  | [] => []
  | c :: s' =>
      if Ascii.eqb c "013"%char then
        match s' with
        | d :: s'' =>
            if Ascii.eqb d "010"%char then "010"%char :: translate_newlines s''
            else "010"%char :: translate_newlines s'
        | [] => ["010"%char]
        end
      else c :: translate_newlines s'
  end.

(** Lines with their newline, the last one possibly without. *)
Fixpoint split_lines (s : list ascii) (cur : list ascii)
  : list (list ascii) :=
  match s with
  | [] => match cur with [] => [] | _ => [rev cur] end
  | c :: s' =>
      if Ascii.eqb c "010"%char then rev (c :: cur) :: split_lines s' []
      else split_lines s' (c :: cur)
  end.

(** [file1.readlines()]. *)
Definition readlines (text : string) : list string :=
  map string_of_list_ascii
      (split_lines (translate_newlines (list_ascii_of_string text)) []).

(** [len(line.strip()) > 0 and line[0] != '#']. *)
Definition executable (line : string) : bool :=
  (0 <? String.length (Coercion.strip line))%nat
  && match line with
     | String c _ => negb (Ascii.eqb c "#")
     | EmptyString => false
     end.

(** [len(ret) == 0 or ret[len(ret) - 1] != '\n']. *)
Definition lacks_final_newline (ret : string) : bool :=
  (String.length ret =? 0)%nat
  || match rev (list_ascii_of_string ret) with
     | c :: _ => negb (Ascii.eqb c "010"%char)
     | [] => true
     end.

(** The body of [for row in rdr], over the rows that are left. *)
Fixpoint run_rows (rows : list (list string)) (ret : string) : M string :=
  match rows with
  | [] => mret ret
  | row :: rows' =>
      update_output ret ;;;
      update_comms ;;;
      if (length row <? 5)%nat then
        run_rows rows'
          (ret ++ "not enough columns in " ++ String dquote_c ""
               ++ repr_row row ++ String dquote_c "" ++ nl)
      else
        b <- lift (coerce_row row) ;;
        ret <- do_script_line b ret ;;
        let ret := if lacks_final_newline ret then ret ++ nl else ret in
        run_rows rows' ret
  end.

(** The two lines that close the report. *)
Definition trailer (count : nat) (ret : string) : string :=
  let ret := ret ++ str_int (Z.of_nat count) ++ " commands processed."
                 ++ nl in
  if contains "*** FAIL ***" ret || contains "*** ERROR ***" ret
  then ret ++ "*** AT LEAST ONE COMMAND FAILED ***"
  else ret ++ "No errors detected".

(** [run_script], from the text of the opened file on. *)
Definition run_script (text : string) : M unit :=
  let ret := "" in
  let lines := filter executable (readlines text) in
  let rdr := csv_reader h lines in
  ret <- run_rows rdr ret ;;
  let ret := trailer (length lines) ret in
  update_output ret ;;;
  update_comms ;;;
  mret tt.

End WithHost.

End Interpreter.

Export Interpreter.

(* ===================================================================== *)
(** ** A concrete host, for running the interpreter on examples *)
(* ===================================================================== *)

Module Csv.

(** The states of the reader of Python's [csv] module that the dialect
    of [run_script] can reach (comma, double quote, doubled quotes,
    [skipinitialspace=True], [strict=False], no escape character). *)
Inductive state : Type :=
| START_RECORD | START_FIELD | IN_FIELD | IN_QUOTED_FIELD
| QUOTE_IN_QUOTED_FIELD | EAT_CRNL.

(** The reader: saved fields and the field under construction, both
    newest first, and the state. *)
Record reader : Type := mk_reader {
  fields : list string;
  field : list ascii;
  st : state
}.

Definition save_field (r : reader) (s : state) : reader :=
  mk_reader (string_of_list_ascii (rev (field r)) :: fields r) [] s.

Definition add_char (r : reader) (c : ascii) (s : state) : reader :=
  mk_reader (fields r) (c :: field r) s.

Definition set_state (r : reader) (s : state) : reader :=
  mk_reader (fields r) (field r) s.

Definition is_newline (c : ascii) : bool :=
  Ascii.eqb c "010"%char || Ascii.eqb c "013"%char.

(** One character; [None] is the end-of-line mark that the reader feeds
    itself behind every line.  The result is [None] for the reader's
    own error (a character behind a newline inside one line). *)
Definition start_field (r : reader) (c : option ascii) : option reader :=
  match c with
  | None => Some (save_field r START_RECORD)
  | Some c =>
      if is_newline c then Some (save_field r EAT_CRNL)
      else if Ascii.eqb c dquote_c then Some (set_state r IN_QUOTED_FIELD)
      else if Ascii.eqb c " " then Some (set_state r START_FIELD)
      else if Ascii.eqb c "," then Some (save_field r START_FIELD)
      else Some (add_char r c IN_FIELD)
  end.

Definition process_char (r : reader) (c : option ascii) : option reader :=
  match st r with
  | START_RECORD =>
      match c with
      | None => Some r
      | Some c' =>
          if is_newline c' then Some (set_state r EAT_CRNL)
          else start_field r c
      end
  | START_FIELD => start_field r c
  | IN_FIELD =>
      match c with
      | None => Some (save_field r START_RECORD)
      | Some c =>
          if is_newline c then Some (save_field r EAT_CRNL)
          else if Ascii.eqb c "," then Some (save_field r START_FIELD)
          else Some (add_char r c IN_FIELD)
      end
  | IN_QUOTED_FIELD =>
      match c with
      | None => Some r
      | Some c =>
          if Ascii.eqb c dquote_c then Some (set_state r QUOTE_IN_QUOTED_FIELD)
          else Some (add_char r c IN_QUOTED_FIELD)
      end
  | QUOTE_IN_QUOTED_FIELD =>
      match c with
      | None => Some (save_field r START_RECORD)
      | Some c =>
          if Ascii.eqb c dquote_c then Some (add_char r c IN_QUOTED_FIELD)
          else if Ascii.eqb c "," then Some (save_field r START_FIELD)
          else if is_newline c then Some (save_field r EAT_CRNL)
          else Some (add_char r c IN_FIELD)
      end
  | EAT_CRNL =>
      match c with
      | None => Some (set_state r START_RECORD)
      | Some c => if is_newline c then Some r else None
      end
  end.

Fixpoint process_line (r : reader) (line : list ascii) : option reader :=
  match line with
  | [] => process_char r None
  | c :: line' =>
      match process_char r (Some c) with
      | Some r' => process_line r' line'
      | None => None
      end
  end.

(** All rows of the reader over [lines]; a record may span lines when a
    quoted field is open at the end of a line.  The reader's own error
    ends the rows. *)
Fixpoint read_rows (r : reader) (lines : list string) : list (list string) :=
  match lines with
  | [] =>
      match field r, st r with
      | _ :: _, _ | _, IN_QUOTED_FIELD =>
          [rev (fields (save_field r START_RECORD))]
      | _, _ => []
      end
  | line :: lines' =>
      match process_line r (list_ascii_of_string line) with
      | None => []
      | Some r' =>
          match st r' with
          | START_RECORD =>
              rev (fields r') :: read_rows (mk_reader [] [] START_RECORD) lines'
          | _ => read_rows r' lines'
          end
      end
  end.

Definition reader_excel (lines : list string) : list (list string) :=
  read_rows (mk_reader [] [] START_RECORD) lines.

End Csv.

Module Bench.

(** Floats of a bench host: shown by their decimal value; the three tests
    decided on that value.  Exact for the values used in examples. *)
Definition bench_floats : FloatOps :=
  mk_float_ops
    (fun f => match f with
              | FNan => "nan"
              | FInf n => if n then "-inf" else "inf"
              | FDec n m e =>
                  (if n then "-" else "") ++ str_int m ++ "e" ++ str_int e
              end)
    (fun f => match f with
              | FNan => false
              | FInf n => negb n
              | FDec n m e =>
                  negb n && (if e <? 0 then 10 ^ (- e) <? m
                             else 1 <? m * 10 ^ e)
              end)
    (fun f => match f with
              | FDec _ m _ => negb (m =? 0)
              | _ => true
              end)
    (fun f => match f with
              | FNan => false
              | FInf n => negb n
              | FDec n m _ => negb n || (m =? 0)
              end).

(** An evaluator that knows nothing beyond the comparison fragment. *)
Definition no_eval (src : string) (x : PyVal) : outcome PyVal :=
  Raised (mk_exn SyntaxError "invalid syntax (<string>, line 1)").

(** A host whose instrument answers every call the way [answer] says. *)
Definition bench (answer : list Call -> Call -> outcome PyVal) : Host :=
  mk_host answer no_eval bench_floats Csv.reader_excel.

(** An instrument with 7 in every register. *)
Definition healthy (past : list Call) (c : Call) : outcome PyVal :=
  match c with
  | ReadRegister _ _ => Returned (VInt 7)
  | ReadRegisters _ (TInt n) => Returned (VList (repeat 7 (Z.to_nat n)))
  | ReadRegisters _ _ =>
      Raised (mk_exn TypeError "The number of registers must be an integer")
  | WriteRegister _ _ _ _ => Returned VNone
  end.


(** An instrument that fails every call with the same error. *)
Definition failing (c : exn_class) (msg : string)
           (past : list Call) (call : Call) : outcome PyVal :=
  Raised (mk_exn c msg).

End Bench.

(* ===================================================================== *)
(** ** The script-line path of V1.01 BUILD 20220216 *)
(* ===================================================================== *)

(** The older build has its own [do_script_line] and transport wrappers;
    its assertion step and its token handling are those of V1.4.0. *)
Module V101.

Local Open Scope M_scope.

(** The module-level [regs] (must match register list in RMAGS.h). *)
Definition regs : RegisterMap :=
  [
    ("BIT", 0); ("TOTAL_ERRORS", 1); ("LOG_HEAD", 2); ("LOG_TAIL", 3);
    ("LOG_STATUS", 4); ("LOG_LEVEL", 5); ("LOG_CODE", 6);
    ("LOG_DEVICE", 7); ("LOG_MSG_LEN", 8); ("LOG_VALUE0", 9);
    ("LOG_VALUE1", 10); ("LOG_VALUE2", 11); ("LOG_VALUE3", 12);
    ("LOG1_LEVEL", 13); ("LOG1_CODE", 14); ("LOG1_DEVICE", 15);
    ("LOG1_MSG_LEN", 16); ("LOG1_VALUE0", 17); ("LOG1_VALUE1", 18);
    ("LOG1_VALUE2", 19); ("LOG1_VALUE3", 20); ("LOG2_LEVEL", 21);
    ("LOG2_CODE", 22); ("LOG2_DEVICE", 23); ("LOG2_MSG_LEN", 24);
    ("LOG2_VALUE0", 25); ("LOG2_VALUE1", 26); ("LOG2_VALUE2", 27);
    ("LOG2_VALUE3", 28); ("LOG3_LEVEL", 29); ("LOG3_CODE", 30);
    ("LOG3_DEVICE", 31); ("LOG3_MSG_LEN", 32); ("LOG3_VALUE0", 33);
    ("LOG3_VALUE1", 34); ("LOG3_VALUE2", 35); ("LOG3_VALUE3", 36);
    ("START_VOLTAGE", 37); ("START_DELAY", 38); ("STOP_VOLTAGE", 39);
    ("STOP_DELAY", 40); ("CRANK_TIMEOUT", 41); ("REGULATED_VOLTAGE", 42);
    ("MAX_CHARGING_CURRENT", 43); ("LVCO", 44); ("BUS_VOLTAGE", 45);
    ("CURRENTS", 46); ("GEN_CONTROL", 47); ("AGS_STATUS", 48);
    ("AC_INPUT", 49); ("AMMPS_RESPONSE", 50); ("GEN_WARMUP", 51);
    ("WARMUP_STATE", 52); ("GENERATOR_POWER_SETTINGS", 53);
    ("AVAILABLE_CURRENT", 54); ("CHARGER_MODE", 55); ("TOTAL_REGS_SIZE", 56)
  ].

(** [sys.exit(code)]. *)
Definition sys_exit (code : string) : exn :=
  mk_exn (OtherException "SystemExit") code.

Section WithHost.

Variable h : Host.

Definition read_register (registeraddress number_of_decimals : Z)
  : M PyVal :=
  try_except
    (call_instrument h (ReadRegister registeraddress number_of_decimals))
    (fun e =>
       match exn_cls e with
       | IllegalRequestError => Some (mraise e)
       | InvalidResponseError =>
           Some (emit (exn_msg e) ;;; mraise (sys_exit "74"))
       | NoResponseError =>
           Some (emit (exn_msg e) ;;; emit "[ignoring error]" ;;;
                 mret VNone)
       | _ => None
       end).

Definition read_registers (addr : Z) (val : Token) : M PyVal :=
  try_except
    (call_instrument h (ReadRegisters addr val))
    (fun e =>
       match exn_cls e with
       | IllegalRequestError => Some (emit (exn_msg e) ;;; mret VNone)
       | InvalidResponseError => Some (emit (exn_msg e) ;;; mret VNone)
       | NoResponseError =>
           Some (emit (exn_msg e) ;;; emit "[Ignoring error]" ;;;
                 mret VNone)
       | NameError =>
           Some (emit (exn_msg e) ;;;
                 emit "Please connect the corect cable" ;;;
                 mraise (sys_exit "-1"))
       | _ => None
       end).

Definition write_register (addr : Z) (val : Token) (desc : string)
  : M PyVal :=
  ret <- try_except
           (call_instrument h (WriteRegister addr val 0 16) ;;;
            mret "OK")
           (fun e =>
              match exn_cls e with
              | IllegalRequestError => Some (mret "Illegal request error")
              | InvalidResponseError => Some (mret "Invalid response error")
              | _ => None
              end) ;;
  mret (VText ret).

Definition obtain_result (write val : Token) (addr : Z) (desc : string)
  : M PyVal :=
  if token_truthy h write then
    write_register addr val desc
  else
    gt <- lift (token_gt_one h val) ;;
    if gt then read_registers addr val
    else read_register addr 0.

(** The body of [for i in range(iterations)]. *)
Definition iteration (write val delay : Token) (iterations addr : Z)
           (desc assertion : string) (i : Z) (ret : string) : M string :=
  let ret := if iterations >? 1 then ret ++ str_int (i + 1) ++ ":"
             else ret in
  result <- obtain_result write val addr desc ;;
  let ret := ret ++ str_val result in
  ret <- check_assertion h assertion result ret ;;
  let ret := if i + 1 <? iterations then ret ++ "; " else ret in
  update_output ret ;;;
  time_sleep h delay ;;;
  mret ret.

(** [list(regs.keys())[addr]]. *)
Definition name_at (addr : Z) : outcome string :=
  getitem (map fst regs) addr.

(** Process a line from the script.
    [line]: command to execute, as a list of parameters;
    [preserve]: content of -OUTPUT- to not overwrite. *)
Definition do_script_line (line : list Token) (preserve : string)
  : M string :=
  let ret := preserve in
  key <- lift (getitem line 0) ;;
  ret <- match (match key with
                | TText s => resolve regs s
                | _ => None
                end) with
         | None =>
             (* except (KeyError) *)
             mret ("*** ERROR *** unknown key " ++ fmt_token h key)
         | Some addr =>
             val <- lift (getitem line 1) ;;
             write <- lift (field_or line 2 (TBool false)) ;;
             delay <- lift (field_or line 3 (TInt 0)) ;;
             iterations <- lift (field_or line 4 (TInt 1)) ;;
             desc <- lift (description line) ;;
             let assertion := assertion_of desc in
             let desc := if (String.length desc =? 0)%nat then ": "
                         else " [" ++ desc ++ "]: " in
             ret <- (if token_truthy h write then
                       name <- lift (name_at addr) ;;
                       mret (ret ++ "Write " ++ fmt_token h val ++ " to "
                                 ++ name ++ "(" ++ str_int addr ++ ")")
                     else
                       gt <- lift (token_gt_one h val) ;;
                       name <- lift (name_at addr) ;;
                       if gt then (* read multiple registers *)
                         mret (ret ++ "Read " ++ fmt_token h val
                                   ++ " registers starting at "
                                   ++ name ++ "(" ++ str_int addr ++ ")")
                       else
                         mret (ret ++ "Read from " ++ name
                                   ++ "(" ++ str_int addr ++ ")")) ;;
             let ret := ret ++ desc in
             n <- lift (range_count iterations) ;;
             ret <- iterate (Z.to_nat n)
                      (iteration write val delay n addr desc assertion)
                      0 ret ;;
             mret (ret ++ nl)
         end ;;
  update_output ret ;;;
  mret ret.

End WithHost.

End V101.

(* ===================================================================== *)
(** ** Polling the log ([readlog]) *)
(* ===================================================================== *)

Module Poll.

Local Open Scope M_scope.

(** The classes that [except Exception] catches: all but the three that
    derive from [BaseException] alone. *)
Definition is_exception (c : exn_class) : bool :=
  match c with
  | OtherException name =>
      negb (String.eqb name "SystemExit" || String.eqb name "KeyboardInterrupt"
            || String.eqb name "GeneratorExit")
  | _ => true
  end.

(** [serial.serialutil.SerialException] and its subclasses. *)
Definition is_serial_exception (c : exn_class) : bool :=
  match c with
  | OtherException name => String.eqb name "SerialException"
  | _ => false
  end.

(** [ret[0]] on what [read_registers] handed back.  A list gives its first
    word; a number is not subscriptable; a text gives its first character,
    which is no integer.  An object of another type is taken as not
    subscriptable. *)
Inductive first_item : Type :=
| FirstWord (n : Z)
| FirstChar (c : ascii).

Definition subscript0 (ret : PyVal) : outcome first_item :=
  match ret with
  | VList l => (n <- getitem l 0 ;; Returned (FirstWord n))%outcome
  | VText s =>
      match s with
      | String c _ => Returned (FirstChar c)
      | EmptyString => Raised (mk_exn IndexError "string index out of range")
      end
  | _ =>
      Raised (mk_exn TypeError
                ("'" ++ type_name ret ++ "' object is not subscriptable"))
  end.

(** [ret[0] != 0x0F]. *)
Definition not_idle (i : first_item) : bool :=
  match i with
  | FirstWord n => negb (n =? 0x0F)
  | FirstChar _ => true
  end.

Section WithHost.

Variable h : Host.
Variable product : nat.

(** What [datetime.datetime.now().isoformat()] and [time.asctime()]
    return when a frame is shown. *)
Variable now_iso now_asc : string.

(** [products[product][3]["LOG_LEVEL"]]. *)
Definition log_level_address : outcome Z :=
  (p <- getitem products (Z.of_nat product) ;;
   match resolve (product_regs p) "LOG_LEVEL" with
   | Some a => Returned a
   | None => Raised (mk_exn KeyError (repr_text "LOG_LEVEL"))
   end)%outcome.

(** [showlog(log, show_time, f)] on what was read: a list of words is
    decoded; a text fails at the first comparison of [showlog], an integer
    against its first character. *)
Definition show (ret : PyVal) (show_time : bool) (s : Decoder.LogSink)
  : outcome Decoder.LogSink :=
  match ret with
  | VList l => Decoder.showlog now_iso now_asc l show_time s
  | _ =>
      Raised (mk_exn TypeError
                "'>' not supported between instances of 'str' and 'int'")
  end.

(** Read the log and show it: [readlog(values, connected, f)], with
    [logging] and [timestamp] the two check boxes of [values] and the log
    file inside [s].  The names [comm_status] and [connected] that
    [readlog] assigns are its own locals; what remains of them is what is
    printed. *)
Definition readlog (logging timestamp connected : bool) (w : World)
           (s : Decoder.LogSink)
  : outcome unit * World * Decoder.LogSink :=
  if logging && connected then
    match (addr <- lift log_level_address ;;
           read_registers h addr (TInt 8)) w with
    | (Raised e, w1) =>
        match exn_cls e with
        | NameError =>
            (Returned tt, snd (emit "Lost connection" w1), s)
        | c =>
            if is_serial_exception c then
              (Returned tt, snd (emit ("Serial Error: " ++ exn_msg e) w1), s)
            else if is_exception c then
              (Returned tt,
               snd (emit ("Unexpected error: " ++ exn_msg e
                            ++ ". Continuing on...") w1), s)
            else (Raised e, w1, s)
        end
    | (Returned ret, w1) =>
        (* if we got a bad read or log is empty, do nothing, else print it *)
        match ret with
        | VNone => (Returned tt, w1, s)
        | _ =>
            match subscript0 ret with
            | Raised e => (Raised e, w1, s)
            | Returned i =>
                if not_idle i then
                  match show ret timestamp s with
                  | Returned s' => (Returned tt, w1, s')
                  | Raised e => (Raised e, w1, s)
                  end
                else (Returned tt, w1, s)
            end
        end
    end
  else (Returned tt, w, s).

End WithHost.

End Poll.

(* ===================================================================== *)
(** ** The command entry and the connection ([is_run_ok], [connect_port],
       and the handlers of [main] that convert text) *)
(* ===================================================================== *)

Module Gui.

Local Open Scope M_scope.

(** The entries of [values] that the command entry reads: the register
    combo, the Read radio button, and the three input fields. *)
Record Values : Type := mk_values {
  v_reg : string;
  v_radio0 : bool;
  v_value : string;
  v_delay : string;
  v_repeat : string
}.

Section RunOk.

(** [f < 0] on a float (see [pyfloat]: the rounding is not modelled). *)
Variable float_lt_zero : pyfloat -> bool.

(** Check for complete command. *)
Definition is_run_ok (values : Values) : outcome bool :=
  (let run_ok := true in
   let run_ok := if String.eqb (v_reg values) "" then false else run_ok in
   run_ok <- except_ValueError
               (if v_radio0 values then (* int for Read *)
                  n <- py_int (v_value values) ;;
                  Returned (if n <? 0 then false else run_ok)
                else
                  f <- py_float (v_value values) ;; (* float for Write *)
                  Returned run_ok)
               (Returned false) ;;
   run_ok <- except_ValueError
               (f <- py_float (v_delay values) ;;
                Returned (if float_lt_zero f then false else run_ok))
               (Returned false) ;;
   run_ok <- except_ValueError
               (n <- py_int (v_repeat values) ;; Returned run_ok)
               (Returned false) ;;
   Returned run_ok)%outcome.

End RunOk.

(** The command that the Run button builds:
    [[values['-REG-'], int(values['-VALUE-']), 0 if values['-RADIO0-'] else 1,
      float(values['-DELAY-']), int(values['-REPEAT-']), '']]. *)
Definition run_line (values : Values) : outcome (list Token) :=
  (n <- py_int (v_value values) ;;
   d <- py_float (v_delay values) ;;
   r <- py_int (v_repeat values) ;;
   Returned [TText (v_reg values); TInt n;
             TInt (if v_radio0 values then 0 else 1); TFloat d; TInt r;
             TText ""])%outcome.

(** The branch [event == '-RUN-'] of [main] (the enabling and disabling
    of the button itself is not part of the [World]). *)
Definition on_run (h : Host) (product : nat) (values : Values) : M unit :=
  line <- lift (run_line values) ;;
  do_script_line h product line "" ;;;
  update_comms.

(** The module-level [log_interval = 80], in ms between log reads. *)
Definition log_interval0 : Z := 80.

(** The branch [event == '-LOG_INTERVAL-' and values['-LOG_INTERVAL-']]:
    the new value of the global [log_interval]. *)
Definition on_log_interval (text : string) (log_interval : Z) : Z :=
  if String.eqb text "" then log_interval
  else
    match py_int text with
    | Raised _ => log_interval (* continue *)
    | Returned val =>
        if val <? 0 then 0
        else if val >? 1000 then 1000
        else val
    end.

(** One entry of [serial.tools.list_ports.comports()]. *)
Record PortInfo : Type := mk_port {
  port : string;
  desc : string;
  hwid : string
}.

(** What [connect_port] returns: [None], [False], or the instrument opened
    on a port with an address and a baud rate. *)
Inductive Connection : Type :=
| NoInstrument
| NotOpened
| Opened (found_port : string) (address baud : Z).

(** [connected = (instrument != None)] in [main]. *)
Definition connected (c : Connection) : bool :=
  match c with
  | NoInstrument => false
  | _ => true
  end.

(** The loop [for port, desc, hwid in sorted(ports)] over the ports that
    are left: the port found and the text for the pop-up. *)
Fixpoint scan (ports : list PortInfo) (found_port ret : string)
  : M (string * string) :=
  match ports with
  | [] => mret (found_port, ret)
  | q :: ports' =>
      let ret := ret ++ "Checking " ++ port q ++ ": " ++ desc q ++ " ["
                     ++ hwid q ++ "]" in
      fr <- (if contains "CP210x" (desc q) then
               set_comm_status ("Found ENG-00000480 cable at " ++ port q) ;;;
               cs <- get_comm_status ;;
               mret (port q, ret ++ cs)
             else mret (found_port, ret)) ;;
      fr <- (if contains "USB Serial Port" (desc q) then
               set_comm_status ("Found generic USB serial at " ++ port q) ;;;
               cs <- get_comm_status ;;
               mret (port q, snd fr ++ cs)
             else mret fr) ;;
      scan ports' (fst fr) (snd fr ++ nl)
  end.

Section Connect.

(** The global [product]. *)
Variable product : nat.

(** [minimalmodbus.Instrument(found_port, address, baudrate=baud, ...)]
    and the two assignments behind it, as the serial library answers. *)
Variable open_instrument : string -> Z -> Z -> outcome unit.

(** Returns instrument object if connected, None otherwise.  [ports] is
    [sorted(serial.tools.list_ports.comports())]; closing the instrument
    of before, whose failure is passed over, leaves no trace here. *)
Definition connect_port (ports : list PortInfo) : M Connection :=
  (* looking for com port with a CP210x chipset plugged in. *)
  p <- lift (getitem products (Z.of_nat product)) ;;
  let baud := product_baud p in
  let address := product_address p in
  if (length ports =? 0)%nat then
    set_comm_status "No serial port found" ;;;
    cs <- get_comm_status ;;
    emit cs ;;;
    mret NoInstrument
  else
    fr <- scan ports "" "" ;;
    let '(found_port, ret) := fr in
    if String.eqb found_port "" then
      set_comm_status "ENG-00000480 cable not found" ;;;
      cs <- get_comm_status ;;
      let ret := ret ++ cs ++ ". Make sure it's plugged in." ++ nl
                     ++ "Continue?" in
      emit "Adapter not found" ;;;
      emit ret ;;;
      mret NoInstrument
    else
      (* initialize modbus *)
      set_comm_status ("Connecting to " ++ found_port ++ " at " ++ str_int baud
                         ++ " baud and RS485 address " ++ str_int address
                         ++ "... ") ;;;
      cs <- get_comm_status ;;
      emit cs ;;;
      match open_instrument found_port address baud with
      | Returned _ => mret (Opened found_port address baud)
      | Raised e =>
          if Poll.is_serial_exception (exn_cls e) then
            set_comm_status (exn_msg e) ;;;
            emit (exn_msg e) ;;;
            mret NotOpened
          else mraise e
      end.

End Connect.

Section Buttons.

Variable float_lt_zero : pyfloat -> bool.

(** The two lines that end a turn of the event loop:
    [window['-CONNECT-'].update(disabled=connected)] and
    [window['-RUN-'].update(disabled=(not (is_run_ok(values)) or not connected))]. *)
Definition connect_disabled (connected : bool) : bool := connected.

Definition run_disabled (values : Values) (connected : bool) : outcome bool :=
  (ok <- is_run_ok float_lt_zero values ;;
   Returned (negb ok || negb connected))%outcome.

End Buttons.

End Gui.

(* ===================================================================== *)
(** ** Whole scripts in V1.01 BUILD 20220216 ([run_script]) *)
(* ===================================================================== *)

Module V101Script.

Local Open Scope M_scope.

Section WithHost.

Variable h : Host.

(** [ret[len(ret)-1] != '\n'], which reads the character at index -1 of
    an empty text. *)
Definition last_is_not_newline (ret : string) : outcome bool :=
  match rev (list_ascii_of_string ret) with
  | c :: _ => Returned (negb (Ascii.eqb c "010"%char))
  | [] => Raised (mk_exn IndexError "string index out of range")
  end.

(** The body of [for row in rdr], over the rows that are left. *)
Fixpoint run_rows (rows : list (list string)) (ret : string) : M string :=
  match rows with
  | [] => mret ret
  | row :: rows' =>
      update_output ret ;;;
      if (length row <? 5)%nat then
        run_rows rows'
          (ret ++ "not enough columns in " ++ String dquote_c ""
               ++ repr_row row ++ String dquote_c "" ++ nl)
      else
        b <- lift (coerce_row row) ;;
        ret <- V101.do_script_line h b ret ;;
        open <- lift (last_is_not_newline ret) ;;
        let ret := if open then ret ++ nl else ret in
        run_rows rows' ret
  end.

(** [run_script], from the text of the opened file on. *)
Definition run_script (text : string) : M unit :=
  let ret := "" in
  let lines := filter executable (readlines text) in
  let rdr := csv_reader h lines in
  ret <- run_rows rdr ret ;;
  let ret := trailer (length lines) ret in
  update_output ret ;;;
  mret tt.

End WithHost.

End V101Script.

(* ===================================================================== *)
(** ** The start of V1.01 BUILD 20220216 (the port scan at module level) *)
(* ===================================================================== *)

Module V101Startup.

Local Open Scope M_scope.

(** The configuration parameters at the top of the module. *)
Definition port0 : string := "COM5".
Definition baud : Z := 256000.
Definition address : Z := 1.

(** The loop [for port, desc, hwid in sorted(ports)], which binds the
    module's [port] anew at every turn: the values of [port],
    [found_port] and [ret] behind it. *)
Fixpoint scan (ports : list Gui.PortInfo) (port found_port ret : string)
  : string * string * string :=
  match ports with
  | [] => (port, found_port, ret)
  | q :: ports' =>
      let port := Gui.port q in
      let ret := ret ++ "Checking " ++ port ++ ": " ++ Gui.desc q ++ " ["
                     ++ Gui.hwid q ++ "]" in
      let '(found_port, ret) :=
        if contains "CP210x" (Gui.desc q) then
          (port, ret ++ "Found ENG-00000480 cable at " ++ port)
        else (found_port, ret) in
      scan ports' port found_port (ret ++ nl)
  end.

Section Connect.

(** [minimalmodbus.Instrument(port, address, baudrate=baud, ...)], as the
    serial library answers. *)
Variable open_instrument : string -> Z -> Z -> outcome unit.

(** What the user answers to [sg.popup_ok_cancel]. *)
Variable proceed : string.

(** The statements between [# MAIN] and [# Set up GUI]; [ports] is
    [sorted(serial.tools.list_ports.comports())].  Without an adapter and
    without [Cancel] the program goes on with no instrument bound. *)
Definition startup (ports : list Gui.PortInfo) : M Gui.Connection :=
  (* looking for com port with a CP210x chipset plugged in. *)
  let '(port, found_port, ret) := scan ports port0 "" "" in
  if String.eqb found_port "" then
    let ret := ret ++ "ENG-00000480 cable not found. Make sure it's plugged in."
                   ++ nl ++ "Continue?" in
    emit "Adapter not found" ;;;
    emit ret ;;;
    if String.eqb proceed "Cancel" then mraise (V101.sys_exit "2")
    else mret Gui.NoInstrument
  else
    (* initialize modbus *)
    emit ("Connecting to " ++ found_port ++ " at " ++ str_int baud
            ++ " baud and RS485 address " ++ str_int address ++ "... ") ;;;
    match open_instrument port address baud with
    | Returned _ => mret (Gui.Opened port address baud)
    | Raised e =>
        if Poll.is_serial_exception (exn_cls e) then
          emit (exn_msg e) ;;;
          mraise (V101.sys_exit "2") (* ENOENT, no such file or directory *)
        else mraise e
    end.

End Connect.

End V101Startup.

(* ===================================================================== *)
(** ** The log of V1.01 BUILD 20220216 ([showlog] and the time-out of the
       event loop) *)
(* ===================================================================== *)

Module V101Log.

(** [codes]; [log_levels], [devices] and [j1939_statuses] are those of
    V1.4.0. *)
Definition codes : list (Z * string) :=
  [ (0, "null"); (1, "ADDRESS_CLAIMED"); (2, "J1939_STATUS");
    (0xFF17, "AdvDCS Response"); (0xFF15, "Controller 1st PGN");
    (0xFF19, "Controller 2nd PGN"); (0xFF22, "Controller 3rd PGN") ].

(** Computations that print into the [-LOG-] element of the window and
    may raise; what was printed stays. *)
Definition P (A : Type) : Type := string -> outcome A * string.

Definition pret {A} (a : A) : P A := fun log => (Returned a, log).

Definition pbind {A B} (c : P A) (k : A -> P B) : P B :=
  fun log =>
    match c log with
    | (Returned a, log') => k a log'
    | (Raised e, log') => (Raised e, log')
    end.

Definition plift {A} (o : outcome A) : P A := fun log => (o, log).

(** [print(s, end='')] with [print = window['-LOG-'].print]. *)
Definition print (s : string) : P unit := fun log => (Returned tt, log ++ s).

Declare Scope P_scope.
Delimit Scope P_scope with P.
Notation "x <- c ;; k" := (pbind c (fun x => k))
  (at level 61, c at next level, right associativity) : P_scope.
Notation "c ;;; k" := (pbind c (fun _ => k))
  (at level 61, right associativity) : P_scope.

Local Open Scope P_scope.

(** The loop of the unformatted branch. *)
Fixpoint dump (ws : list Z) : P unit :=
  match ws with
  | [] => pret tt
  | i :: ws' =>
      print (hex (Z.shiftr i 8) ++ " ") ;;;
      print (hex (Z.land i 0x00FF) ++ " ") ;;;
      dump ws'
  end.

(** [showlog(ret, show_time)]; [now_asc] is what [time.asctime()] returns
    at the call. *)
Definition showlog (now_asc : string) (ret : list Z) (show_time : bool)
  : P unit :=
  (if show_time then print (now_asc ++ " ") else pret tt) ;;;
  (* decode *)
  r0 <- plift (getitem ret 0) ;;
  (if r0 >? Z.of_nat (length Decoder.log_levels) - 1 then
     print (str_int r0)
   else
     lvl <- plift (getitem Decoder.log_levels r0) ;;
     print lvl) ;;;
  r1 <- plift (getitem ret 1) ;;
  let code := dict_get codes r1 in
  (if truthy_text code then print (", " ++ fmt_opt_text code)
   else print (", " ++ hex r1)) ;;;
  r2 <- plift (getitem ret 2) ;;
  (if r2 >? Z.of_nat (length Decoder.devices) - 1 then
     print (", illegel device: " ++ str_int r2)
   else
     d <- plift (getitem Decoder.devices r2) ;;
     print (", " ++ d)) ;;;
  bytes <- plift (getitem ret 3) ;;
  bytes <- (if bytes <=? 8 then
              print (", bytes:" ++ str_int bytes) ;;;
              pret bytes
            else
              print (", bytes(illegal value, max 8):" ++ str_int bytes) ;;;
              pret 8 (* show the legal number *)) ;;
  (if Decoder.code_is code "J1939_STATUS" then
     r4 <- plift (getitem ret 4) ;;
     let j1939_status := dict_get Decoder.j1939_statuses r4 in
     if truthy_text j1939_status then
       print (", " ++ fmt_opt_text j1939_status)
     else
       hx <- plift (Decoder.hex_of_lookup j1939_status) ;;
       print (", " ++ hx)
   else if Decoder.code_is code "Controller 1st PGN" then
     r4 <- plift (getitem ret 4) ;;
     print (", GEN_CONTROL:" ++ str_int (Z.land r4 0x00FF)) ;;;
     r5 <- plift (getitem ret 5) ;;
     print (", max charge current:" ++ str_int (Z.land r5 0x00FF)) ;;;
     r6 <- plift (getitem ret 6) ;;
     print (", start delay:" ++ str_int (Z.shiftr r6 8)) ;;;
     r6' <- plift (getitem ret 6) ;;
     print (", stop delay:" ++ str_int (Z.land r6' 0x00FF)) ;;;
     r7 <- plift (getitem ret 7) ;;
     print (", LVCO:" ++ str_int r7)
   else (* unformatted data *)
     print ", data: " ;;;
     (* ret[3] is in bytes, but values are in words *)
     dump (slice ret 4 (4 + floor_half bytes)) ;;;
     if bytes mod 2 =? 1 then
       (* if an odd number, there's one more byte *)
       w <- plift (getitem ret (4 + ceil_half bytes)) ;;
       print (hex (Z.shiftr w 8) ++ " ")
     else pret tt) ;;;
  (* terminate line *)
  print (", raw: " ++ str_list ret ++ nl).

Section WithHost.

Variable h : Host.

(** The branch [event == '__TIMEOUT__'] of the event loop, with [logging]
    and [timestamp] the two check boxes of [values]. *)
Definition on_timeout (now_asc : string) (logging timestamp : bool)
           (w : World) (log : string) : outcome unit * World * string :=
  match resolve V101.regs "LOG_LEVEL" with
  | None => (Raised (mk_exn KeyError (repr_text "LOG_LEVEL")), w, log)
  | Some addr =>
      match V101.read_registers h addr (TInt 8) w with
      | (Raised e, w1) => (Raised e, w1, log)
      | (Returned ret, w1) =>
          (* if we got a bad read or log is empty, do nothing, else print
             it *)
          match ret with
          | VNone => (Returned tt, w1, log)
          | _ =>
              match Poll.subscript0 ret with
              | Raised e => (Raised e, w1, log)
              | Returned i =>
                  if Poll.not_idle i && logging then
                    match ret with
                    | VList l =>
                        let '(o, log') := showlog now_asc l timestamp log in
                        (o, w1, log')
                    | _ =>
                        (* a text: the time stamp is printed, then the
                           first comparison fails *)
                        (Raised
                           (mk_exn TypeError
                              "'>' not supported between instances of 'str' and 'int'"),
                         w1,
                         if timestamp then log ++ now_asc ++ " " else log)
                    end
                  else (Returned tt, w1, log)
              end
          end
      end
  end.

End WithHost.

End V101Log.

(* ===================================================================== *)
(** * Vocabulary of the properties *)
(* ===================================================================== *)

(** ** Frames *)

Module Frames.

(** An unsigned 16-bit word, and a log frame: 8 of them. *)
Definition word (z : Z) : Prop := 0 <= z < 65536.

Definition frame (ret : list Z) : Prop :=
  length ret = 8%nat /\ Forall word ret.

(** The codes without a formatted branch: no name, or one of the three
    names that the chain does not test. *)
Definition unformatted_code (code : Z) : Prop :=
  code <> 2 /\ code <> 0xFF15 /\ code <> 0xFF19 /\ code <> 0xFF22
  /\ code <> 0xFF23 /\ code <> 0xFF17.

(** The frames that [showlog] decodes without an exception. *)
Definition decodable (ret : list Z) : Prop :=
  let code := nth 1 ret 0 in
  (code = 2 -> nth 4 ret 0 <= 3)
  /\ code <> 0xFF23
  /\ (unformatted_code code -> Z.min (nth 3 ret 0) 8 <> 7).

(** Name the eight words of a frame. *)
Ltac frame_words ret H :=
  let Hl := fresh "Hlen" in
  let Hw := fresh "Hw" in
  destruct H as [Hl Hw];
  destruct ret as [| level [| code [| dev [| count [| v0 [| v1 [| v2
                  [| v3 [| extra rest]]]]]]]]]; try discriminate Hl;
  repeat match goal with
         | Hf : Forall word (_ :: _) |- _ => inversion Hf; subst; clear Hf
         | Hf : Forall word [] |- _ => clear Hf
         end.

End Frames.

(** ** Dictionaries *)

Module CatalogSpec.

(** The entries of [regs] at [address], in the order of the dictionary. *)
Definition entries_at (regs : RegisterMap) (address : Z) : RegisterMap :=
  filter (fun kv => snd kv =? address) regs.

(** No address occurs twice. *)
Definition unique_addresses (regs : RegisterMap) : bool :=
  (fix go (l : list Z) : bool :=
     match l with
     | [] => true
     | a :: l' => negb (existsb (Z.eqb a) l') && go l'
     end) (map snd regs).

(** A dictionary in which the names [names] alias [address], in this
    order: the entries of [gaps] and [last], which lie before, between and
    behind them, are at other addresses. *)
Fixpoint weave (address : Z) (names : list string) (gaps : list RegisterMap)
         (last : RegisterMap) : RegisterMap :=
  match names, gaps with
  | name :: names', gap :: gaps' =>
      (gap ++ (name, address) :: weave address names' gaps' last)%list
  | _, _ => last
  end.

(** No entry of [regs] is at [address]. *)
Definition avoids (address : Z) (regs : RegisterMap) : Prop :=
  forall kv, In kv regs -> snd kv <> address.

End CatalogSpec.

(** ** Coercion, after the specification *)

Module CoercionSpec.

(** The coercion as the specification words it: integer first, then
    float, then the two truth values whatever their case, else the text
    itself. *)
Inductive coerces_to (a : string) : Token -> Prop :=
| as_integer (n : Z) :
    parse_int a = Some n -> coerces_to a (TInt n)
| as_float (f : pyfloat) :
    parse_int a = None -> parse_float a = Some f -> coerces_to a (TFloat f)
| as_bool (b : bool) :
    parse_int a = None -> parse_float a = None ->
    Coercion.lower a = (if b then "true" else "false") ->
    coerces_to a (TBool b)
| as_text :
    parse_int a = None -> parse_float a = None ->
    Coercion.lower a <> "true" -> Coercion.lower a <> "false" ->
    coerces_to a (TText a).

End CoercionSpec.

(** ** Computations that return *)

Module Returns.

(** [c] returns from [w], with a value and a state that satisfy [Q]. *)
Definition returns {A} (c : M A) (w : World) (Q : A -> World -> Prop)
  : Prop :=
  exists a w', c w = (Returned a, w') /\ Q a w'.

End Returns.

(** ** Hosts, lines and rows that let a script run to its end *)

Module Tame.

(** The three errors of the transport: illegal address, malformed
    response, no response. *)
Definition transport_error (c : exn_class) : bool :=
  match c with
  | IllegalRequestError | InvalidResponseError | NoResponseError => true
  | _ => false
  end.

(** An answer of the instrument that is a value or a transport error. *)
Definition tame_answer (o : outcome PyVal) : Prop :=
  match o with
  | Returned _ => True
  | Raised e => transport_error (exn_cls e) = true
  end.

Definition tame_instrument (h : Host) : Prop :=
  forall past c, tame_answer (instrument h past c).

(** An evaluator whose exceptions are those that the assertion step
    catches. *)
Definition tame_eval (h : Host) : Prop :=
  forall src x,
    match host_eval h src x with
    | Returned _ => True
    | Raised e => caught_by_assert (exn_cls e) = true
    end.

(** The call that one iteration makes. *)
Definition call_of (h : Host) (fc : Z) (write val : Token) (addr : Z)
  : Call :=
  if token_truthy h write then WriteRegister addr val 0 fc
  else
    match token_gt_one h val with
    | Returned true => ReadRegisters addr val
    | _ => ReadRegister addr 0
    end.

Definition write_error_text (c : exn_class) : string :=
  match c with
  | IllegalRequestError => "Illegal request error"
  | InvalidResponseError => "Invalid response error"
  | _ => "No communication with the instrument (null answer)"
  end.

(** What [result] holds once the call [c] was answered by [o]. *)
Definition result_after (c : Call) (o : outcome PyVal) : PyVal :=
  match c, o with
  | WriteRegister _ _ _ _, Returned _ => VText "OK"
  | WriteRegister _ _ _ _, Raised e => VText (write_error_text (exn_cls e))
  | ReadRegister _ _, Returned v => v
  | ReadRegister _ _, Raised e =>
      match exn_cls e with
      | IllegalRequestError => VText "(Null)"
      | _ => VNone
      end
  | ReadRegisters _ _, Returned v => v
  | ReadRegisters _ _, Raised _ => VNone
  end.

(** The state after the window was brought up to date. *)
Definition refreshed (ret : string) (w : World) : World :=
  mk_world (comm_status w) ret (comm_status w) (calls w) (console w)
           (sleeps w).

(** The state after [window['-OUTPUT-'].update(ret)] alone. *)
Definition refreshed_output (ret : string) (w : World) : World :=
  mk_world (comm_status w) ret (win_comms w) (calls w) (console w)
           (sleeps w).

Section WithHost.

Variable h : Host.
Variable product : nat.

Definition numeric (t : Token) : bool :=
  match t with
  | TText _ => false
  | _ => true
  end.

Definition sleepable (t : Token) : bool :=
  match t with
  | TInt n => 0 <=? n
  | TBool _ => true
  | TFloat f => float_sleepable (floats h) f
  | TText _ => false
  end.

Definition countable (t : Token) : bool :=
  match t with
  | TInt _ | TBool _ => true
  | _ => false
  end.

(** A line of at least five cells whose value is a number where it is
    compared, whose delay can be slept, whose repeat count is an integer
    and whose description, when there is one, is text. *)
Definition well_typed (line : list Token) : bool :=
  match line with
  | _ :: val :: write :: delay :: iterations :: rest =>
      (token_truthy h write || numeric val)
      && sleepable delay && countable iterations
      && match rest with
         | [] | TText _ :: _ => true
         | _ => false
         end
  | _ => false
  end.

(** The number of iterations of a line. *)
Definition iterations_of (line : list Token) : nat :=
  match nth_error line 4 with
  | Some (TInt n) => Z.to_nat n
  | Some (TBool true) => 1
  | _ => 0
  end.

(** The two ways in which a row is passed over. *)
Definition malformed (row : list string) : bool :=
  (length row <? 5)%nat.

Definition unresolved (row : list string) : bool :=
  negb (malformed row)
  && match coerce_row row with
     | Returned b => negb (is_returned (lookup_register h product b))
     | Raised _ => false
     end.

(** A row that the interpreter runs to its end: passed over, or
    well-typed. *)
Definition row_runs (row : list string) : bool :=
  malformed row || unresolved row
  || match coerce_row row with
     | Returned b => is_returned (lookup_register h product b) && well_typed b
     | Raised _ => false
     end.

End WithHost.



End Tame.

(** ** The text that a row adds to the report *)

Module RowText.

Section WithHost.

Variable h : Host.

(** What the row says it does: [Write <value> to <name>],
    [Read <value> registers starting at <name>] or [Read from <name>]. *)
Definition header (name val write : Token) : string :=
  if token_truthy h write then
    "Write " ++ fmt_token h val ++ " to " ++ fmt_token h name
  else
    match token_gt_one h val with
    | Returned true =>
        "Read " ++ fmt_token h val ++ " registers starting at "
                ++ fmt_token h name
    | _ => "Read from " ++ fmt_token h name
    end.










End WithHost.

End RowText.

(** ** Examples of hosts, and the end of the report *)

(** The HyPR 6000 entry of [products], the product selected at start. *)
Definition hypr6000 : Product :=
  mk_product "24VDC HyPR 6000 (20-0104024)" 57600 1 hypr6000_regs 16.

(** An instrument that answers every call with "illegal data address". *)
Definition illegal_address_host : Host :=
  Bench.bench
    (Bench.failing IllegalRequestError "Slave reported illegal data address").

(** The verdict that closes the report. *)
Definition verdict (report : string) : string :=
  if contains "*** FAIL ***" report || contains "*** ERROR ***" report
  then "*** AT LEAST ONE COMMAND FAILED ***"
  else "No errors detected".

(** The lines that the specification counts: not blank, not starting
    with [#]. *)
Definition is_blank (line : string) : bool :=
  String.eqb (Coercion.strip line) "".

Definition is_comment (line : string) : bool := String.prefix "#" line.

Definition command_lines (text : string) : list string :=
  filter (fun line => negb (is_blank line) && negb (is_comment line))
         (readlines text).

(** ** Outcomes and lines under a prefix *)

Module Prefix.

(** The outcome with [f] applied to what was returned. *)
Definition omap {A B} (f : A -> B) (o : outcome A) : outcome B :=
  match o with
  | Returned a => Returned (f a)
  | Raised e => Raised e
  end.

(** The two texts [p] behind the two texts [a]. *)
Definition prepend (a p : Decoder.Lines) : Decoder.Lines :=
  (fst a ++ fst p, snd a ++ snd p).

(** [t] starts with [s]. *)
Definition extends (s t : string) : Prop := exists more, t = s ++ more.

End Prefix.

(** ** The log sink over many frames *)

Module Sink.

(** The sink after the decoded lines [ps] went to it, oldest first. *)
Definition emit_all (ps : list Decoder.Lines) (s : Decoder.LogSink)
  : Decoder.LogSink :=
  fold_left (fun s p => Decoder.showlog_emit p s) ps s.

(** The lines written to the file. *)
Definition written (s : Decoder.LogSink) : list string :=
  match Decoder.log_handle s with
  | Some l => l
  | None => []
  end.

End Sink.

(** ** The poll of the log *)

Module PollSpec.

(** The one call that [readlog] makes: eight registers from the address
    of LOG_LEVEL. *)
Definition poll (addr : Z) : Call := ReadRegisters addr (TInt 8).

(** What [readlog] and [read_registers] print for an exception of the
    poll. *)
Definition poll_report (e : exn) : list string :=
  match exn_cls e with
  | IllegalRequestError | InvalidResponseError => [exn_msg e]
  | NoResponseError => [exn_msg e; "[Ignoring error]"]
  | NameError => ["Lost connection"]
  | c =>
      if Poll.is_serial_exception c then ["Serial Error: " ++ exn_msg e]
      else ["Unexpected error: " ++ exn_msg e ++ ". Continuing on..."]
  end.

(** The state after the poll was answered by the exception [e]. *)
Definition after_poll_error (addr : Z) (e : exn) (w : World) : World :=
  mk_world (if Tame.transport_error (exn_cls e) then exn_msg e
            else comm_status w)
           (win_output w) (win_comms w)
           (calls w ++ [poll addr])%list
           (console w ++ poll_report e)%list
           (sleeps w).

(** The state after the poll was answered by a value. *)
Definition after_poll (addr : Z) (w : World) : World :=
  mk_world (comm_status w) (win_output w) (win_comms w)
           (calls w ++ [poll addr])%list (console w) (sleeps w).

End PollSpec.

(** ** The serial ports *)

Module Ports.

(** A port whose description names one of the two adapters. *)
Definition usable (q : Gui.PortInfo) : bool :=
  contains "CP210x" (Gui.desc q) || contains "USB Serial Port" (Gui.desc q).

(** The name of the last usable port of the list, [found] when there is
    none. *)
Definition chosen (ports : list Gui.PortInfo) (found : string) : string :=
  fold_left (fun found q => if usable q then Gui.port q else found)
            ports found.

(** [f < 0] on the decimal value that [float()] read, for examples. *)
Definition decimal_lt_zero (f : pyfloat) : bool :=
  match f with
  | FNan => false
  | FInf negative => negative
  | FDec negative mant _ => negative && negb (mant =? 0)
  end.

End Ports.

(** ** Computations that raise *)

Module Raises.

(** [c] raises from [w], with an exception and a state that satisfy [Q]. *)
Definition raises {A} (c : M A) (w : World) (Q : exn -> World -> Prop)
  : Prop :=
  exists e w', c w = (Raised e, w') /\ Q e w'.

End Raises.

(** ** The transport errors that V1.01 lets through *)

Module V101Spec.

(** What leaves the wrapper of V1.01 around the call [c] when the
    instrument raises [e]; [None] when the wrapper returns. *)
Definition escapes (c : Call) (e : exn) : option exn :=
  match c, exn_cls e with
  | ReadRegister _ _, InvalidResponseError => Some (V101.sys_exit "74")
  | ReadRegister _ _, NoResponseError => None
  | ReadRegisters _ _, IllegalRequestError => None
  | ReadRegisters _ _, InvalidResponseError => None
  | ReadRegisters _ _, NoResponseError => None
  | ReadRegisters _ _, NameError => Some (V101.sys_exit "-1")
  | WriteRegister _ _ _ _, IllegalRequestError => None
  | WriteRegister _ _ _ _, InvalidResponseError => None
  | _, _ => Some e
  end.

(** The name of the last port of the list, [port] when it is empty. *)
Definition last_port (ports : list Gui.PortInfo) (port : string) : string :=
  fold_left (fun _ q => Gui.port q) ports port.

(** The name of the last port whose description contains [CP210x]. *)
Definition found (ports : list Gui.PortInfo) (found_port : string) : string :=
  fold_left (fun found_port q =>
               if contains "CP210x" (Gui.desc q) then Gui.port q
               else found_port)
            ports found_port.

(** The text ends with a newline. *)
Fixpoint ends_with_newline (s : string) : bool :=
  match s with
  | EmptyString => false
  | String c EmptyString => Ascii.eqb c "010"%char
  | String _ s' => ends_with_newline s'
  end.

End V101Spec.

(** ** Names of registers as cells *)

Module Names.

(** The entry [kv] of [regs] is a name that the coercion leaves a text
    and that [regs] resolves to the entry's address. *)
Definition name_ok (regs : RegisterMap) (kv : string * Z) : bool :=
  match coerce (fst kv), resolve regs (fst kv) with
  | Returned (TText s), Some a => String.eqb s (fst kv) && (a =? snd kv)
  | _, _ => false
  end.

End Names.

(* ===================================================================== *)
(** * Properties *)
(* ===================================================================== *)

(** ** Text *)

Lemma append_assoc (a b c : string) : (a ++ b) ++ c = a ++ (b ++ c).
Proof.
  induction a as [| x a IH]; simpl; [reflexivity | now rewrite IH].
Qed.

Module TextFacts.

Lemma substring_occurs (m n : nat) (s t : string) :
  substring m n s = t -> String.length t = n ->
  exists pre post, s = pre ++ t ++ post.
Proof.
  revert n s t. induction m as [| m IH]; intros n s t Hs Hl.
  - exists "". cbn. revert s t Hs Hl.
    induction n as [| n IHn]; intros s t Hs Hl.
    + destruct t; [| discriminate Hl]. exists s. reflexivity.
    + destruct s as [| c s].
      * cbn in Hs. subst t. discriminate Hl.
      * cbn in Hs. destruct t as [| c' t]; [discriminate Hs |].
        inversion Hs; subst. cbn in Hl.
        destruct (IHn s (substring 0 n s) eq_refl) as [post Hpost]; [lia |].
        exists post. cbn. now rewrite <- Hpost.
  - destruct s as [| c s].
    + cbn in Hs. subst t. cbn in Hl. subst n. exists "", "". reflexivity.
    + cbn in Hs. destruct (IH n s t Hs Hl) as (pre & post & Heq).
      exists (String c pre), post. cbn. now rewrite Heq.
Qed.

Lemma substring_at_occurrence (pre t post : string) :
  substring (String.length pre) (String.length t) (pre ++ t ++ post) = t.
Proof.
  induction pre as [| c pre IH]; cbn; [| exact IH].
  induction t as [| c t IHt]; cbn.
  - now destruct post.
  - now rewrite IHt.
Qed.

(** [pat in s] holds exactly when [pat] occurs somewhere in [s]. *)
Lemma contains_spec (pat s : string) :
  pat <> "" ->
  contains pat s = true <-> exists pre post, s = pre ++ pat ++ post.
Proof.
  intros Hne. unfold contains. split.
  - destruct (index 0 pat s) as [m |] eqn:Hi; [| discriminate].
    intros _. apply (substring_occurs m (String.length pat)); [| reflexivity].
    now apply (index_correct1 0).
  - intros (pre & post & ->).
    destruct (index 0 pat (pre ++ pat ++ post)) as [m |] eqn:Hi;
      [reflexivity |].
    exfalso.
    apply (index_correct3 0 (String.length pre) pat _ Hi Hne); [lia |].
    apply substring_at_occurrence.
Qed.

Lemma has_char_app (c : ascii) (a b : string) :
  has_char c (a ++ b) = has_char c a || has_char c b.
Proof.
  unfold has_char. induction a as [| x a IH]; cbn; [reflexivity |].
  rewrite IH. apply orb_assoc.
Qed.

Lemma has_char_occurs (c : ascii) (pre post : string) :
  has_char c (pre ++ String c post) = true.
Proof.
  unfold has_char. induction pre as [| x pre IH]; cbn.
  - now rewrite Ascii.eqb_refl.
  - rewrite IH. apply orb_true_r.
Qed.

(** The decimal text of an integer has no asterisk. *)
Lemma str_int_no_star (n : Z) : has_char "*" (str_int n) = false.
Proof.
  unfold str_int.
  assert (Hu : forall d, has_char "*" (DecimalString.NilEmpty.string_of_uint d)
                         = false).
  { induction d; cbn; try reflexivity; exact IHd. }
  assert (Hz : forall d, has_char "*" (DecimalString.NilZero.string_of_uint d)
                         = false).
  { intros d. destruct d; try reflexivity; apply (Hu _). }
  destruct (Z.to_int n) as [d | d]; cbn.
  - apply Hz.
  - unfold has_char in *. cbn. apply Hz.
Qed.

(** A text that ends with an asterisk and starts the text [ret ++ tail]
    lies within [ret] when [tail] has no asterisk. *)
Lemma starred_prefix_within (tail : string) :
  has_char "*" tail = false ->
  forall m ret post,
    ret ++ tail = (m ++ "*") ++ post ->
    exists post', ret = (m ++ "*") ++ post'.
Proof.
  intros Ht. induction m as [| x m IH]; intros ret post Heq.
  - destruct ret as [| c ret].
    + cbn in Heq. subst tail. discriminate Ht.
    + cbn in Heq. inversion Heq; subst. exists ret. reflexivity.
  - destruct ret as [| c ret].
    + cbn in Heq. subst tail. exfalso.
      change (String x ((m ++ "*") ++ post))
        with ((String x m ++ "*") ++ post) in Ht.
      rewrite append_assoc in Ht. cbn [append] in Ht.
      change (String x (m ++ String "*" post))
        with (String x m ++ String "*" post) in Ht.
      rewrite has_char_occurs in Ht. discriminate Ht.
    + cbn in Heq. inversion Heq; subst.
      destruct (IH ret post H1) as [post' ->]. exists post'. reflexivity.
Qed.

Lemma starred_within (tail : string) :
  has_char "*" tail = false ->
  forall m pre ret post,
    ret ++ tail = pre ++ (m ++ "*") ++ post ->
    exists post', ret = pre ++ (m ++ "*") ++ post'.
Proof.
  intros Ht m. induction pre as [| x pre IH]; intros ret post Heq.
  - cbn in *. now apply (starred_prefix_within tail Ht m ret post).
  - destruct ret as [| c ret].
    + cbn in Heq. subst tail. exfalso.
      change (String x (pre ++ (m ++ "*") ++ post))
        with (String x pre ++ (m ++ "*") ++ post) in Ht.
      rewrite (append_assoc m) in Ht. rewrite <- append_assoc in Ht.
      cbn [append] in Ht.
      change (String x ((pre ++ m) ++ String "*" post))
        with (String x (pre ++ m) ++ String "*" post) in Ht.
      rewrite has_char_occurs in Ht. discriminate Ht.
    + cbn in Heq. inversion Heq; subst.
      destruct (IH ret post H1) as [post' ->]. exists post'. reflexivity.
Qed.

(** Looking for a marker that ends with an asterisk: a tail without
    asterisk makes no difference. *)
Lemma contains_starred_tail (m ret tail : string) :
  has_char "*" tail = false ->
  contains (m ++ "*") (ret ++ tail) = contains (m ++ "*") ret.
Proof.
  intros Ht.
  assert (Hne : m ++ "*" <> "") by (destruct m; discriminate).
  apply eq_true_iff_eq. rewrite !contains_spec by exact Hne. split.
  - intros (pre & post & Heq).
    destruct (starred_within tail Ht m pre ret post Heq) as [post' ->].
    now exists pre, post'.
  - intros (pre & post & ->). exists pre, (post ++ tail).
    now rewrite !append_assoc.
Qed.

Lemma contains_marker_tail (n : Z) (ret : string) :
  contains "*** FAIL ***"
    (ret ++ str_int n ++ " commands processed." ++ nl)
  = contains "*** FAIL ***" ret
  /\ contains "*** ERROR ***"
       (ret ++ str_int n ++ " commands processed." ++ nl)
     = contains "*** ERROR ***" ret.
Proof.
  assert (Ht : has_char "*" (str_int n ++ " commands processed." ++ nl)
               = false).
  { rewrite has_char_app, str_int_no_star. reflexivity. }
  split.
  - apply (contains_starred_tail "*** FAIL **" ret _ Ht).
  - apply (contains_starred_tail "*** ERROR **" ret _ Ht).
Qed.

End TextFacts.

(* ===================================================================== *)
(** ** The decoder on 8-word frames *)
(* ===================================================================== *)

Module DecoderFacts.

Import Decoder Frames.



Lemma getitem_log_levels (l : Z) :
  0 <= l <= 15 -> exists s, getitem log_levels l = Returned s.
Proof.
  intros H.
  assert (Hc : l = 0 \/ l = 1 \/ l = 2 \/ l = 3 \/ l = 4 \/ l = 5 \/ l = 6
               \/ l = 7 \/ l = 8 \/ l = 9 \/ l = 10 \/ l = 11 \/ l = 12
               \/ l = 13 \/ l = 14 \/ l = 15) by lia.
  repeat (destruct Hc as [-> | Hc]; [eexists; reflexivity |]).
  subst; eexists; reflexivity.
Qed.

Lemma getitem_devices (d : Z) :
  0 <= d <= 2 -> exists s, getitem devices d = Returned s.
Proof.
  intros H.
  assert (Hc : d = 0 \/ d = 1 \/ d = 2) by lia.
  repeat (destruct Hc as [-> | Hc]; [eexists; reflexivity |]).
  subst; eexists; reflexivity.
Qed.

(** The four leading fields always decode. *)
Lemma show_level_returns ret p :
  frame ret -> exists q, show_level ret p = Returned q.
Proof.
  intros H. frame_words ret H. unfold show_level.
  change (getitem [level; code; dev; count; v0; v1; v2; v3] 0)
    with (Returned level).
  cbn [obind]. destruct (level >? _) eqn:E; [eexists; reflexivity |].
  destruct (getitem_log_levels level) as [s Hs].
  { change (Z.of_nat (length log_levels) - 1) with 15 in E.
    unfold word in *. lia. }
  rewrite Hs. eexists; reflexivity.
Qed.

Lemma show_code_returns ret p :
  frame ret ->
  exists q, show_code ret p = Returned (q, dict_get pgn_names (nth 1 ret 0)).
Proof.
  intros H. frame_words ret H. unfold show_code.
  change (getitem [level; code; dev; count; v0; v1; v2; v3] 1)
    with (Returned code).
  cbn [obind nth]. destruct (truthy_text _); eexists; reflexivity.
Qed.

Lemma show_device_returns ret p :
  frame ret -> exists q, show_device ret p = Returned q.
Proof.
  intros H. frame_words ret H. unfold show_device.
  change (getitem [level; code; dev; count; v0; v1; v2; v3] 2)
    with (Returned dev).
  cbn [obind]. destruct (Z.land dev 255 >? _) eqn:E; [eexists; reflexivity |].
  destruct (getitem_devices (Z.land dev 255)) as [s Hs].
  { change (Z.of_nat (length devices) - 1) with 2 in E.
    assert (0 <= Z.land dev 255) by (apply Z.land_nonneg; right; lia). lia. }
  rewrite Hs. eexists; reflexivity.
Qed.

(** The byte count is flagged when above 8 and used as [min count 8]. *)
Lemma show_bytes_returns ret p :
  frame ret ->
  exists q, show_bytes ret p = Returned (q, Z.min (nth 3 ret 0) 8).
Proof.
  intros H. frame_words ret H. unfold show_bytes.
  change (getitem [level; code; dev; count; v0; v1; v2; v3] 3)
    with (Returned count).
  cbn [obind nth]. destruct (count <=? 8) eqn:E.
  - rewrite Z.min_l by lia. eexists; reflexivity.
  - rewrite Z.min_r by lia. eexists; reflexivity.
Qed.

Lemma show_bytes_flags_and_clamps ret p count :
  getitem ret 3 = Returned count -> 8 < count ->
  show_bytes ret p
  = Returned (add p (", bytes(illegal value, max 8):" ++ str_int count)
                    (", " ++ red ++ "bytes(illegal value, max 8):"
                          ++ str_int count ++ black), 8).
Proof.
  intros Hg Hc. unfold show_bytes. rewrite Hg. cbn [obind].
  destruct (count <=? 8) eqn:E; [lia | reflexivity].
Qed.

(** The decode of a frame is the decode of its payload behind the four
    leading fields. *)
Lemma decode_by_payload ret :
  frame ret ->
  exists p,
    decode ret
    = (q <- show_payload module_regs ret (dict_get pgn_names (nth 1 ret 0))
              (Z.min (nth 3 ret 0) 8) p ;;
       Returned (fst q ++ nl, snd q))%outcome.
Proof.
  intros H. unfold decode, showlog_decode.
  destruct (show_level_returns ret (show_stamp "" "" false ("", "")) H)
    as [p1 H1].
  rewrite H1. cbn [obind].
  destruct (show_code_returns ret p1 H) as [p2 H2]. rewrite H2. cbn [obind].
  destruct (show_device_returns ret p2 H) as [p3 H3]. rewrite H3. cbn [obind].
  destruct (show_bytes_returns ret p3 H) as [p4 H4]. rewrite H4. cbn [obind].
  exists p4. reflexivity.
Qed.

(** *** The status table *)

Lemma j1939_status_miss (v : Z) :
  3 < v -> dict_get j1939_statuses v = None.
Proof.
  intros H. unfold j1939_statuses. cbn [dict_get].
  repeat match goal with
         | |- context [ ?k =? v ] =>
             replace (k =? v) with false by (symmetry; apply Z.eqb_neq; lia)
         end.
  reflexivity.
Qed.

Lemma j1939_status_hit (v : Z) :
  0 <= v <= 3 ->
  exists s, dict_get j1939_statuses v = Some s /\ truthy_text (Some s) = true.
Proof.
  intros H. assert (Hc : v = 0 \/ v = 1 \/ v = 2 \/ v = 3) by lia.
  repeat (destruct Hc as [-> | Hc]; [eexists; split; reflexivity |]).
  subst; eexists; split; reflexivity.
Qed.

(** A status word outside the table stops the decode: [hex] is applied
    to the missing entry, not to the word. *)
Lemma show_j1939_status_miss ret p v :
  getitem ret 4 = Returned v -> 3 < v ->
  show_j1939_status ret p
  = Raised (mk_exn TypeError
              "'NoneType' object cannot be interpreted as an integer").
Proof.
  intros Hg Hv. unfold show_j1939_status. rewrite Hg. cbn [obind].
  rewrite (j1939_status_miss v Hv). reflexivity.
Qed.

Lemma decode_status_miss level dev count v0 v1 v2 v3 :
  frame [level; 2; dev; count; v0; v1; v2; v3] -> 3 < v0 ->
  decode [level; 2; dev; count; v0; v1; v2; v3]
  = Raised (mk_exn TypeError
              "'NoneType' object cannot be interpreted as an integer").
Proof.
  intros H Hv. destruct (decode_by_payload _ H) as [p Hp]. rewrite Hp.
  cbn [nth]. change (dict_get pgn_names 2) with (Some "J1939_STATUS").
  unfold show_payload. change (code_is (Some "J1939_STATUS") "J1939_STATUS")
    with true. cbv iota.
  rewrite (show_j1939_status_miss _ p v0) by (reflexivity || assumption).
  reflexivity.
Qed.

(** A register-update frame stops the decode: the name [regs] is not
    bound where [showlog] looks for it. *)
Lemma decode_modbus_registers level dev count v0 v1 v2 v3 :
  frame [level; 0xFF23; dev; count; v0; v1; v2; v3] ->
  decode [level; 0xFF23; dev; count; v0; v1; v2; v3]
  = Raised (mk_exn NameError "name 'regs' is not defined").
Proof.
  intros H. destruct (decode_by_payload _ H) as [p Hp]. rewrite Hp.
  reflexivity.
Qed.

(** *** The unformatted branch *)


Lemma payload_of_unformatted_code code ret bytes p :
  unformatted_code code ->
  show_payload module_regs ret (dict_get pgn_names code) bytes p
  = show_unformatted ret bytes p.
Proof.
  intros (H1 & H2 & H3 & H4 & H5 & H6).
  unfold pgn_names. cbn [dict_get].
  destruct (0 =? code); [reflexivity |].
  destruct (1 =? code); [reflexivity |].
  destruct (2 =? code) eqn:E2; [apply Z.eqb_eq in E2; lia |].
  destruct (65226 =? code); [reflexivity |].
  destruct (65303 =? code) eqn:E3; [apply Z.eqb_eq in E3; lia |].
  destruct (65301 =? code) eqn:E4; [apply Z.eqb_eq in E4; lia |].
  destruct (65305 =? code) eqn:E5; [apply Z.eqb_eq in E5; lia |].
  destruct (65314 =? code) eqn:E6; [apply Z.eqb_eq in E6; lia |].
  destruct (65315 =? code) eqn:E7; [apply Z.eqb_eq in E7; lia |].
  reflexivity.
Qed.

(** With five bytes the loop shows the first two value words and the odd
    byte is read at [4 + ceil(5/2) = 7], the fourth value word. *)
Lemma show_unformatted_five level code dev count v0 v1 v2 v3 p :
  show_unformatted [level; code; dev; count; v0; v1; v2; v3] 5 p
  = Returned
      (add_both p
         (", data: " ++ hex (Z.shiftr v0 8) ++ " " ++ hex (Z.land v0 255)
            ++ " " ++ hex (Z.shiftr v1 8) ++ " " ++ hex (Z.land v1 255)
            ++ " " ++ hex (Z.shiftr v3 8) ++ " ")).
Proof.
  unfold show_unformatted.
  change (5 mod 2 =? 1) with true. cbv iota.
  change (4 + ceil_half 5) with 7. change (4 + floor_half 5) with 6.
  change (slice [level; code; dev; count; v0; v1; v2; v3] 4 6) with [v0; v1].
  change (getitem [level; code; dev; count; v0; v1; v2; v3] 7)
    with (Returned v3).
  unfold add_both, add. cbn [obind dump_words fst snd].
  repeat rewrite append_assoc. reflexivity.
Qed.

(** With seven bytes the odd byte is read at index 8, behind the frame. *)
Lemma show_unformatted_seven level code dev count v0 v1 v2 v3 p :
  show_unformatted [level; code; dev; count; v0; v1; v2; v3] 7 p
  = Raised (mk_exn IndexError "list index out of range").
Proof. reflexivity. Qed.

Lemma decode_five_bytes level code dev v0 v1 v2 v3 :
  frame [level; code; dev; 5; v0; v1; v2; v3] -> unformatted_code code ->
  exists p,
    decode [level; code; dev; 5; v0; v1; v2; v3]
    = Returned
        (fst p ++ ", data: " ++ hex (Z.shiftr v0 8) ++ " "
             ++ hex (Z.land v0 255) ++ " " ++ hex (Z.shiftr v1 8) ++ " "
             ++ hex (Z.land v1 255) ++ " " ++ hex (Z.shiftr v3 8) ++ " " ++ nl,
         snd p ++ ", data: " ++ hex (Z.shiftr v0 8) ++ " "
             ++ hex (Z.land v0 255) ++ " " ++ hex (Z.shiftr v1 8) ++ " "
             ++ hex (Z.land v1 255) ++ " " ++ hex (Z.shiftr v3 8) ++ " ").
Proof.
  intros H Hc. destruct (decode_by_payload _ H) as [p Hp]. exists p.
  rewrite Hp. cbn [nth]. rewrite payload_of_unformatted_code by assumption.
  change (Z.min 5 8) with 5. rewrite show_unformatted_five.
  unfold add_both, add. cbn [obind fst snd].
  repeat rewrite append_assoc. reflexivity.
Qed.

Lemma decode_seven_bytes level code dev v0 v1 v2 v3 :
  frame [level; code; dev; 7; v0; v1; v2; v3] -> unformatted_code code ->
  decode [level; code; dev; 7; v0; v1; v2; v3]
  = Raised (mk_exn IndexError "list index out of range").
Proof.
  intros H Hc. destruct (decode_by_payload _ H) as [p Hp].
  rewrite Hp. cbn [nth]. rewrite payload_of_unformatted_code by assumption.
  reflexivity.
Qed.

Lemma show_unformatted_returns level code dev count v0 v1 v2 v3 bytes p :
  0 <= bytes <= 8 -> bytes <> 7 ->
  exists q,
    show_unformatted [level; code; dev; count; v0; v1; v2; v3] bytes p
    = Returned q.
Proof.
  intros Hb Hn.
  assert (Hc : bytes = 0 \/ bytes = 1 \/ bytes = 2 \/ bytes = 3 \/ bytes = 4
               \/ bytes = 5 \/ bytes = 6 \/ bytes = 8) by lia.
  repeat (destruct Hc as [-> | Hc]; [eexists; reflexivity |]).
  subst; eexists; reflexivity.
Qed.

(** *** Which frames decode *)

Lemma show_j1939_status_hit ret p v :
  getitem ret 4 = Returned v -> 0 <= v <= 3 ->
  exists q, show_j1939_status ret p = Returned q.
Proof.
  intros Hg Hv. unfold show_j1939_status. rewrite Hg. cbn [obind].
  destruct (j1939_status_hit v Hv) as [s [Hs Ht]]. rewrite Hs, Ht.
  eexists; reflexivity.
Qed.

(** An 8-word frame decodes unless it is a status frame with a status
    outside the table, a register-update frame, or an unformatted frame
    of (clamped) byte count 7. *)
Lemma decode_returns_iff ret :
  frame ret -> (exists q, decode ret = Returned q) <-> decodable ret.
Proof.
  intros H. destruct (decode_by_payload ret H) as [p Hp]. rewrite Hp.
  clear Hp. unfold decodable. frame_words ret H. cbn [nth].
  assert (Hret : forall (o : outcome Lines),
             (exists q, (r <- o ;; Returned (fst r ++ nl, snd r))%outcome
                        = Returned q)
             <-> exists q, o = Returned q).
  { intros [r | e]; cbn; split; intros [q Hq];
      try discriminate Hq; eexists; reflexivity. }
  rewrite Hret. clear Hret.
  assert (Hbytes : 0 <= Z.min count 8 <= 8) by (unfold word in *; lia).
  destruct (Z.eq_dec code 2) as [-> | Hcode2].
  { change (dict_get pgn_names 2) with (Some "J1939_STATUS").
    change (show_payload module_regs [level; 2; dev; count; v0; v1; v2; v3]
              (Some "J1939_STATUS") (Z.min count 8) p)
      with (show_j1939_status [level; 2; dev; count; v0; v1; v2; v3] p).
    split.
    - intros [q Hq]. split; [| split].
      + intros _. destruct (Z.le_gt_cases v0 3) as [Hle | Hgt]; [exact Hle |].
        rewrite (show_j1939_status_miss _ p v0) in Hq
          by (reflexivity || lia). discriminate Hq.
      + discriminate.
      + intros (Hne & _). contradiction.
    - intros (Hle & _). apply (show_j1939_status_hit _ p v0);
        [reflexivity | unfold word in *; lia]. }
  destruct (Z.eq_dec code 0xFF23) as [-> | Hcode23].
  { split.
    - intros [q Hq]. discriminate Hq.
    - intros (_ & Hne & _). contradiction. }
  destruct (Z.eq_dec code 0xFF15) as [-> | Hcode15].
  { split.
    - intros _. split; [discriminate | split; [discriminate |]].
      intros (_ & Hne & _). contradiction.
    - intros _. eexists; reflexivity. }
  destruct (Z.eq_dec code 0xFF19) as [-> | Hcode19].
  { split.
    - intros _. split; [discriminate | split; [discriminate |]].
      intros (_ & _ & Hne & _). contradiction.
    - intros _. eexists; reflexivity. }
  destruct (Z.eq_dec code 0xFF22) as [-> | Hcode22].
  { split.
    - intros _. split; [discriminate | split; [discriminate |]].
      intros (_ & _ & _ & Hne & _). contradiction.
    - intros _. eexists; reflexivity. }
  destruct (Z.eq_dec code 0xFF17) as [-> | Hcode17].
  { split.
    - intros _. split; [discriminate | split; [discriminate |]].
      intros (_ & _ & _ & _ & _ & Hne). contradiction.
    - intros _. eexists; reflexivity. }
  assert (Hu : unformatted_code code) by (unfold unformatted_code; tauto).
  rewrite (payload_of_unformatted_code code _ _ p Hu).
  split.
  - intros [q Hq]. split; [tauto | split; [exact Hcode23 |]].
    intros _ Hseven. rewrite Hseven in Hq. discriminate Hq.
  - intros (_ & _ & Hseven).
    apply show_unformatted_returns; [exact Hbytes | now apply Hseven].
Qed.

(** A status frame of the second CAN device, without node address. *)
Example decode_status_frame :
  decode [2; 2; 0x0001; 4; 2; 0; 0; 0]
  = Returned ("CRIT, J1939_STATUS, CAN_B, bytes:4, NORMALDATATRAFFIC" ++ nl,
              "CRIT, J1939_STATUS, CAN_B, bytes:4, NORMALDATATRAFFIC").
Proof. reflexivity. Qed.

(** A byte count of 11 is shown as illegal and 8 bytes are decoded. *)
Example decode_eleven_bytes :
  decode [6; 0x1234; 0x0A02; 11; 0x0102; 0x0304; 0x0506; 0x0708]
  = Returned
      ("INFO, 0x1234, RS485:0a, bytes(illegal value, max 8):11, "
         ++ "data: 0x1 0x2 0x3 0x4 0x5 0x6 0x7 0x8 " ++ nl,
       "INFO, 0x1234, RS485:0a, bytes(illegal value, max 8):11, "
         ++ "data: 0x1 0x2 0x3 0x4 0x5 0x6 0x7 0x8 ").
Proof. reflexivity. Qed.

(** *** The flags of the third controller frame *)

(** [r & 0x0002] is 0 or 2, so the test [== 1] never holds. *)
Lemma bit_lvco_never (r : Z) : bit_lvco r = "".
Proof.
  unfold bit_lvco. destruct (Z.land r 2 =? 1) eqn:E; [| reflexivity].
  apply Z.eqb_eq in E.
  assert (Hb : Z.testbit (Z.land r 2) 0 = Z.testbit 1 0) by now rewrite E.
  rewrite Z.land_spec in Hb. cbn in Hb. rewrite andb_false_r in Hb.
  discriminate Hb.
Qed.

Lemma bit_low_voltage_warning_spec (r : Z) :
  bit_low_voltage_warning r
  = if Z.testbit r 0 then "Low voltage warning" else "".
Proof.
  unfold bit_low_voltage_warning.
  assert (H : (Z.land r 1 =? 1) = Z.testbit r 0).
  { change 1 with (Z.ones 1) at 1. rewrite Z.land_ones by lia.
    rewrite Z.bit0_eqb. reflexivity. }
  now rewrite H.
Qed.

(** The flag text of a third controller frame never names LVCO. *)
Lemma flags_text (r : Z) :
  join_flags (bit_low_voltage_warning r) (bit_lvco r)
  = if Z.testbit r 0 then "Low voltage warning" else "".
Proof.
  rewrite bit_lvco_never, bit_low_voltage_warning_spec.
  destruct (Z.testbit r 0); reflexivity.
Qed.

End DecoderFacts.

(* ===================================================================== *)
(** ** Claims on the decoder *)
(* ===================================================================== *)

(** C1 (defect in the code).  The claim: every 8-word frame decodes, a
    missed table lookup showing the raw value.  The frame
    [[2, 2, 1, 4, 7, 0, 0, 0]] (code J1939_STATUS, status 7, which the
    4-entry status table lacks) does not decode: [showlog] passes the
    missing entry, not the word, to [hex] and the [TypeError] escapes.
    [DecoderFacts.decode_status_miss] shows the same for every frame with
    that code and a status above 3, and [DecoderFacts.decode_returns_iff]
    tells which frames decode. *)
Theorem decode_status_out_of_table_raises :
  Decoder.decode [2; 2; 1; 4; 7; 0; 0; 0]
  = Raised (mk_exn TypeError
              "'NoneType' object cannot be interpreted as an integer").
Proof. reflexivity. Qed.

(** C2 (defect in the code).  The claim: with [byteCount = 5] the raw
    rendering shows two full words and one trailing byte of the third
    value word.  On [[6, 0x1234, 2, 5, 0x0102, 0x0304, 0x0506, 0x0708]]
    the trailing byte shown is [0x7], the high byte of the fourth value
    word; the third value word [0x0506] is not shown at all.
    [DecoderFacts.decode_five_bytes] shows it for every such frame. *)
Theorem decode_five_bytes_takes_fourth_word :
  Decoder.decode [6; 0x1234; 2; 5; 0x0102; 0x0304; 0x0506; 0x0708]
  = Returned
      ("INFO, 0x1234, RS485, bytes:5, data: 0x1 0x2 0x3 0x4 0x7 " ++ nl,
       "INFO, 0x1234, RS485, bytes:5, data: 0x1 0x2 0x3 0x4 0x7 ").
Proof. reflexivity. Qed.

(** C7 (defect in the code).  The claim: in a third controller frame the
    flag LVCO appears exactly when bit 1 of value1 is set.  On
    [[6, 0xFF22, 0, 8, 2400, 0x0002, 0, 0]] bit 1 is set and the flag text
    is empty.  [DecoderFacts.flags_text] shows that no value1 yields
    LVCO. *)
Theorem decode_third_controller_drops_lvco :
  Decoder.decode [6; 0xFF22; 0; 8; 2400; 0x0002; 0; 0]
  = Returned
      ("INFO, Controller 3rd PGN, CAN_A, bytes:8, BATTERY_VOLTAGE:2400, "
         ++ "CHARGER_MODE:Charging, BIT:, CHARGING_CURRENT:0, GEN_CONTROL:Off"
         ++ nl,
       "INFO, Controller 3rd PGN, CAN_A, bytes:8, BATTERY_VOLTAGE:2400, "
         ++ "CHARGER_MODE:Charging, BIT:, CHARGING_CURRENT:0, GEN_CONTROL:Off").
Proof. reflexivity. Qed.

(* ===================================================================== *)
(** ** The register catalogue: names and addresses *)
(* ===================================================================== *)

Module CatalogFacts.

Import CatalogSpec.


Lemma entries_at_none (regs : RegisterMap) (a : Z) :
  (forall kv, In kv regs -> snd kv <> a) -> entries_at regs a = [].
Proof.
  induction regs as [| [k v] regs IH]; intros H; [reflexivity |].
  cbn. destruct (v =? a) eqn:E.
  - apply Z.eqb_eq in E. exfalso. apply (H (k, v)); [now left | exact E].
  - apply IH. intros kv Hin. apply H. now right.
Qed.

Lemma entries_at_app (l m : RegisterMap) (a : Z) :
  entries_at (l ++ m)%list a = (entries_at l a ++ entries_at m a)%list.
Proof. unfold entries_at. apply filter_app. Qed.

Lemma entries_at_hit (k : string) (a : Z) (regs : RegisterMap) :
  entries_at ((k, a) :: regs) a = (k, a) :: entries_at regs a.
Proof. unfold entries_at. cbn. now rewrite Z.eqb_refl. Qed.

(** A name of the map resolves to an address that the map pairs it with. *)
Lemma resolve_in (regs : RegisterMap) (name : string) :
  In name (map fst regs) ->
  exists a, resolve regs name = Some a /\ In (name, a) regs.
Proof.
  unfold resolve.
  induction regs as [| [k v] regs IH]; intros H; [contradiction |].
  cbn. destruct (String.eqb k name) eqn:E.
  - apply String.eqb_eq in E. subst k. exists v. split; [reflexivity | now left].
  - destruct H as [H | H].
    + cbn in H. subst k. rewrite String.eqb_refl in E. discriminate.
    + destruct (IH H) as [a [Ha Hin]]. exists a. split; [exact Ha | now right].
Qed.

(** With unique addresses an address has one entry. *)
Lemma entries_at_unique (regs : RegisterMap) (name : string) (a : Z) :
  NoDup (map snd regs) -> In (name, a) regs ->
  entries_at regs a = [(name, a)].
Proof.
  induction regs as [| [k v] regs IH]; intros Hnd Hin; [contradiction |].
  cbn in Hnd. inversion Hnd as [| x l Hnotin Hnd']; subst.
  destruct Hin as [Heq | Hin].
  - inversion Heq; subst. rewrite entries_at_hit. f_equal.
    apply entries_at_none. intros kv Hkv Hs. apply Hnotin.
    rewrite <- Hs. apply in_map. exact Hkv.
  - unfold entries_at. cbn. destruct (v =? a) eqn:E.
    + apply Z.eqb_eq in E. subst v. exfalso. apply Hnotin.
      change a with (snd (name, a)). apply in_map. exact Hin.
    + apply IH; assumption.
Qed.


Lemma unique_addresses_NoDup (regs : RegisterMap) :
  unique_addresses regs = true -> NoDup (map snd regs).
Proof.
  unfold unique_addresses. generalize (map snd regs) as l.
  induction l as [| a l IH]; intros H; [constructor |].
  apply andb_true_iff in H. destruct H as [Ha Hl]. constructor.
  - intros Hin. apply negb_true_iff in Ha.
    assert (Hex : existsb (Z.eqb a) l = true).
    { apply existsb_exists. exists a. split; [exact Hin | apply Z.eqb_refl]. }
    rewrite Hex in Ha. discriminate.
  - apply IH. exact Hl.
Qed.

Lemma products_unique_addresses :
  Forall (fun p => NoDup (map snd (product_regs p))) products.
Proof.
  unfold products.
  repeat (apply Forall_cons;
          [apply unique_addresses_NoDup; vm_compute; reflexivity |]).
  apply Forall_nil.
Qed.

(** The entries at the address of a dictionary woven around it are the
    aliases, in their order. *)
Lemma entries_at_weave (a : Z) (names : list string) :
  forall (gaps : list RegisterMap) (last : RegisterMap),
    length gaps = length names ->
    Forall (avoids a) gaps -> avoids a last ->
    entries_at (weave a names gaps last) a = map (fun n => (n, a)) names.
Proof.
  induction names as [| n names IH]; intros gaps last Hlen Hgaps Hlast.
  - destruct gaps; [| discriminate Hlen]. cbn [weave map].
    now apply entries_at_none.
  - destruct gaps as [| gap gaps]; [discriminate Hlen |].
    inversion Hgaps as [| g gs Hgap Hgaps']; subst.
    cbn [weave map].
    rewrite entries_at_app, entries_at_hit, (entries_at_none gap a Hgap).
    cbn [app]. f_equal. apply IH; [| assumption | assumption].
    now inversion Hlen.
Qed.

(** Every dictionary is woven around every address, in one way. *)
Lemma weave_exists (a : Z) (regs : RegisterMap) :
  exists names gaps last,
    length gaps = length names
    /\ regs = weave a names gaps last
    /\ Forall (avoids a) gaps /\ avoids a last.
Proof.
  induction regs as [| [k v] regs IH].
  - exists [], [], []. repeat split; [constructor | intros kv []].
  - destruct IH as (names & gaps & last & Hlen & Hregs & Hgaps & Hlast).
    destruct (Z.eq_dec v a) as [-> | Hne].
    + exists (k :: names), ([] :: gaps), last. repeat split.
      * cbn. now rewrite Hlen.
      * cbn [weave app]. now rewrite <- Hregs.
      * constructor; [intros kv [] | exact Hgaps].
      * exact Hlast.
    + destruct names as [| n names].
      * destruct gaps; [| discriminate Hlen]. cbn [weave] in Hregs.
        exists [], [], ((k, v) :: last). repeat split.
        -- cbn [weave]. now rewrite Hregs.
        -- constructor.
        -- intros kv [<- | Hin]; [exact Hne | now apply Hlast].
      * destruct gaps as [| gap gaps]; [discriminate Hlen |].
        cbn [weave] in Hregs.
        inversion Hgaps as [| g gs Hgap Hgaps']; subst.
        exists (n :: names), (((k, v) :: gap) :: gaps), last. repeat split.
        -- exact Hlen.
        -- constructor; [| exact Hgaps'].
           intros kv [<- | Hin]; [exact Hne | now apply Hgap].
        -- exact Hlast.
Qed.

Lemma names_of_aliases (a : Z) (names : list string) :
  map fst (map (fun n => (n, a)) names) = names.
Proof.
  induction names as [| n names IH]; [reflexivity |].
  cbn. now rewrite IH.
Qed.

End CatalogFacts.

(** C8.  For a name of the map, the reverse lookup of its resolved address
    is that name when the addresses of the map are unique; and when
    several names share the address, however many and wherever in the
    dictionary (the entries before, between and behind them are at other
    addresses), the name is one of them and the reverse lookup is all of
    them, in the order of the dictionary, joined by semicolons.  Every
    dictionary has this shape around every address. *)
Theorem reverse_of_resolved (regs : RegisterMap) (name : string)
        (Hname : In name (map fst regs)) :
  exists a,
    resolve regs name = Some a
    /\ (NoDup (map snd regs) -> reverseRegister regs a = name)
    /\ (forall names gaps last,
           length gaps = length names ->
           regs = CatalogSpec.weave a names gaps last ->
           Forall (CatalogSpec.avoids a) gaps ->
           CatalogSpec.avoids a last ->
           In name names /\ reverseRegister regs a = join ";" names)
    /\ (exists names gaps last,
           length gaps = length names
           /\ regs = CatalogSpec.weave a names gaps last
           /\ Forall (CatalogSpec.avoids a) gaps
           /\ CatalogSpec.avoids a last).
Proof.
  destruct (CatalogFacts.resolve_in regs name Hname) as [a [Hres Hin]].
  exists a. split; [exact Hres |]. split; [| split].
  - intros Hnd. unfold reverseRegister.
    change (filter (fun kv => snd kv =? a) regs)
      with (CatalogSpec.entries_at regs a).
    rewrite (CatalogFacts.entries_at_unique regs name a Hnd Hin).
    reflexivity.
  - intros names gaps last Hlen Hregs Hgaps Hlast.
    assert (Hentries : CatalogSpec.entries_at regs a
                       = map (fun n => (n, a)) names).
    { rewrite Hregs. now apply CatalogFacts.entries_at_weave. }
    split.
    + assert (Hat : In (name, a) (CatalogSpec.entries_at regs a)).
      { unfold CatalogSpec.entries_at. apply filter_In.
        split; [exact Hin | apply Z.eqb_refl]. }
      rewrite Hentries in Hat. apply in_map_iff in Hat.
      destruct Hat as [n [Hn Hnames]]. inversion Hn; subst. exact Hnames.
    + unfold reverseRegister.
      change (filter (fun kv => snd kv =? a) regs)
        with (CatalogSpec.entries_at regs a).
      now rewrite Hentries, CatalogFacts.names_of_aliases.
  - apply CatalogFacts.weave_exists.
Qed.

(** C8 at BUS_VOLTAGE of the HyPR 6000 dictionary: address 45 and back;
    and at a dictionary in which A, C and E share address 7. *)
Lemma reverse_of_resolved_witness :
  In "BUS_VOLTAGE" (map fst hypr6000_regs)
  /\ resolve hypr6000_regs "BUS_VOLTAGE" = Some 45
  /\ reverseRegister hypr6000_regs 45 = "BUS_VOLTAGE"
  /\ reverseRegister [("A", 7); ("B", 8); ("C", 7); ("D", 9); ("E", 7)] 7
     = "A;C;E".
Proof.
  assert (Hin : In "BUS_VOLTAGE" (map fst hypr6000_regs)).
  { cbn. do 45 right. left. reflexivity. }
  split; [exact Hin |].
  destruct (reverse_of_resolved hypr6000_regs "BUS_VOLTAGE" Hin)
    as [a [Hres [Huniq _]]].
  assert (Ha : a = 45).
  { vm_compute in Hres. now inversion Hres. }
  subst a. split; [exact Hres |]. split.
  - apply Huniq. apply CatalogFacts.unique_addresses_NoDup.
    vm_compute. reflexivity.
  - destruct (reverse_of_resolved
                [("A", 7); ("B", 8); ("C", 7); ("D", 9); ("E", 7)] "C")
      as [a [Hres' [_ [Halias _]]]]; [right; right; now left |].
    assert (Ha : a = 7) by (vm_compute in Hres'; now inversion Hres').
    subst a.
    apply (Halias ["A"; "C"; "E"] [[]; [("B", 8)]; [("D", 9)]] []).
    + reflexivity.
    + reflexivity.
    + repeat constructor; intros kv Hkv; cbn in Hkv;
        repeat (destruct Hkv as [<- | Hkv]; [discriminate |]);
        contradiction.
    + intros kv [].
Defined.

(* ===================================================================== *)
(** ** Value coercion *)
(* ===================================================================== *)

Module CoercionFacts.

Import CoercionSpec.


Lemma coerces_to_functional (a : string) (t t' : Token) :
  coerces_to a t -> coerces_to a t' -> t = t'.
Proof.
  intros H H'. destruct H; destruct H'; try congruence.
  - destruct b, b0; try reflexivity; congruence.
  - destruct b; congruence.
  - destruct b; congruence.
Qed.

Lemma coerce_refines (a : string) :
  exists t, coerce a = Returned t /\ coerces_to a t.
Proof.
  unfold coerce, py_int, py_float.
  destruct (parse_int a) as [n |] eqn:Hi; cbn.
  { exists (TInt n). split; [reflexivity | now constructor]. }
  destruct (parse_float a) as [f |] eqn:Hf; cbn.
  { exists (TFloat f). split; [reflexivity | now constructor]. }
  destruct (String.eqb (Coercion.lower a) "false") eqn:E1.
  { apply String.eqb_eq in E1. exists (TBool false).
    split; [reflexivity | now constructor]. }
  destruct (String.eqb (Coercion.lower a) "true") eqn:E2.
  { apply String.eqb_eq in E2. exists (TBool true).
    split; [reflexivity | now constructor]. }
  apply String.eqb_neq in E1, E2.
  exists (TText a). split; [reflexivity | now constructor].
Qed.

(** A whole row coerces, cell by cell. *)
Lemma coerce_row_returns (row : list string) :
  exists b, coerce_row row = Returned b /\ length b = length row.
Proof.
  induction row as [| a row [b [Hb Hl]]].
  - exists []. split; reflexivity.
  - destruct (coerce_refines a) as [t [Ht _]].
    exists (t :: b). cbn. rewrite Ht. cbn. rewrite Hb. cbn.
    split; [reflexivity | now rewrite Hl].
Qed.

End CoercionFacts.

(** C9.  The coercion of a cell never raises and yields the one token that
    the ordered rule gives: integer before float, float before the
    case-insensitive truth values, these before the raw text.  "5" reads as
    an integer and as a float and becomes the integer; "5.0" becomes a
    float. *)
Theorem coerce_total_ordered :
  (forall a : string,
      exists t,
        coerce a = Returned t
        /\ CoercionSpec.coerces_to a t
        /\ forall t', CoercionSpec.coerces_to a t' -> t' = t)
  /\ parse_int "5" = Some 5
  /\ parse_float "5" = Some (FDec false 5 0)
  /\ coerce "5" = Returned (TInt 5)
  /\ parse_int "5.0" = None
  /\ coerce "5.0" = Returned (TFloat (FDec false 50 (-1)))
  /\ coerce "TRUE" = Returned (TBool true)
  /\ coerce "False" = Returned (TBool false)
  /\ coerce "BUS_VOLTAGE" = Returned (TText "BUS_VOLTAGE").
Proof.
  split.
  - intros a. destruct (CoercionFacts.coerce_refines a) as [t [Hc Hs]].
    exists t. split; [exact Hc |]. split; [exact Hs |].
    intros t' Ht'. exact (CoercionFacts.coerces_to_functional a t' t Ht' Hs).
  - repeat split; reflexivity.
Qed.

(* ===================================================================== *)
(** ** Reasoning about computations on the [World] *)
(* ===================================================================== *)

Module Run.

Import Returns.

Local Open Scope M_scope.


Lemma returns_ret {A} (a : A) (w : World) (Q : A -> World -> Prop) :
  Q a w -> returns (mret a) w Q.
Proof. intros H. exists a, w. split; [reflexivity | exact H]. Qed.

Lemma returns_lift {A} (o : outcome A) (a : A) (w : World)
      (Q : A -> World -> Prop) :
  o = Returned a -> Q a w -> returns (lift o) w Q.
Proof. intros -> H. exists a, w. split; [reflexivity | exact H]. Qed.

Lemma returns_bind {A B} (c : M A) (k : A -> M B) (w : World)
      (Q : B -> World -> Prop) :
  returns c w (fun a w' => returns (k a) w' Q) -> returns (mbind c k) w Q.
Proof.
  intros (a & w' & Hc & b & w'' & Hk & HQ). exists b, w''.
  split; [| exact HQ]. unfold mbind. rewrite Hc. exact Hk.
Qed.

Lemma returns_weaken {A} (c : M A) (w : World) (P Q : A -> World -> Prop) :
  returns c w P -> (forall a w', P a w' -> Q a w') -> returns c w Q.
Proof.
  intros (a & w' & Hc & HP) H. exists a, w'. split; [exact Hc | auto].
Qed.

(** A computation that continues as another one. *)
Lemma returns_step {A} (c c' : M A) (w w' : World)
      (Q : A -> World -> Prop) :
  c w = c' w' -> returns c' w' Q -> returns c w Q.
Proof.
  intros Heq (a & w'' & Hc & HQ). exists a, w''.
  split; [now rewrite Heq | exact HQ].
Qed.

(** The state changes that leave the calls alone. *)
Lemma returns_set_comm_status s w Q :
  (forall w', calls w' = calls w -> Q tt w') ->
  returns (set_comm_status s) w Q.
Proof. intros H. eexists _, _. split; [reflexivity | now apply H]. Qed.

Lemma returns_get_comm_status w Q :
  Q (comm_status w) w -> returns get_comm_status w Q.
Proof. intros H. eexists _, _. split; [reflexivity | exact H]. Qed.

Lemma returns_emit s w Q :
  (forall w', calls w' = calls w -> Q tt w') -> returns (emit s) w Q.
Proof. intros H. eexists _, _. split; [reflexivity | now apply H]. Qed.

Lemma returns_update_output s w Q :
  (forall w', calls w' = calls w -> Q tt w') -> returns (update_output s) w Q.
Proof. intros H. eexists _, _. split; [reflexivity | now apply H]. Qed.

Lemma returns_update_comms w Q :
  (forall w', calls w' = calls w -> Q tt w') -> returns update_comms w Q.
Proof. intros H. eexists _, _. split; [reflexivity | now apply H]. Qed.

Lemma returns_record_sleep d w Q :
  (forall w', calls w' = calls w -> Q tt w') -> returns (record_sleep d) w Q.
Proof. intros H. eexists _, _. split; [reflexivity | now apply H]. Qed.

(** A [try] whose body returns. *)
Lemma returns_try_body {A} (c : M A) handler w (Q : A -> World -> Prop) :
  returns c w Q -> returns (try_except c handler) w Q.
Proof.
  intros (a & w' & Hc & HQ). exists a, w'. split; [| exact HQ].
  unfold try_except. now rewrite Hc.
Qed.

(** A [try] whose body raises what a clause catches. *)
Lemma returns_try_handler {A} (c : M A) handler e hd w w'
      (Q : A -> World -> Prop) :
  c w = (Raised e, w') -> handler e = Some hd -> returns hd w' Q ->
  returns (try_except c handler) w Q.
Proof.
  intros Hc Hh (a & w'' & Hhd & HQ). exists a, w''. split; [| exact HQ].
  unfold try_except. now rewrite Hc, Hh.
Qed.

Lemma getitem_nth_error {A} (l : list A) (i : nat) (a : A) :
  nth_error l i = Some a -> getitem l (Z.of_nat i) = Returned a.
Proof.
  intros H. unfold getitem.
  assert (Hlt : (i < length l)%nat) by (apply nth_error_Some; congruence).
  assert (E1 : (Z.of_nat i <? 0) = false) by lia.
  assert (E2 : (Z.of_nat (length l) <=? Z.of_nat i) = false) by lia.
  cbv zeta. rewrite E1. cbv iota. rewrite E1, E2. cbn [orb].
  now rewrite Nat2Z.id, H.
Qed.

End Run.

(* ===================================================================== *)
(** ** The interpreter under transport errors *)
(* ===================================================================== *)

Module InterpreterFacts.

Import Returns Run Tame.
Local Open Scope M_scope.



Section WithHost.

Variable h : Host.
Variable product : nat.
Variable p : Product.
Hypothesis Hproduct : getitem products (Z.of_nat product) = Returned p.

(** Whatever the transport answers, value or error, the iteration obtains
    a result: no transport error leaves [obtain_result] as an exception. *)
Lemma obtain_result_tame (write val : Token) (addr : Z) (desc : string)
      (w : World) :
  (token_truthy h write = false -> exists gt, token_gt_one h val = Returned gt) ->
  let c := call_of h (product_write_fc p) write val addr in
  tame_answer (instrument h (calls w) c) ->
  exists w',
    obtain_result h product write val addr desc w
    = (Returned (result_after c (instrument h (calls w) c)), w')
    /\ calls w' = (calls w ++ [c])%list.
Proof.
  intros Hval c Htame. subst c. unfold call_of in *. unfold obtain_result.
  destruct (token_truthy h write) eqn:Hw.
  - (* write *)
    unfold write_register, try_except, mbind, lift, call_instrument.
    rewrite Hproduct. cbn -[instrument].
    destruct (instrument h (calls w) (WriteRegister addr val 0 (product_write_fc p)))
      as [v | e] eqn:Ha; cbn.
    + eexists. split; reflexivity.
    + cbn in Htame. destruct (exn_cls e) eqn:Hc; try discriminate Htame;
        cbn; eexists; split; reflexivity.
  - destruct (Hval eq_refl) as [gt Hgt]. rewrite Hgt in *.
    unfold mbind at 1, lift at 1. destruct gt.
    + (* read_registers *)
      unfold read_registers, try_except, call_instrument.
      destruct (instrument h (calls w) (ReadRegisters addr val))
        as [v | e] eqn:Ha; cbn.
      * eexists. split; reflexivity.
      * cbn in Htame. destruct (exn_cls e) eqn:Hc; try discriminate Htame;
          cbn; rewrite ?Hc; eexists; split; reflexivity.
    + (* read_register *)
      unfold read_register, try_except, call_instrument.
      destruct (instrument h (calls w) (ReadRegister addr 0))
        as [v | e] eqn:Ha; cbn.
      * eexists. split; reflexivity.
      * cbn in Htame. destruct (exn_cls e) eqn:Hc; try discriminate Htame;
          cbn; rewrite ?Hc; cbn; eexists; split; reflexivity.
Qed.


(** *** Assertions never stop a row, under a tame evaluator *)

Lemma compare_vals_raises (o : cmp_op) (a b : PyVal) (e : exn) :
  compare_vals o a b = Some (Raised e) -> exn_cls e = TypeError.
Proof.
  unfold compare_vals.
  destruct a, b; cbn; try discriminate;
    destruct o; cbn; intros H; inversion H; reflexivity.
Qed.

Lemma py_eval_tame (assertion : string) (x : PyVal) (e : exn) :
  tame_eval h -> py_eval h assertion x = Raised e ->
  caught_by_assert (exn_cls e) = true.
Proof.
  intros Ht. unfold py_eval, eval_comparison.
  destruct (parse_comparison assertion) as [[[a o] b] |] eqn:Hp.
  - destruct (compare_vals o (atom_val x a) (atom_val x b)) as [r |] eqn:Hc.
    + intros ->. now rewrite (compare_vals_raises _ _ _ _ Hc).
    + intros He. specialize (Ht assertion x). now rewrite He in Ht.
  - intros He. specialize (Ht assertion x). now rewrite He in Ht.
Qed.

Lemma check_assertion_returns (assertion : string) (result : PyVal)
      (ret : string) (w : World) :
  tame_eval h ->
  exists ret', check_assertion h assertion result ret w = (Returned ret', w).
Proof.
  intros Ht. unfold check_assertion.
  destruct (0 <? String.length assertion)%nat; [| eexists; reflexivity].
  destruct (py_eval h assertion result) as [v | e] eqn:He.
  - destruct (truthy v); eexists; reflexivity.
  - rewrite (py_eval_tame _ _ _ Ht He). eexists; reflexivity.
Qed.


Lemma time_sleep_returns (delay : Token) (w : World)
      (Q : unit -> World -> Prop) :
  sleepable h delay = true ->
  (forall w', calls w' = calls w -> Q tt w') ->
  returns (time_sleep h delay) w Q.
Proof.
  intros Hs HQ. unfold time_sleep. destruct delay as [n | f | b | s]; cbn in Hs.
  - destruct (n <? 0) eqn:E; [lia |]. now apply returns_record_sleep.
  - rewrite Hs. now apply returns_record_sleep.
  - now apply returns_record_sleep.
  - discriminate.
Qed.

Lemma numeric_gt_one (val : Token) :
  numeric val = true -> exists gt, token_gt_one h val = Returned gt.
Proof.
  destruct val; cbn; intros H; try discriminate; eexists; reflexivity.
Qed.

(** One iteration makes exactly one call and returns. *)
Lemma iteration_returns (write val delay : Token) (n addr : Z)
      (desc assertion : string) (i : Z) (ret : string) (w : World) :
  tame_instrument h -> tame_eval h ->
  token_truthy h write || numeric val = true ->
  sleepable h delay = true ->
  returns (iteration h product write val delay n addr desc assertion i ret) w
    (fun _ w' =>
       calls w'
       = (calls w ++ [call_of h (product_write_fc p) write val addr])%list).
Proof.
  intros Hi He Hv Hs. unfold iteration.
  apply returns_bind.
  destruct (obtain_result_tame write val addr desc w) as [w1 [Ho Hc1]].
  { intros Hw. rewrite Hw in Hv. cbn in Hv. now apply numeric_gt_one. }
  { apply Hi. }
  eexists _, w1. split; [exact Ho |].
  apply returns_bind.
  destruct (check_assertion_returns assertion
              (result_after (call_of h (product_write_fc p) write val addr)
                 (instrument h (calls w)
                    (call_of h (product_write_fc p) write val addr)))
              ((if n >? 1 then ret ++ str_int (i + 1) ++ ":" else ret)
                 ++ str_val
                      (result_after
                         (call_of h (product_write_fc p) write val addr)
                         (instrument h (calls w)
                            (call_of h (product_write_fc p) write val addr))))
              w1 He) as [ret1 Hr1].
  eexists _, w1. split; [exact Hr1 |].
  apply returns_bind, returns_update_output. intros w2 Hc2.
  apply returns_bind, returns_update_comms. intros w3 Hc3.
  apply returns_bind, time_sleep_returns; [exact Hs |]. intros w4 Hc4.
  apply returns_ret. congruence.
Qed.

(** The loop makes one call per iteration. *)
Lemma iterate_returns (write val delay : Token) (n addr : Z)
      (desc assertion : string) (k : nat) :
  tame_instrument h -> tame_eval h ->
  token_truthy h write || numeric val = true ->
  sleepable h delay = true ->
  forall (i : Z) (ret : string) (w : World),
    returns
      (iterate k (iteration h product write val delay n addr desc assertion)
         i ret) w
      (fun _ w' =>
         calls w'
         = (calls w
              ++ repeat (call_of h (product_write_fc p) write val addr) k)%list).
Proof.
  intros Hi He Hv Hs. induction k as [| k IH]; intros i ret w.
  - apply returns_ret. cbn. now rewrite app_nil_r.
  - cbn [iterate]. apply returns_bind.
    eapply returns_weaken; [now apply iteration_returns |].
    intros ret1 w1 Hc1. cbn beta.
    eapply returns_weaken; [apply IH |].
    intros ret2 w2 Hc2. cbn beta. rewrite Hc2, Hc1.
    rewrite <- app_assoc. reflexivity.
Qed.

Lemma description_returns (line : list Token) :
  match nth_error line 5 with
  | None | Some (TText _) => True
  | _ => False
  end ->
  exists d, description line = Returned d.
Proof.
  intros H. unfold description.
  destruct (length line <? 6)%nat eqn:E; [eexists; reflexivity |].
  apply Nat.ltb_ge in E.
  destruct (nth_error line 5) as [t |] eqn:Hn.
  - change 5 with (Z.of_nat 5). rewrite (getitem_nth_error _ _ _ Hn).
    destruct t; try contradiction. cbn.
    destruct (String.length (Coercion.strip s) =? 0)%nat; eexists; reflexivity.
  - apply nth_error_None in Hn. lia.
Qed.

(** A well-typed line whose register resolves runs all its iterations,
    one call each, whatever the transport answers. *)
Lemma do_script_line_returns (line : list Token) (preserve : string)
      (w : World) (addr : Z) :
  tame_instrument h -> tame_eval h ->
  lookup_register h product line = Returned addr ->
  well_typed h line = true ->
  returns (do_script_line h product line preserve) w
    (fun _ w' =>
       length (calls w') = (length (calls w) + iterations_of line)%nat).
Proof.
  intros Hi He Hlook Hwt. unfold do_script_line. rewrite Hlook.
  destruct line as [| name [| val [| write [| delay [| its rest]]]]];
    try discriminate Hwt.
  cbn [well_typed] in Hwt.
  apply andb_true_iff in Hwt. destruct Hwt as [Hwt Hrest].
  apply andb_true_iff in Hwt. destruct Hwt as [Hwt Hits].
  apply andb_true_iff in Hwt. destruct Hwt as [Hval Hdelay].
  apply returns_bind, returns_set_comm_status. intros w1 Hc1.
  apply returns_bind. eapply returns_lift.
  { change 1 with (Z.of_nat 1). apply getitem_nth_error. reflexivity. }
  apply returns_bind. eapply returns_lift.
  { unfold field_or. cbn [length Nat.add Nat.ltb Nat.leb].
    apply getitem_nth_error. reflexivity. }
  apply returns_bind. eapply returns_lift.
  { unfold field_or. cbn [length Nat.add Nat.ltb Nat.leb].
    apply getitem_nth_error. reflexivity. }
  apply returns_bind. eapply returns_lift.
  { unfold field_or. cbn [length Nat.add Nat.ltb Nat.leb].
    apply getitem_nth_error. reflexivity. }
  destruct (description_returns (name :: val :: write :: delay :: its :: rest))
    as [d Hd].
  { cbn. destruct rest as [| [| | |] rest']; try discriminate Hrest; exact I. }
  apply returns_bind. eapply returns_lift; [exact Hd |].
  apply returns_bind. eapply returns_lift.
  { change 0 with (Z.of_nat 0). apply getitem_nth_error. reflexivity. }
  assert (Hcount : exists n, range_count its = Returned n
                             /\ Z.to_nat n = iterations_of
                                  (name :: val :: write :: delay :: its :: rest)).
  { destruct its as [n | f | [|] | s]; try discriminate Hits;
      eexists; split; reflexivity. }
  destruct Hcount as [n [Hn Hiter]].
  apply returns_bind.
  assert (Hhead : forall Q : string -> World -> Prop,
             (forall s, Q s w1) ->
             returns
               (if token_truthy h write
                then mret (preserve ++ "Write " ++ fmt_token h val ++ " to "
                                    ++ fmt_token h name)
                else
                  mbind (lift (token_gt_one h val))
                    (fun gt =>
                       if gt
                       then mret (preserve ++ "Read " ++ fmt_token h val
                                    ++ " registers starting at "
                                    ++ fmt_token h name)
                       else mret (preserve ++ "Read from " ++ fmt_token h name)))
               w1 Q).
  { intros Q HQ. destruct (token_truthy h write) eqn:Hw.
    - apply returns_ret, HQ.
    - cbn in Hval. destruct (numeric_gt_one val Hval) as [gt Hgt].
      apply returns_bind. eapply returns_lift; [exact Hgt |].
      destruct gt; apply returns_ret, HQ. }
  apply Hhead. intros header.
  apply returns_bind. eapply returns_lift; [exact Hn |].
  apply returns_bind.
  eapply returns_weaken; [now apply iterate_returns |].
  intros ret1 w2 Hc2. cbn beta.
  apply returns_bind, returns_update_output. intros w3 Hc3.
  apply returns_bind, returns_update_comms. intros w4 Hc4.
  apply returns_ret.
  rewrite Hc4, Hc3, Hc2, Hc1, length_app, repeat_length, Hiter. reflexivity.
Qed.


(** *** Rows and whole scripts *)



(** A row whose register does not resolve: the report gains the status
    text, nothing else happens. *)
Lemma do_script_line_unresolved (line : list Token) (preserve : string)
      (w : World) (e : exn) :
  lookup_register h product line = Raised e ->
  let status := "Unexpected register name: " ++ exn_msg e ++ ". *** FAIL ***" in
  do_script_line h product line preserve w
  = (Returned (preserve ++ status),
     mk_world status (preserve ++ status) status (calls w) (console w)
              (sleeps w)).
Proof.
  intros Hl. unfold do_script_line. rewrite Hl. reflexivity.
Qed.

(** The text of the exception for a name that the dictionary lacks. *)
Lemma lookup_register_absent (name : string) (cells : list Token) :
  resolve (product_regs p) name = None ->
  lookup_register h product (TText name :: cells)
  = Raised (mk_exn KeyError (repr_text name)).
Proof.
  intros Hr. unfold lookup_register. rewrite Hproduct. cbn [obind].
  change (getitem (TText name :: cells) 0) with
    (getitem (TText name :: cells) (Z.of_nat 0)).
  rewrite (getitem_nth_error _ 0 (TText name)) by reflexivity.
  cbn [obind]. rewrite Hr. reflexivity.
Qed.

Lemma lacks_final_newline_snoc (s : string) (c : ascii) :
  Ascii.eqb c "010"%char = false ->
  lacks_final_newline (s ++ String c "") = true.
Proof.
  intros Hc. unfold lacks_final_newline.
  assert (Hrev : rev (list_ascii_of_string (s ++ String c ""))
                 = c :: rev (list_ascii_of_string s)).
  { induction s as [| x s IH]; [reflexivity |].
    cbn. rewrite IH. reflexivity. }
  rewrite Hrev, Hc. apply orb_true_r.
Qed.


(** One step of the row loop on a malformed row. *)
Lemma run_rows_malformed (row : list string) (rows : list (list string))
      (ret : string) (w : World) :
  malformed row = true ->
  run_rows h product (row :: rows) ret w
  = run_rows h product rows
      (ret ++ "not enough columns in " ++ String dquote_c ""
           ++ repr_row row ++ String dquote_c "" ++ nl)
      (refreshed ret w).
Proof.
  intros Hm. unfold malformed in Hm. cbn [run_rows]. rewrite Hm.
  reflexivity.
Qed.

(** One step of the row loop on a row whose register does not resolve. *)
Lemma run_rows_unresolved (row : list string) (rows : list (list string))
      (ret : string) (w : World) (b : list Token) (e : exn) :
  malformed row = false ->
  coerce_row row = Returned b ->
  lookup_register h product b = Raised e ->
  let status := "Unexpected register name: " ++ exn_msg e ++ ". *** FAIL ***" in
  run_rows h product (row :: rows) ret w
  = run_rows h product rows (ret ++ status ++ nl)
      (mk_world status (ret ++ status) status (calls w) (console w)
                (sleeps w)).
Proof.
  intros Hm Hb Hl status. unfold malformed in Hm. cbn [run_rows].
  rewrite Hm. unfold mbind at 1 2 3 4. cbn [update_output update_comms].
  unfold lift at 1. rewrite Hb.
  rewrite (do_script_line_unresolved b ret _ e Hl). cbn [calls console sleeps].
  fold status.
  assert (Hnl : lacks_final_newline (ret ++ status) = true).
  { subst status.
    change ". *** FAIL ***" with (". *** FAIL **" ++ String "*"%char "").
    rewrite <- !append_assoc. now apply lacks_final_newline_snoc. }
  rewrite Hnl. rewrite append_assoc. reflexivity.
Qed.

(** Rows that are passed over make no call. *)
Lemma run_rows_passed_over (rows : list (list string)) :
  forallb (fun row => malformed row || unresolved h product row) rows = true ->
  forall (ret : string) (w : World),
    returns (run_rows h product rows ret) w
      (fun _ w' => calls w' = calls w).
Proof.
  induction rows as [| row rows IH]; intros Hall ret w.
  - apply returns_ret. reflexivity.
  - cbn [forallb] in Hall. apply andb_true_iff in Hall.
    destruct Hall as [Hrow Hall].
    destruct (malformed row) eqn:Hm.
    + eapply returns_step; [apply (run_rows_malformed row rows ret w Hm) |].
      eapply returns_weaken; [apply (IH Hall) |].
      intros a w' Hc. exact Hc.
    + cbn [orb] in Hrow. unfold unresolved in Hrow. rewrite Hm in Hrow.
      cbn [negb andb] in Hrow.
      destruct (coerce_row row) as [b | e0] eqn:Hb; [| discriminate Hrow].
      destruct (lookup_register h product b) as [addr | e] eqn:Hl;
        [discriminate Hrow |].
      eapply returns_step;
        [apply (run_rows_unresolved row rows ret w b e Hm Hb Hl) |].
      eapply returns_weaken; [apply (IH Hall) |].
      intros a w' Hc. exact Hc.
Qed.

(** Under a tame host every script of rows that are passed over or
    well-typed runs to its end. *)
Lemma run_rows_returns (rows : list (list string)) :
  tame_instrument h -> tame_eval h ->
  forallb (row_runs h product) rows = true ->
  forall (ret : string) (w : World),
    returns (run_rows h product rows ret) w (fun _ _ => True).
Proof.
  intros Hi He. induction rows as [| row rows IH]; intros Hall ret w.
  - apply returns_ret. exact I.
  - cbn [forallb] in Hall. apply andb_true_iff in Hall.
    destruct Hall as [Hrow Hall]. unfold row_runs, unresolved in Hrow.
    destruct (malformed row) eqn:Hm.
    + eapply returns_step; [apply (run_rows_malformed row rows ret w Hm) |].
      now apply IH.
    + cbn [orb negb andb] in Hrow.
      destruct (coerce_row row) as [b | e0] eqn:Hb; [| discriminate Hrow].
      destruct (lookup_register h product b) as [addr | e] eqn:Hl.
      * cbn in Hrow.
        unfold malformed in Hm. cbn [run_rows]. rewrite Hm.
        apply returns_bind, returns_update_output. intros w1 Hc1.
        apply returns_bind, returns_update_comms. intros w2 Hc2.
        apply returns_bind. eapply returns_lift; [exact Hb |].
        apply returns_bind.
        eapply returns_weaken;
          [apply (do_script_line_returns b ret w2 addr Hi He Hl Hrow) |].
        intros ret1 w3 _. cbn beta. now apply IH.
      * eapply returns_step;
          [apply (run_rows_unresolved row rows ret w b e Hm Hb Hl) |].
        now apply IH.
Qed.

(** [run_script] is its row loop followed by the trailer. *)
Lemma run_script_by_rows (text : string) (w : World) :
  let lines := filter executable (readlines text) in
  run_script h product text w
  = match run_rows h product (csv_reader h lines) "" w with
    | (Returned ret, w1) =>
        (Returned tt, refreshed (trailer (length lines) ret) w1)
    | (Raised e, w1) => (Raised e, w1)
    end.
Proof.
  cbv zeta. unfold run_script, mbind.
  destruct (run_rows h product _ "" w) as [[ret | e] w1]; reflexivity.
Qed.

End WithHost.

End InterpreterFacts.

(* ===================================================================== *)
(** ** A row, word for word *)
(* ===================================================================== *)

Module CellFacts.

Lemma substring_prefix (p e : string) :
  substring 0 (String.length p) (p ++ e) = p.
Proof.
  induction p as [| c p IH]; cbn.
  - destruct e; reflexivity.
  - now rewrite IH.
Qed.

Lemma substring_all (s : string) : substring 0 (String.length s) s = s.
Proof. induction s as [| c s IH]; cbn; [reflexivity | now rewrite IH]. Qed.

Lemma substring_suffix (p e : string) :
  substring (String.length p) (String.length e) (p ++ e) = e.
Proof.
  induction p as [| c p IH]; cbn; [apply substring_all | exact IH].
Qed.

Lemma length_append (a b : string) :
  String.length (a ++ b) = (String.length a + String.length b)%nat.
Proof. induction a as [| c a IH]; cbn; [reflexivity | now rewrite IH]. Qed.

(** The expression behind the prefix [assert:], in any case. *)
Lemma assertion_of_prefixed (prefix expression : string) :
  String.length prefix = 7%nat -> Coercion.lower prefix = "assert:" ->
  assertion_of (prefix ++ expression) = Coercion.strip expression.
Proof.
  intros Hlen Hprefix.
  assert (H1 : substring 0 7 (prefix ++ expression) = prefix).
  { rewrite <- Hlen. apply substring_prefix. }
  assert (H2 : substring 7 (7 + String.length expression - 7)
                 (prefix ++ expression) = expression).
  { replace (7 + String.length expression - 7)%nat
      with (String.length expression) by lia.
    rewrite <- Hlen. apply substring_suffix. }
  unfold assertion_of. rewrite length_append, Hlen.
  rewrite H1, H2, Hprefix.
  assert (E : (7 <=? 7 + String.length expression)%nat = true)
    by (apply Nat.leb_le; lia).
  rewrite E. reflexivity.
Qed.

End CellFacts.

Module RowFacts.

Import Returns Run Tame RowText.
Local Open Scope M_scope.



(** The cell that a text becomes is a number, a truth value or the text
    itself. *)
Lemma coerce_text_or_number (a : string) :
  exists t, coerce a = Returned t /\ (t = TText a \/ numeric t = true).
Proof.
  destruct (CoercionFacts.coerce_refines a) as [t [Hc Hs]].
  exists t. split; [exact Hc |].
  destruct Hs; [right | right | right | left]; reflexivity.
Qed.

Section WithHost.

Variable h : Host.
Variable product : nat.
Variable p : Product.
Hypothesis Hproduct : getitem products (Z.of_nat product) = Returned p.








End WithHost.



End RowFacts.

(* ===================================================================== *)
(** ** Claims on the script interpreter *)
(* ===================================================================== *)


(** The older build names the key but puts the marker in the place of
    the report instead of behind it. *)
Lemma V101_unresolved_overwrites (h : Host) (name : string)
      (cells : list Token) (preserve : string) (w : World) :
  resolve V101.regs name = None ->
  V101.do_script_line h (TText name :: cells) preserve w
  = (Returned ("*** ERROR *** unknown key " ++ name),
     Tame.refreshed_output
       ("*** ERROR *** unknown key " ++ name) w).
Proof.
  intros Hr. unfold V101.do_script_line.
  unfold mbind at 1, lift at 1.
  change (getitem (TText name :: cells) 0)
    with (getitem (TText name :: cells) (Z.of_nat 0)).
  rewrite (Run.getitem_nth_error _ 0 (TText name)) by reflexivity.
  rewrite Hr. reflexivity.
Qed.

(** C3, the claim refuted.  A row names the register FOO, which no
    dictionary has, behind a report that already holds a line.  V1.4.0
    keeps the report but the text it adds is not the marker
    [*** ERROR *** unknown key FOO]; V1.01 produces that marker but the
    report before it is gone. *)
Lemma unknown_key_marker_counterexample :
  let line := [TText "FOO"; TInt 1; TBool false; TInt 0; TInt 1] in
  let earlier := "Read from BIT: 7" ++ nl in
  fst (do_script_line (Bench.bench Bench.healthy) 0 line earlier initial_world)
  = Returned (earlier ++ "Unexpected register name: 'FOO'. *** FAIL ***")
  /\ contains "*** ERROR *** unknown key FOO"
       (earlier ++ "Unexpected register name: 'FOO'. *** FAIL ***") = false
  /\ fst (V101.do_script_line (Bench.bench Bench.healthy) line earlier
            initial_world)
     = Returned "*** ERROR *** unknown key FOO"
  /\ String.prefix earlier "*** ERROR *** unknown key FOO" = false.
Proof. repeat split; reflexivity. Qed.

(** C3, as amended.  A row of at least five cells whose first cell is
    absent from the active dictionary.  The coercion leaves the cell the
    text that it is, or reads it as a number or a truth value; in both
    cases it is no key of the dictionary, and the report keeps what it
    held and gains [Unexpected register name: <key>. *** FAIL ***], where
    [<key>] is the repr of the coerced cell: the quoted name for a text,
    the value for a number or a truth value.  The instrument is not
    called, and the loop goes on with the next row (behind a newline). *)
Theorem unresolved_row_reported
        (h : Host) (product : nat) (p : Product)
        (name : string) (cells : list string) (rows : list (list string))
        (ret : string) (w : World)
        (Hproduct : getitem products (Z.of_nat product) = Returned p)
        (Hcells : (4 <= length cells)%nat)
        (Habsent : resolve (product_regs p) name = None) :
  exists t b,
    coerce name = Returned t
    /\ (t = TText name \/ Tame.numeric t = true)
    /\ coerce_row (name :: cells) = Returned (t :: b)
    /\ let status := "Unexpected register name: " ++ repr_token h t
                       ++ ". *** FAIL ***" in
       let w' := mk_world status (ret ++ status) status (calls w) (console w)
                          (sleeps w) in
       do_script_line h product (t :: b) ret w = (Returned (ret ++ status), w')
       /\ calls w' = calls w
       /\ run_rows h product ((name :: cells) :: rows) ret w
          = run_rows h product rows (ret ++ status ++ nl) w'.
Proof.
  destruct (RowFacts.coerce_text_or_number name) as (t & Ht & Hkind).
  destruct (CoercionFacts.coerce_row_returns cells) as [b [Hb Hlen]].
  exists t, b.
  assert (Hrow : coerce_row (name :: cells) = Returned (t :: b)).
  { cbn [coerce_row]. rewrite Ht. cbn [obind]. rewrite Hb. reflexivity. }
  assert (Hlook : lookup_register h product (t :: b)
                  = Raised (mk_exn KeyError (repr_token h t))).
  { destruct Hkind as [-> | Hnum].
    - now apply (InterpreterFacts.lookup_register_absent h product p).
    - unfold lookup_register. rewrite Hproduct. cbn [obind].
      change (getitem (t :: b) 0) with (getitem (t :: b) (Z.of_nat 0)).
      rewrite (Run.getitem_nth_error _ 0 t) by reflexivity.
      cbn [obind]. destruct t; try reflexivity. discriminate Hnum. }
  split; [exact Ht |]. split; [exact Hkind |]. split; [exact Hrow |].
  cbv zeta. split; [| split].
  - apply (InterpreterFacts.do_script_line_unresolved h product _ ret w
             (mk_exn KeyError (repr_token h t)) Hlook).
  - reflexivity.
  - apply (InterpreterFacts.run_rows_unresolved h product (name :: cells) rows
             ret w (t :: b) (mk_exn KeyError (repr_token h t)));
      [| exact Hrow | exact Hlook].
    unfold Tame.malformed. apply Nat.ltb_ge. cbn [length]. lia.
Qed.

(** C3 at the row [true,1,false,0,1] of a script for the HyPR 6000: the
    cell reads as the truth value, and the report names [True]. *)
Lemma unresolved_row_reported_witness :
  exists t b,
    coerce "true" = Returned t
    /\ (t = TText "true" \/ Tame.numeric t = true)
    /\ coerce_row ["true"; "1"; "false"; "0"; "1"] = Returned (t :: b)
    /\ let status := "Unexpected register name: "
                       ++ repr_token (Bench.bench Bench.healthy) t
                       ++ ". *** FAIL ***" in
       let w' := mk_world status ("" ++ status) status (calls initial_world)
                          (console initial_world) (sleeps initial_world) in
       do_script_line (Bench.bench Bench.healthy) 0 (t :: b) "" initial_world
       = (Returned ("" ++ status), w')
       /\ calls w' = calls initial_world
       /\ run_rows (Bench.bench Bench.healthy) 0
            [["true"; "1"; "false"; "0"; "1"];
             ["BUS_VOLTAGE"; "1"; "false"; "0"; "1"]] "" initial_world
          = run_rows (Bench.bench Bench.healthy) 0
              [["BUS_VOLTAGE"; "1"; "false"; "0"; "1"]]
              ("" ++ status ++ nl) w'.
Proof.
  apply (unresolved_row_reported (Bench.bench Bench.healthy) 0 hypr6000
           "true" ["1"; "false"; "0"; "1"]
           [["BUS_VOLTAGE"; "1"; "false"; "0"; "1"]] "" initial_world).
  - reflexivity.
  - cbn. lia.
  - reflexivity.
Defined.












Lemma trailer_unfolded (count : nat) (ret : string) :
  let report := ret ++ str_int (Z.of_nat count) ++ " commands processed."
                    ++ nl in
  trailer count ret = report ++ verdict report.
Proof.
  cbv zeta. unfold trailer, verdict.
  destruct (contains "*** FAIL ***" _ || contains "*** ERROR ***" _);
    reflexivity.
Qed.

(** C6.  When the row loop has processed all commands, leaving the report
    [ret], [run_script] shows [ret], then the number of commands and
    [commands processed.], then the verdict: AT LEAST ONE COMMAND FAILED
    when the report accumulated so far holds [*** FAIL ***] or
    [*** ERROR ***], No errors detected otherwise; the line with the
    number never decides, so the markers may as well be looked for in
    [ret].  The row loop does process all commands when the host is tame
    and every row is passed over or well-typed. *)
Theorem script_report_trailer
        (h : Host) (product : nat) (text : string) (w : World) :
  let lines := filter executable (readlines text) in
  let rows := csv_reader h lines in
  (forall ret w1,
      run_rows h product rows "" w = (Returned ret, w1) ->
      let report := ret ++ str_int (Z.of_nat (length lines))
                        ++ " commands processed." ++ nl in
      exists w2,
        run_script h product text w = (Returned tt, w2)
        /\ win_output w2
           = report
               ++ (if contains "*** FAIL ***" report
                      || contains "*** ERROR ***" report
                   then "*** AT LEAST ONE COMMAND FAILED ***"
                   else "No errors detected")
        /\ contains "*** FAIL ***" report = contains "*** FAIL ***" ret
        /\ contains "*** ERROR ***" report = contains "*** ERROR ***" ret)
  /\ (forall p,
         getitem products (Z.of_nat product) = Returned p ->
         Tame.tame_instrument h ->
         Tame.tame_eval h ->
         forallb (Tame.row_runs h product) rows = true ->
         exists ret w1, run_rows h product rows "" w = (Returned ret, w1)).
Proof.
  cbv zeta. split.
  - intros ret w1 Hrows. eexists. split; [| split].
    + pose proof (InterpreterFacts.run_script_by_rows h product text w) as Hs.
      cbv zeta in Hs. rewrite Hrows in Hs. exact Hs.
    + cbn [Tame.refreshed win_output].
      apply trailer_unfolded.
    + apply TextFacts.contains_marker_tail.
  - intros p Hp Hi He Hall.
    destruct (InterpreterFacts.run_rows_returns h product p Hp _ Hi He Hall
                "" w) as (ret & w1 & Hrun & _).
    exists ret, w1. exact Hrun.
Qed.

(** C6 on two scripts: one read that succeeds, and one row whose register
    is unknown. *)
Lemma script_report_trailer_witness :
  (exists w2,
      run_script (Bench.bench Bench.healthy) 0
        ("BUS_VOLTAGE,1,false,0,1," ++ nl) initial_world = (Returned tt, w2)
      /\ win_output w2
         = "Read from BUS_VOLTAGE: 7" ++ nl ++ "1 commands processed." ++ nl
             ++ "No errors detected")
  /\ (exists w2,
         run_script (Bench.bench Bench.healthy) 0
           ("FOO,1,false,0,1," ++ nl) initial_world = (Returned tt, w2)
         /\ win_output w2
            = "Unexpected register name: 'FOO'. *** FAIL ***" ++ nl
                ++ "1 commands processed." ++ nl
                ++ "*** AT LEAST ONE COMMAND FAILED ***").
Proof.
  split.
  - edestruct (proj1 (script_report_trailer (Bench.bench Bench.healthy) 0
                        ("BUS_VOLTAGE,1,false,0,1," ++ nl) initial_world))
      as [w2 [Hrun [Hout _]]]; [reflexivity |].
    exists w2. split; [exact Hrun | rewrite Hout; reflexivity].
  - edestruct (proj1 (script_report_trailer (Bench.bench Bench.healthy) 0
                        ("FOO,1,false,0,1," ++ nl) initial_world))
      as [w2 [Hrun [Hout _]]]; [reflexivity |].
    exists w2. split; [exact Hrun | rewrite Hout; reflexivity].
Defined.


Lemma executable_spec (line : string) :
  executable line = negb (is_blank line) && negb (is_comment line).
Proof.
  destruct line as [| c s]; [reflexivity |].
  unfold executable, is_blank, is_comment.
  assert (Hb : (0 <? String.length (Coercion.strip (String c s)))%nat
               = negb (String.eqb (Coercion.strip (String c s)) "")).
  { destruct (Coercion.strip (String c s)); reflexivity. }
  rewrite Hb. f_equal.
  cbn [String.prefix]. destruct (ascii_dec "#" c) as [<- | Hne].
  - rewrite Ascii.eqb_refl. now destruct s.
  - assert (Ascii.eqb c "#" = false) as ->; [| reflexivity].
    apply Ascii.eqb_neq. congruence.
Qed.

Lemma command_lines_executable (text : string) :
  filter executable (readlines text) = command_lines text.
Proof.
  unfold command_lines. apply filter_ext. exact executable_spec.
Qed.

(** C10.  The number in [<N> commands processed.] is the number of lines
    of the script text that are neither blank nor start with [#].  It is
    so whatever became of the rows: a script all of whose rows are passed
    over (too few cells, or a register that does not resolve) runs to its
    end without one call on the instrument, and reports that number. *)
Theorem command_count_is_line_count
        (h : Host) (product : nat) (text : string) (w : World) :
  let n := Z.of_nat (length (command_lines text)) in
  let rows := csv_reader h (filter executable (readlines text)) in
  (forall ret w1,
      run_rows h product rows "" w = (Returned ret, w1) ->
      exists w2,
        run_script h product text w = (Returned tt, w2)
        /\ win_output w2
           = ret ++ str_int n ++ " commands processed." ++ nl
                 ++ verdict (ret ++ str_int n ++ " commands processed." ++ nl))
  /\ (forallb (fun row => Tame.malformed row
                          || Tame.unresolved h product row) rows
      = true ->
      exists ret w2,
        run_script h product text w = (Returned tt, w2)
        /\ calls w2 = calls w
        /\ win_output w2
           = ret ++ str_int n ++ " commands processed." ++ nl
                 ++ verdict (ret ++ str_int n ++ " commands processed." ++ nl)).
Proof.
  cbv zeta.
  assert (Hgen : forall ret w1,
             run_rows h product
               (csv_reader h (filter executable (readlines text))) "" w
             = (Returned ret, w1) ->
             run_script h product text w
             = (Returned tt,
                Tame.refreshed
                  (trailer (length (command_lines text)) ret) w1)).
  { intros ret w1 Hrows.
    pose proof (InterpreterFacts.run_script_by_rows h product text w) as Hs.
    cbv zeta in Hs. rewrite Hrows in Hs.
    now rewrite command_lines_executable in Hs. }
  assert (Hout : forall ret,
             trailer (length (command_lines text)) ret
             = ret ++ str_int (Z.of_nat (length (command_lines text)))
                   ++ " commands processed." ++ nl
                   ++ verdict (ret ++ str_int (Z.of_nat (length (command_lines text)))
                                   ++ " commands processed." ++ nl)).
  { intros ret. rewrite trailer_unfolded. cbv zeta.
    now rewrite !append_assoc. }
  split.
  - intros ret w1 Hrows. eexists. split; [apply (Hgen ret w1 Hrows) |].
    cbn [Tame.refreshed win_output]. apply Hout.
  - intros Hall.
    destruct (InterpreterFacts.run_rows_passed_over h product _ Hall "" w)
      as (ret & w1 & Hrows & Hcalls).
    exists ret. eexists. split; [apply (Hgen ret w1 Hrows) |].
    split; [exact Hcalls |].
    cbn [Tame.refreshed win_output]. apply Hout.
Qed.

(** C10 on a script of a comment, a row of three cells, a blank line and
    a row with an unknown register: two commands are counted, none ran. *)
Lemma command_count_is_line_count_witness :
  exists w2,
    run_script (Bench.bench Bench.healthy) 0
      ("# two rows that run no command" ++ nl ++ "BUS_VOLTAGE,1,false" ++ nl
         ++ nl ++ "FOO,1,false,0,1" ++ nl) initial_world
    = (Returned tt, w2)
    /\ calls w2 = []
    /\ win_output w2
       = "not enough columns in " ++ String dquote_c ""
           ++ "['BUS_VOLTAGE', '1', 'false']" ++ String dquote_c "" ++ nl
           ++ "Unexpected register name: 'FOO'. *** FAIL ***" ++ nl
           ++ "2 commands processed." ++ nl
           ++ "*** AT LEAST ONE COMMAND FAILED ***".
Proof.
  destruct (proj2 (command_count_is_line_count (Bench.bench Bench.healthy) 0
                     ("# two rows that run no command" ++ nl
                        ++ "BUS_VOLTAGE,1,false" ++ nl ++ nl
                        ++ "FOO,1,false,0,1" ++ nl) initial_world))
    as (ret & w2 & Hrun & Hcalls & Hout); [reflexivity |].
  exists w2. split; [exact Hrun |]. split; [exact Hcalls |].
  clear Hout Hcalls. vm_compute in Hrun. injection Hrun as <-.
  vm_compute. reflexivity.
Defined.

(* ===================================================================== *)
(** * Further properties *)
(* ===================================================================== *)

(** ** The decoder: time stamp, packed bytes, the log file *)

Lemma append_nil_r (s : string) : s ++ "" = s.
Proof. induction s as [| c s IH]; simpl; [reflexivity | now rewrite IH]. Qed.

Module StampFacts.

Import Decoder Prefix.
Local Open Scope outcome_scope.

Lemma add_prepend (a p : Lines) (l c : string) :
  add (prepend a p) l c = prepend a (add p l c).
Proof. unfold add, prepend. cbn. now rewrite !append_assoc. Qed.

Lemma add_both_prepend (a p : Lines) (more : string) :
  add_both (prepend a p) more = prepend a (add_both p more).
Proof. apply add_prepend. Qed.

Lemma show_level_prepend a ret p :
  show_level ret (prepend a p) = omap (prepend a) (show_level ret p).
Proof.
  unfold show_level. destruct (getitem ret 0) as [r0 | e]; [| reflexivity].
  cbn [obind]. destruct (r0 >? _).
  - cbn [omap]. now rewrite add_prepend.
  - destruct (getitem log_levels r0); [| reflexivity].
    cbn [obind omap]. now rewrite add_both_prepend.
Qed.

Lemma show_code_prepend a ret p :
  show_code ret (prepend a p)
  = omap (fun qc => (prepend a (fst qc), snd qc)) (show_code ret p).
Proof.
  unfold show_code. destruct (getitem ret 1) as [r1 | e]; [| reflexivity].
  cbn [obind]. destruct (truthy_text _); cbn [omap fst snd].
  - now rewrite add_both_prepend.
  - now rewrite add_prepend.
Qed.

Lemma show_device_prepend a ret p :
  show_device ret (prepend a p) = omap (prepend a) (show_device ret p).
Proof.
  unfold show_device. destruct (getitem ret 2) as [r2 | e]; [| reflexivity].
  cbn [obind]. destruct (_ >? _).
  - cbn [omap]. now rewrite add_prepend.
  - destruct (getitem devices _); [| reflexivity]. cbn [obind omap].
    destruct (_ >? 0); now rewrite ?add_both_prepend.
Qed.

Lemma show_bytes_prepend a ret p :
  show_bytes ret (prepend a p)
  = omap (fun qb => (prepend a (fst qb), snd qb)) (show_bytes ret p).
Proof.
  unfold show_bytes. destruct (getitem ret 3) as [b | e]; [| reflexivity].
  cbn [obind]. destruct (b <=? 8); cbn [omap fst snd].
  - now rewrite add_both_prepend.
  - now rewrite add_prepend.
Qed.

Lemma dump_words_prepend a ws : forall p,
  dump_words ws (prepend a p) = prepend a (dump_words ws p).
Proof.
  induction ws as [| i ws IH]; intros p; [reflexivity |].
  cbn [dump_words]. rewrite <- IH. f_equal.
  unfold prepend. cbn [fst snd]. now rewrite !append_assoc.
Qed.

Ltac through_getitems :=
  repeat match goal with
         | |- context [getitem ?l ?i] =>
             destruct (getitem l i); [| reflexivity]; cbn [obind]
         end.

Lemma show_payload_prepend g a ret code bytes p :
  show_payload g ret code bytes (prepend a p)
  = omap (prepend a) (show_payload g ret code bytes p).
Proof.
  unfold show_payload.
  destruct (code_is code "J1939_STATUS").
  { unfold show_j1939_status. through_getitems.
    destruct (truthy_text _).
    - cbn [omap]. now rewrite add_both_prepend.
    - destruct (hex_of_lookup _); [| reflexivity]. cbn [obind omap].
      now rewrite add_prepend. }
  destruct (code_is code "Controller 1st PGN").
  { unfold show_controller_1st. through_getitems.
    cbn [omap]. now rewrite add_both_prepend. }
  destruct (code_is code "Controller 2nd PGN").
  { unfold show_controller_2nd. through_getitems.
    cbn [omap]. now rewrite add_both_prepend. }
  destruct (code_is code "Controller 3rd PGN").
  { unfold show_controller_3rd. through_getitems.
    cbn [omap]. now rewrite add_both_prepend. }
  destruct (code_is code "Modbus Registers").
  { unfold show_modbus_registers.
    destruct (global_regs g); [| reflexivity]. cbn [obind].
    through_getitems. cbn [omap]. now rewrite add_both_prepend. }
  destruct (code_is code "AdvDCS Response").
  { unfold show_advdcs_response. through_getitems.
    cbn [omap]. now rewrite add_both_prepend. }
  unfold show_unformatted. cbv zeta.
  rewrite add_both_prepend, dump_words_prepend.
  destruct (bytes mod 2 =? 1); [| reflexivity].
  through_getitems. cbn [omap]. unfold prepend. cbn [fst snd].
  now rewrite !append_assoc.
Qed.

(** The decode from lines that already hold [a]. *)
Lemma decode_from_prepend g a ret p :
  (p <- show_level ret (prepend a p) ;;
   pc <- show_code ret p ;;
   let '(p, code) := pc in
   p <- show_device ret p ;;
   pb <- show_bytes ret p ;;
   let '(p, bytes) := pb in
   p <- show_payload g ret code bytes p ;;
   Returned (fst p ++ nl, snd p))
  = omap (prepend a)
      (p <- show_level ret p ;;
       pc <- show_code ret p ;;
       let '(p, code) := pc in
       p <- show_device ret p ;;
       pb <- show_bytes ret p ;;
       let '(p, bytes) := pb in
       p <- show_payload g ret code bytes p ;;
       Returned (fst p ++ nl, snd p)).
Proof.
  rewrite show_level_prepend.
  destruct (show_level ret p) as [p1 | e]; [| reflexivity]. cbn [omap obind].
  rewrite show_code_prepend.
  destruct (show_code ret p1) as [[p2 code] | e]; [| reflexivity].
  cbn [omap obind fst snd].
  rewrite show_device_prepend.
  destruct (show_device ret p2) as [p3 | e]; [| reflexivity].
  cbn [omap obind].
  rewrite show_bytes_prepend.
  destruct (show_bytes ret p3) as [[p4 bytes] | e]; [| reflexivity].
  cbn [omap obind fst snd].
  rewrite show_payload_prepend.
  destruct (show_payload g ret code bytes p4) as [p5 | e]; [| reflexivity].
  cbn [omap obind]. unfold prepend. cbn [fst snd].
  now rewrite append_assoc.
Qed.

(** The decode with the time stamp is the decode without it behind the
    stamp; the clock is not read without it. *)
Lemma stamped_decode iso asc iso' asc' g ret :
  showlog_decode iso asc g ret true
  = omap (prepend (iso ++ ", ", asc ++ " "))
      (showlog_decode iso' asc' g ret false).
Proof.
  unfold showlog_decode. cbv zeta. unfold show_stamp.
  assert (Hstart : add ("", "") (iso ++ ", ") (asc ++ " ")
                   = prepend (iso ++ ", ", asc ++ " ") ("", "")).
  { unfold add, prepend. cbn [fst snd]. now rewrite !append_nil_r. }
  rewrite Hstart. apply decode_from_prepend.
Qed.

Lemma unstamped_decode iso asc g ret :
  showlog_decode iso asc g ret false = showlog_decode "" "" g ret false.
Proof. reflexivity. Qed.

End StampFacts.

(** X1.  The time stamp of [showlog] only prepends: with [show_time] the
    line for the file is the ISO time, a comma and a blank in front of the
    line without time stamp, the line for the window is [time.asctime()]
    and a blank in front of it; whether the decode raises, and what, does
    not depend on the time stamp.  This holds for every list of words and
    every binding of [regs]. *)
Theorem time_stamp_only_prepends
        (now_iso now_asc : string) (g_regs : option RegisterMap)
        (ret : list Z) :
  Decoder.showlog_decode now_iso now_asc g_regs ret true
  = match Decoder.showlog_decode now_iso now_asc g_regs ret false with
    | Returned (line, cline) =>
        Returned (now_iso ++ ", " ++ line, now_asc ++ " " ++ cline)
    | Raised e => Raised e
    end.
Proof.
  rewrite (StampFacts.stamped_decode now_iso now_asc now_iso now_asc).
  destruct (Decoder.showlog_decode now_iso now_asc g_regs ret false)
    as [[line cline] | e]; [| reflexivity].
  cbn [Prefix.omap]. unfold Prefix.prepend. cbn [fst snd].
  now rewrite !append_assoc.
Qed.

Module PackedFacts.

Import Decoder Frames.

(** The two bytes of a word. *)
Lemma high_byte (hi lo : Z) :
  0 <= lo < 256 -> Z.shiftr (hi * 256 + lo) 8 = hi.
Proof.
  intros H. rewrite Z.shiftr_div_pow2 by lia. change (2 ^ 8) with 256.
  symmetry. apply (Z.div_unique _ 256 hi lo); lia.
Qed.

Lemma low_byte (hi lo : Z) :
  0 <= lo < 256 -> Z.land (hi * 256 + lo) 255 = lo.
Proof.
  intros H. change 255 with (Z.ones 8). rewrite Z.land_ones by lia.
  change (2 ^ 8) with 256. symmetry.
  apply (Z.mod_unique _ 256 hi lo); lia.
Qed.

(** One bit of a number, as a mask leaves it. *)
Lemma land_bit (a : Z) (n : Z) :
  0 <= n -> Z.land a (2 ^ n) = if Z.testbit a n then 2 ^ n else 0.
Proof.
  intros Hn. apply Z.bits_inj'. intros k Hk.
  rewrite Z.land_spec, Z.pow2_bits_eqb by lia.
  destruct (Z.eqb_spec n k) as [<- | Hne].
  - destruct (Z.testbit a n) eqn:E.
    + rewrite Z.pow2_bits_true by lia. reflexivity.
    + rewrite Z.bits_0. reflexivity.
  - rewrite andb_false_r. destruct (Z.testbit a n).
    + rewrite Z.pow2_bits_false by lia. reflexivity.
    + rewrite Z.bits_0. reflexivity.
Qed.

Lemma genset_status_found (k : Z) :
  0 <= k < 16 -> exists s, dict_get genset_statuses k = Some s.
Proof.
  intros H.
  assert (Hc : k = 0 \/ k = 1 \/ k = 2 \/ k = 3 \/ k = 4 \/ k = 5 \/ k = 6
               \/ k = 7 \/ k = 8 \/ k = 9 \/ k = 10 \/ k = 11 \/ k = 12
               \/ k = 13 \/ k = 14 \/ k = 15) by lia.
  repeat (destruct Hc as [-> | Hc]; [eexists; reflexivity |]).
  subst; eexists; reflexivity.
Qed.

End PackedFacts.

(** X2.  A 'Controller 1st PGN' frame (code 0xFF15) whose sixth word packs
    the control voltage above the maximum charging current, and whose
    seventh word packs the start delay above the stop delay, one byte
    each, is shown with the four bytes unpacked, behind the four leading
    fields; the generator power setting and the LVCO are whole words. *)
Theorem controller_first_pgn_unpacks
        (level dev count power cv mc start stop lvco : Z)
        (Hframe : Frames.frame [level; 0xFF15; dev; count; power;
                                cv * 256 + mc; start * 256 + stop; lvco])
        (Hmc : 0 <= mc < 256) (Hstop : 0 <= stop < 256) :
  let more := ", GENERATOR_POWER_SETTINGS:" ++ str_int power
              ++ ", CONTROL_VOLTAGE:" ++ str_int cv
              ++ ", MAX_CHARGING_CURRENT:" ++ str_int mc
              ++ ", START_DELAY:" ++ str_int start
              ++ ", STOP_DELAY:" ++ str_int stop
              ++ ", LVCO:" ++ str_int lvco in
  exists p,
    Decoder.decode [level; 0xFF15; dev; count; power; cv * 256 + mc;
                    start * 256 + stop; lvco]
    = Returned (fst p ++ more ++ nl, snd p ++ more).
Proof.
  intros more.
  destruct (DecoderFacts.decode_by_payload _ Hframe) as [p Hp].
  exists p. rewrite Hp. cbn [nth].
  change (dict_get Decoder.pgn_names 65301) with (Some "Controller 1st PGN").
  unfold Decoder.show_payload.
  change (Decoder.code_is (Some "Controller 1st PGN") "J1939_STATUS")
    with false.
  change (Decoder.code_is (Some "Controller 1st PGN") "Controller 1st PGN")
    with true.
  cbv iota. unfold Decoder.show_controller_1st.
  change (getitem [level; 65301; dev; count; power; cv * 256 + mc;
                   start * 256 + stop; lvco] 4) with (Returned power).
  change (getitem [level; 65301; dev; count; power; cv * 256 + mc;
                   start * 256 + stop; lvco] 5)
    with (Returned (cv * 256 + mc)).
  change (getitem [level; 65301; dev; count; power; cv * 256 + mc;
                   start * 256 + stop; lvco] 6)
    with (Returned (start * 256 + stop)).
  change (getitem [level; 65301; dev; count; power; cv * 256 + mc;
                   start * 256 + stop; lvco] 7) with (Returned lvco).
  cbn [obind].
  rewrite !PackedFacts.high_byte, !PackedFacts.low_byte by assumption.
  unfold Decoder.add_both, Decoder.add. cbn [fst snd]. fold more.
  now rewrite <- append_assoc.
Qed.

(** X2 at a frame with control voltage 28, maximum charging current 120,
    start delay 5 and stop delay 60. *)
Lemma controller_first_pgn_unpacks_witness :
  exists p,
    Decoder.decode [6; 0xFF15; 0; 8; 3000; 28 * 256 + 120; 5 * 256 + 60; 2200]
    = Returned
        (fst p ++ (", GENERATOR_POWER_SETTINGS:3000, CONTROL_VOLTAGE:28"
                     ++ ", MAX_CHARGING_CURRENT:120, START_DELAY:5"
                     ++ ", STOP_DELAY:60, LVCO:2200") ++ nl,
         snd p ++ (", GENERATOR_POWER_SETTINGS:3000, CONTROL_VOLTAGE:28"
                     ++ ", MAX_CHARGING_CURRENT:120, START_DELAY:5"
                     ++ ", STOP_DELAY:60, LVCO:2200")).
Proof.
  apply (controller_first_pgn_unpacks 6 0 8 3000 28 120 5 60 2200).
  - split; [reflexivity |]. repeat constructor; cbv; congruence.
  - lia.
  - lia.
Defined.

(** X3.  An 'AdvDCS Response' frame (code 0xFF17) is always decoded: the
    genset status is the name of the low four bits of the high byte of
    the fifth word, which the table has for all sixteen values, and the
    control switch position is read from bit 6 of that byte alone, so it
    is shown as [Off] when the bit is clear and as [None] when it is set:
    the positions 'Prime and run Aux fuel', 'Prime and run' and 'Start'
    of the table are never shown. *)
Theorem advdcs_switch_position_off_or_none
        (level dev count v0 v1 v2 v3 : Z)
        (Hframe : Frames.frame [level; 0xFF17; dev; count; v0; v1; v2; v3]) :
  exists p status,
    dict_get Decoder.genset_statuses (Z.land (Z.shiftr v0 8) 15) = Some status
    /\ let more := ", GENSET_STATUS:" ++ status
                   ++ ", CONTROL_SWITCH_POSITION:"
                   ++ (if Z.testbit v0 14 then "None" else "Off") in
       Decoder.decode [level; 0xFF17; dev; count; v0; v1; v2; v3]
       = Returned (fst p ++ more ++ nl, snd p ++ more).
Proof.
  destruct (DecoderFacts.decode_by_payload _ Hframe) as [p Hp].
  destruct (PackedFacts.genset_status_found (Z.land (Z.shiftr v0 8) 15))
    as [status Hstatus].
  { change 15 with (Z.ones 4). rewrite Z.land_ones by lia.
    change (2 ^ 4) with 16. apply Z.mod_pos_bound. lia. }
  exists p, status. split; [exact Hstatus |]. intros more.
  rewrite Hp. cbn [nth].
  change (dict_get Decoder.pgn_names 65303) with (Some "AdvDCS Response").
  unfold Decoder.show_payload.
  change (Decoder.code_is (Some "AdvDCS Response") "J1939_STATUS") with false.
  change (Decoder.code_is (Some "AdvDCS Response") "Controller 1st PGN")
    with false.
  change (Decoder.code_is (Some "AdvDCS Response") "Controller 2nd PGN")
    with false.
  change (Decoder.code_is (Some "AdvDCS Response") "Controller 3rd PGN")
    with false.
  change (Decoder.code_is (Some "AdvDCS Response") "Modbus Registers")
    with false.
  change (Decoder.code_is (Some "AdvDCS Response") "AdvDCS Response")
    with true.
  cbv iota. unfold Decoder.show_advdcs_response.
  change (getitem [level; 65303; dev; count; v0; v1; v2; v3] 4)
    with (Returned v0).
  cbn [obind]. rewrite Hstatus.
  change 64 with (2 ^ 6). rewrite PackedFacts.land_bit by lia.
  rewrite Z.shiftr_spec by lia. change (6 + 8) with 14.
  unfold Decoder.add_both, Decoder.add. cbn [fst snd fmt_opt_text].
  subst more. destruct (Z.testbit v0 14).
  - change (fmt_opt_text
              (dict_get Decoder.control_switch_positions (Z.shiftr (2 ^ 6) 4)))
      with "None".
    do 2 f_equal. apply append_assoc.
  - change (fmt_opt_text
              (dict_get Decoder.control_switch_positions (Z.shiftr 0 4)))
      with "Off".
    do 2 f_equal. apply append_assoc.
Qed.

(** X3 at a frame whose high byte is 0x45: status RUNNING, bit 6 set. *)
Lemma advdcs_switch_position_off_or_none_witness :
  exists p status,
    dict_get Decoder.genset_statuses (Z.land (Z.shiftr 0x4500 8) 15)
    = Some status
    /\ Decoder.decode [6; 0xFF17; 0; 8; 0x4500; 0; 0; 0]
       = Returned
           (fst p ++ (", GENSET_STATUS:" ++ status
                        ++ ", CONTROL_SWITCH_POSITION:"
                        ++ (if Z.testbit 0x4500 14 then "None" else "Off"))
                  ++ nl,
            snd p ++ (", GENSET_STATUS:" ++ status
                        ++ ", CONTROL_SWITCH_POSITION:"
                        ++ (if Z.testbit 0x4500 14 then "None" else "Off"))).
Proof.
  apply (advdcs_switch_position_off_or_none 6 0 8 0x4500 0 0 0).
  split; [reflexivity |]. repeat constructor; cbv; congruence.
Defined.

Module SinkFacts.

Import Decoder Sink.

(** One line without a file: the window alone gains it. *)
Lemma emit_without_file (p : Lines) (s : LogSink) :
  log_handle s = None ->
  showlog_emit p s
  = mk_sink (window_log s ++ [snd p])%list None (write_count s) (flushes s).
Proof. intros H. unfold showlog_emit. cbn. rewrite H. reflexivity. Qed.

(** One line with a file. *)
Lemma emit_with_file (p : Lines) (s : LogSink) (l : list string) :
  log_handle s = Some l -> 0 <= write_count s < 100 ->
  showlog_emit p s
  = mk_sink (window_log s ++ [snd p])%list (Some (l ++ [fst p])%list)
            ((write_count s + 1) mod 100)
            (flushes s + Z.to_nat ((write_count s + 1) / 100)).
Proof.
  intros H Hc. unfold showlog_emit. cbn. rewrite H.
  destruct (write_count s + 1 >=? 100) eqn:E.
  - assert (Hw : write_count s = 99) by lia. rewrite Hw.
    change ((99 + 1) mod 100) with 0. change (Z.to_nat ((99 + 1) / 100)) with 1%nat.
    now rewrite Nat.add_1_r.
  - rewrite Z.mod_small by lia. rewrite Z.div_small by lia.
    now rewrite Nat.add_0_r.
Qed.

End SinkFacts.

(** X4.  The log file over any number of decoded frames.  Every frame's
    window line goes to the window.  Without a log file nothing is
    counted.  With a log file every frame's line is written, in order, the
    file is flushed at every hundredth write, and the counter is the
    number of lines written since the last flush, so at most 99 lines are
    ever left unflushed. *)
Theorem log_file_flushed_every_hundred
        (ps : list Decoder.Lines) (s : Decoder.LogSink)
        (Hcount : 0 <= Decoder.write_count s < 100) :
  let s' := Sink.emit_all ps s in
  let n := Z.of_nat (length ps) in
  Decoder.window_log s' = (Decoder.window_log s ++ map snd ps)%list
  /\ match Decoder.log_handle s with
     | None =>
         Decoder.log_handle s' = None
         /\ Decoder.write_count s' = Decoder.write_count s
         /\ Decoder.flushes s' = Decoder.flushes s
     | Some l =>
         Decoder.log_handle s' = Some (l ++ map fst ps)%list
         /\ Decoder.write_count s' = (Decoder.write_count s + n) mod 100
         /\ Z.of_nat (Decoder.flushes s')
            = Z.of_nat (Decoder.flushes s) + (Decoder.write_count s + n) / 100
         /\ 0 <= Decoder.write_count s' < 100
     end.
Proof.
  revert s Hcount. induction ps as [| p ps IH]; intros s Hcount.
  - cbn. rewrite app_nil_r. split; [reflexivity |].
    destruct (Decoder.log_handle s) as [l |]; [| now repeat split].
    rewrite app_nil_r, Z.add_0_r, Z.mod_small, Z.div_small by lia.
    repeat split; lia.
  - cbv zeta. unfold Sink.emit_all. cbn [fold_left length map].
    fold (Sink.emit_all ps (Decoder.showlog_emit p s)).
    destruct (Decoder.log_handle s) as [l |] eqn:Hh.
    + rewrite (SinkFacts.emit_with_file p s l Hh Hcount).
      set (s1 := Decoder.mk_sink _ _ _ _).
      assert (Hc1 : 0 <= Decoder.write_count s1 < 100).
      { subst s1. cbn. apply Z.mod_pos_bound. lia. }
      specialize (IH s1 Hc1). cbv zeta in IH.
      destruct IH as [Hwin Hfile]. subst s1. cbn in Hwin, Hfile.
      destruct Hfile as (Hl & Hw & Hf & Hb).
      split; [rewrite Hwin, <- app_assoc; reflexivity |].
      split; [rewrite Hl, <- app_assoc; reflexivity |].
      rewrite Nat2Z.inj_succ.
      set (c := Decoder.write_count s) in *.
      set (n := Z.of_nat (length ps)) in *.
      assert (Hn : 0 <= n) by (subst n; lia).
      split; [| split; [| exact Hb]].
      * rewrite Hw. rewrite Zplus_mod_idemp_l. f_equal. lia.
      * rewrite Hf. rewrite Nat2Z.inj_add, Z2Nat.id
          by (apply Z.div_pos; lia).
        pose proof (Z.div_mod (c + 1) 100 ltac:(lia)) as Hdm.
        pose proof (Z.mod_pos_bound (c + 1) 100 ltac:(lia)) as Hmb.
        set (q := (c + 1) / 100) in *. set (r := (c + 1) mod 100) in *.
        replace (c + Z.succ n) with ((r + n) + q * 100) by lia.
        rewrite Z.div_add by lia. lia.
    + rewrite (SinkFacts.emit_without_file p s Hh).
      set (s1 := Decoder.mk_sink _ _ _ _).
      assert (Hc1 : 0 <= Decoder.write_count s1 < 100) by exact Hcount.
      specialize (IH s1 Hc1). cbv zeta in IH.
      destruct IH as [Hwin Hfile]. subst s1. cbn in Hwin, Hfile.
      split; [rewrite Hwin, <- app_assoc; reflexivity | exact Hfile].
Qed.

(** X4 at 250 frames into a new file: two flushes, 50 lines since. *)
Lemma log_file_flushed_every_hundred_witness :
  let s := Decoder.mk_sink [] (Some []) 0 0 in
  let s' := Sink.emit_all (repeat ("line", "cline") 250) s in
  Decoder.write_count s' = 50 /\ Decoder.flushes s' = 2%nat
  /\ length (Sink.written s') = 250%nat.
Proof.
  intros s s'.
  destruct (log_file_flushed_every_hundred (repeat ("line", "cline") 250) s)
    as (_ & Hl & Hw & Hf & _).
  { cbn. lia. }
  fold s' in Hl, Hw, Hf. cbn [Decoder.log_handle Decoder.write_count Decoder.flushes s] in Hw, Hf.
  rewrite repeat_length in Hw, Hf.
  split; [rewrite Hw; reflexivity |].
  split; [apply Nat2Z.inj; rewrite Hf; reflexivity |].
  unfold Sink.written. rewrite Hl. cbn [app].
  now rewrite length_map, repeat_length.
Defined.

(* ===================================================================== *)
(** ** Polling the log *)
(* ===================================================================== *)

Module PollFacts.

Import Decoder Frames Prefix PollSpec.

(** Whether [showlog] returns does not depend on the time stamp. *)
Lemma showlog_decode_returns_iff iso asc ret show_time :
  frame ret ->
  (exists q, showlog_decode iso asc module_regs ret show_time = Returned q)
  <-> decodable ret.
Proof.
  intros Hf. rewrite <- (DecoderFacts.decode_returns_iff ret Hf).
  unfold decode. destruct show_time; [| reflexivity].
  rewrite (StampFacts.stamped_decode iso asc "" "").
  destruct (showlog_decode "" "" module_regs ret false) as [q | e];
    cbn [omap]; split; intros [q' H]; try discriminate H; eexists; reflexivity.
Qed.

Section WithHost.

Variable h : Host.
Variable product : nat.
Variable p : Product.
Variable addr : Z.
Variable now_iso now_asc : string.
Hypothesis Hproduct : getitem products (Z.of_nat product) = Returned p.
Hypothesis Haddr : resolve (product_regs p) "LOG_LEVEL" = Some addr.

Lemma log_level_address_resolved : Poll.log_level_address product = Returned addr.
Proof.
  unfold Poll.log_level_address. rewrite Hproduct. cbn [obind].
  now rewrite Haddr.
Qed.

(** The poll up to the answer of the instrument. *)
Lemma poll_unfolded (w : World) :
  mbind (lift (Poll.log_level_address product))
        (fun a => read_registers h a (TInt 8)) w
  = read_registers h addr (TInt 8) w.
Proof.
  unfold mbind, lift. now rewrite log_level_address_resolved.
Qed.

Lemma poll_answered (w : World) (v : PyVal) :
  instrument h (calls w) (poll addr) = Returned v ->
  read_registers h addr (TInt 8) w = (Returned v, after_poll addr w).
Proof.
  intros Ha. unfold poll in Ha.
  unfold read_registers, try_except, call_instrument.
  rewrite Ha. reflexivity.
Qed.

End WithHost.

End PollFacts.

(** X5.  No failure of the poll leaves [readlog].  When the instrument
    answers the poll of the log with an exception of any class under
    [Exception], [readlog] returns, shows no frame, and leaves a line on the
    console: the error's text for the three transport errors (which also
    becomes the communication status), [Lost connection] for a
    [NameError], [Serial Error: ...] for a serial exception, and
    [Unexpected error: ... Continuing on...] for the rest.  Outside the
    transport errors the global communication status stays as it was: the
    texts that [readlog] builds go to a local name. *)
Theorem readlog_contains_poll_errors
        (h : Host) (product : nat) (p : Product) (addr : Z)
        (now_iso now_asc : string) (timestamp : bool)
        (w : World) (s : Decoder.LogSink) (e : exn)
        (Hproduct : getitem products (Z.of_nat product) = Returned p)
        (Haddr : resolve (product_regs p) "LOG_LEVEL" = Some addr)
        (Hanswer : instrument h (calls w) (PollSpec.poll addr) = Raised e)
        (Hclass : Poll.is_exception (exn_cls e) = true) :
  Poll.readlog h product now_iso now_asc true timestamp true w s
  = (Returned tt, PollSpec.after_poll_error addr e w, s).
Proof.
  unfold Poll.readlog. cbn [andb].
  rewrite (PollFacts.poll_unfolded h product p addr Hproduct Haddr).
  unfold read_registers, try_except, call_instrument.
  unfold PollSpec.poll in Hanswer. rewrite Hanswer.
  unfold PollSpec.after_poll_error, PollSpec.poll_report.
  destruct e as [c msg]. cbn [exn_cls exn_msg] in *.
  destruct c; cbn; rewrite <- ?app_assoc; try reflexivity.
  cbn in Hclass.
  destruct (String.eqb name "SerialException"); [reflexivity |].
  rewrite Hclass. reflexivity.
Qed.

(** X5 at an instrument that does not answer. *)
Lemma readlog_contains_poll_errors_witness :
  Poll.readlog (Bench.bench (Bench.failing NoResponseError "No communication"))
    0 "2022-02-16T10:00:00" "Wed Feb 16 10:00:00 2022" true true true
    initial_world (Decoder.mk_sink [] None 0 0)
  = (Returned tt,
     mk_world "No communication" "" "" [ReadRegisters 5 (TInt 8)]
              ["No communication"; "[Ignoring error]"] [],
     Decoder.mk_sink [] None 0 0).
Proof.
  apply (readlog_contains_poll_errors
           (Bench.bench (Bench.failing NoResponseError "No communication"))
           0 hypr6000 5 _ _ true initial_world _
           (mk_exn NoResponseError "No communication"));
    reflexivity.
Defined.

(** X6.  What [readlog] does with a frame of eight words.  A frame whose
    level is 15 (the idle mark 0x0F) is not shown.  Any other frame is
    decoded: when the decoder can decode it, its lines go to the window and
    the log file and [readlog] returns; when it cannot, the decoder's
    exception leaves [readlog], after the poll and with nothing shown. *)
Theorem readlog_shows_decodable_frames
        (h : Host) (product : nat) (p : Product) (addr : Z)
        (now_iso now_asc : string) (timestamp : bool)
        (w : World) (s : Decoder.LogSink) (l : list Z)
        (Hproduct : getitem products (Z.of_nat product) = Returned p)
        (Haddr : resolve (product_regs p) "LOG_LEVEL" = Some addr)
        (Hanswer : instrument h (calls w) (PollSpec.poll addr)
                   = Returned (VList l))
        (Hframe : Frames.frame l) :
  let run := Poll.readlog h product now_iso now_asc true timestamp true w s in
  let w' := PollSpec.after_poll addr w in
  (nth 0 l 0 = 15 -> run = (Returned tt, w', s))
  /\ (nth 0 l 0 <> 15 -> Frames.decodable l ->
      exists q,
        Decoder.showlog_decode now_iso now_asc Decoder.module_regs l timestamp
        = Returned q
        /\ run = (Returned tt, w', Decoder.showlog_emit q s))
  /\ (nth 0 l 0 <> 15 -> ~ Frames.decodable l ->
      exists e, run = (Raised e, w', s)).
Proof.
  intros run w'. subst run w'. unfold Poll.readlog. cbn [andb].
  rewrite (PollFacts.poll_unfolded h product p addr Hproduct Haddr).
  rewrite (PollFacts.poll_answered h addr w _ Hanswer).
  pose proof (PollFacts.showlog_decode_returns_iff now_iso now_asc l timestamp
                Hframe) as Hiff.
  assert (Hfirst : Poll.subscript0 (VList l)
                   = Returned (Poll.FirstWord (nth 0 l 0))).
  { destruct Hframe as [Hlen _].
    destruct l as [| level l']; [discriminate Hlen |]. reflexivity. }
  rewrite Hfirst. unfold Poll.not_idle, Poll.show, Decoder.showlog.
  split; [| split].
  - intros ->. reflexivity.
  - intros Hlevel Hdec. apply Hiff in Hdec. destruct Hdec as [q Hq].
    exists q. split; [exact Hq |].
    destruct (nth 0 l 0 =? 15) eqn:E; [lia |]. cbn [negb].
    rewrite Hq. reflexivity.
  - intros Hlevel Hdec.
    destruct (nth 0 l 0 =? 15) eqn:E; [lia |]. cbn [negb].
    destruct (Decoder.showlog_decode now_iso now_asc Decoder.module_regs l
                timestamp) as [q | e] eqn:Hq.
    + exfalso. apply Hdec, Hiff. now exists q.
    + exists e. reflexivity.
Qed.

(** X6 at an instrument that answers every poll with one frame of
    level INFO and four bytes of unformatted data. *)
Lemma readlog_shows_decodable_frames_witness :
  let h := Bench.bench
             (fun _ _ => Returned (VList [6; 0x1234; 2; 4; 0x0102; 0x0304; 0; 0])) in
  exists q,
    Decoder.showlog_decode "" "" Decoder.module_regs
      [6; 0x1234; 2; 4; 0x0102; 0x0304; 0; 0] false = Returned q
    /\ Poll.readlog h 0 "" "" true false true initial_world
         (Decoder.mk_sink [] None 0 0)
       = (Returned tt, PollSpec.after_poll 5 initial_world,
          Decoder.showlog_emit q (Decoder.mk_sink [] None 0 0)).
Proof.
  intros h.
  apply (readlog_shows_decodable_frames h 0 hypr6000 5 "" "" false
           initial_world (Decoder.mk_sink [] None 0 0)
           [6; 0x1234; 2; 4; 0x0102; 0x0304; 0; 0]).
  - reflexivity.
  - reflexivity.
  - reflexivity.
  - split; [reflexivity |]. repeat constructor; cbv; congruence.
  - cbn. lia.
  - unfold Frames.decodable, Frames.unformatted_code. cbn.
    repeat split; intros; lia.
Defined.

(** X7.  A product whose register dictionary has no LOG_LEVEL is never
    polled: with logging on, [readlog] makes no call on the instrument,
    prints the [KeyError] as an unexpected error and returns. *)
Theorem readlog_without_log_level
        (h : Host) (product : nat) (p : Product)
        (now_iso now_asc : string) (timestamp : bool)
        (w : World) (s : Decoder.LogSink)
        (Hproduct : getitem products (Z.of_nat product) = Returned p)
        (Hmissing : resolve (product_regs p) "LOG_LEVEL" = None) :
  Poll.readlog h product now_iso now_asc true timestamp true w s
  = (Returned tt,
     mk_world (comm_status w) (win_output w) (win_comms w) (calls w)
              (console w
                 ++ ["Unexpected error: 'LOG_LEVEL'. Continuing on..."])%list
              (sleeps w),
     s).
Proof.
  unfold Poll.readlog. cbn [andb].
  unfold mbind, lift, Poll.log_level_address.
  rewrite Hproduct. cbn [obind]. rewrite Hmissing. reflexivity.
Qed.

(** X7 at the PRO-Verter 5000, the second product of the catalogue. *)
Lemma readlog_without_log_level_witness :
  Poll.readlog (Bench.bench Bench.healthy) 1 "" "" true false true
    initial_world (Decoder.mk_sink [] None 0 0)
  = (Returned tt,
     mk_world "" "" "" []
       ["Unexpected error: 'LOG_LEVEL'. Continuing on..."] [],
     Decoder.mk_sink [] None 0 0).
Proof.
  apply (readlog_without_log_level (Bench.bench Bench.healthy) 1
           (mk_product "24VDC PRO-Verter 5000-220 AFF1 (20-0104033)" 9600 1
              proverter_regs 6));
    reflexivity.
Defined.

(* ===================================================================== *)
(** ** The command entry *)
(* ===================================================================== *)

Module GuiFacts.

Import Gui.

(** [is_run_ok] as a conjunction of its four tests. *)
Lemma is_run_ok_true (flt : pyfloat -> bool) (values : Values) :
  is_run_ok flt values = Returned true ->
  v_reg values <> ""
  /\ (if v_radio0 values then
        exists n, parse_int (v_value values) = Some n /\ 0 <= n
      else exists f, parse_float (v_value values) = Some f)
  /\ (exists d, parse_float (v_delay values) = Some d /\ flt d = false)
  /\ (exists r, parse_int (v_repeat values) = Some r).
Proof.
  unfold is_run_ok, py_int, py_float, except_ValueError. cbv zeta.
  destruct (String.eqb_spec (v_reg values) "") as [Hreg | Hreg].
  - (* no register: false whatever the rest *)
    intros H. exfalso.
    destruct (v_radio0 values);
      [destruct (parse_int (v_value values)) as [n |]
      | destruct (parse_float (v_value values))];
      cbn in H;
      try (destruct (n <? 0));
      destruct (parse_float (v_delay values)) as [d |]; cbn in H;
      try (destruct (flt d));
      destruct (parse_int (v_repeat values)); cbn in H; discriminate H.
  - intros H. split; [exact Hreg |].
    destruct (v_radio0 values).
    + destruct (parse_int (v_value values)) as [n |]; cbn in H.
      * destruct (n <? 0) eqn:En;
          destruct (parse_float (v_delay values)) as [d |]; cbn in H;
          try (destruct (flt d) eqn:Ed);
          destruct (parse_int (v_repeat values)) as [r |]; cbn in H;
          try discriminate H.
        split; [exists n; split; [reflexivity | lia] |].
        split; [exists d; split; [reflexivity | exact Ed] |].
        now exists r.
      * destruct (parse_float (v_delay values)) as [d |]; cbn in H;
          try (destruct (flt d));
          destruct (parse_int (v_repeat values)); cbn in H; discriminate H.
    + destruct (parse_float (v_value values)) as [f |]; cbn in H.
      * destruct (parse_float (v_delay values)) as [d |]; cbn in H;
          try (destruct (flt d) eqn:Ed);
          destruct (parse_int (v_repeat values)) as [r |]; cbn in H;
          try discriminate H.
        split; [now exists f |].
        split; [exists d; split; [reflexivity | exact Ed] |].
        now exists r.
      * destruct (parse_float (v_delay values)) as [d |]; cbn in H;
          try (destruct (flt d));
          destruct (parse_int (v_repeat values)); cbn in H; discriminate H.
Qed.

End GuiFacts.

(** X8.  In read mode [is_run_ok] guards the Run button's conversions:
    when it says yes, the register is chosen, the value is an integer that
    is not negative, the delay is a float that is not below zero and the
    repeat count is an integer, so the command line of the handler is
    built without an exception. *)
Theorem run_ok_guards_read_command
        (float_lt_zero : pyfloat -> bool) (values : Gui.Values)
        (Hok : Gui.is_run_ok float_lt_zero values = Returned true)
        (Hread : Gui.v_radio0 values = true) :
  exists n d r,
    Gui.run_line values
    = Returned [TText (Gui.v_reg values); TInt n; TInt 0; TFloat d; TInt r;
                TText ""]
    /\ 0 <= n /\ float_lt_zero d = false /\ Gui.v_reg values <> "".
Proof.
  destruct (GuiFacts.is_run_ok_true _ _ Hok)
    as (Hreg & Hval & (d & Hd & Hflt) & (r & Hr)).
  rewrite Hread in Hval. destruct Hval as (n & Hn & Hpos).
  exists n, d, r. unfold Gui.run_line, py_int, py_float.
  rewrite Hn, Hd, Hr, Hread. cbn [obind]. repeat split; assumption.
Qed.

(** X8 at the entry BIT, Read, 1, 0.5, 3. *)
Lemma run_ok_guards_read_command_witness :
  exists n d r,
    Gui.run_line (Gui.mk_values "BIT" true "1" "0.5" "3")
    = Returned [TText "BIT"; TInt n; TInt 0; TFloat d; TInt r; TText ""]
    /\ 0 <= n /\ Ports.decimal_lt_zero d = false /\ "BIT" <> "".
Proof.
  apply (run_ok_guards_read_command Ports.decimal_lt_zero
           (Gui.mk_values "BIT" true "1" "0.5" "3"));
    reflexivity.
Defined.

(** X9.  In write mode [is_run_ok] tests the value with [float()], the
    handler converts it with [int()]: for a value that is a float but not
    an integer, as 1.5, the check says yes and the Run button's handler
    raises the [ValueError] of [int()] before any call on the instrument
    and before anything is shown.  Its text is
    [invalid literal for int() with base 10: <repr of the value>], or,
    for an integer literal of more digits than [int()] converts, the text
    that names the limit and the number of digits. *)
Theorem run_ok_accepts_fractional_write
        (float_lt_zero : pyfloat -> bool) (values : Gui.Values)
        (h : Host) (product : nat) (w : World)
        (Hok : Gui.is_run_ok float_lt_zero values = Returned true)
        (Hwrite : Gui.v_radio0 values = false)
        (Hfrac : parse_int (Gui.v_value values) = None) :
  Gui.on_run h product values w
  = (Raised (mk_exn ValueError
               match int_literal (Gui.v_value values) with
               | None =>
                   "invalid literal for int() with base 10: "
                     ++ repr_text (Gui.v_value values)
               | Some (_, count) =>
                   "Exceeds the limit (4300 digits) for integer string "
                     ++ "conversion: value has " ++ str_int (Z.of_nat count)
                     ++ " digits; use sys.set_int_max_str_digits() to "
                     ++ "increase the limit"
               end),
     w).
Proof.
  unfold Gui.on_run, mbind, lift, Gui.run_line, py_int.
  rewrite Hfrac. unfold int_error, int_error_text.
  destruct (int_literal (Gui.v_value values)) as [[v count] |];
    reflexivity.
Qed.

(** X9 at the entry BIT, Write, 1.5, 0, 1. *)
Lemma run_ok_accepts_fractional_write_witness :
  Gui.is_run_ok Ports.decimal_lt_zero (Gui.mk_values "BIT" false "1.5" "0" "1")
  = Returned true
  /\ Gui.on_run (Bench.bench Bench.healthy) 0
       (Gui.mk_values "BIT" false "1.5" "0" "1") initial_world
     = (Raised (mk_exn ValueError
                  "invalid literal for int() with base 10: '1.5'"),
        initial_world).
Proof.
  split; [reflexivity |].
  apply (run_ok_accepts_fractional_write Ports.decimal_lt_zero
           (Gui.mk_values "BIT" false "1.5" "0" "1")
           (Bench.bench Bench.healthy) 0 initial_world);
    reflexivity.
Defined.

(** X10.  The log interval stays between 0 and 1000 ms whatever is typed
    into its field, from the first value 80 on: a text that [int()] reads
    sets it to that integer, brought into the range; any other text, the
    empty one included, leaves it as it was. *)
Theorem log_interval_stays_in_range :
  (forall texts : list string,
      0 <= fold_left (fun interval text => Gui.on_log_interval text interval)
                     texts Gui.log_interval0 <= 1000)
  /\ (forall text interval n,
         parse_int text = Some n ->
         Gui.on_log_interval text interval = Z.max 0 (Z.min n 1000))
  /\ (forall text interval,
         parse_int text = None ->
         Gui.on_log_interval text interval = interval).
Proof.
  assert (Hstep : forall text interval,
             0 <= interval <= 1000 ->
             0 <= Gui.on_log_interval text interval <= 1000).
  { intros text interval H. unfold Gui.on_log_interval, py_int.
    destruct (String.eqb text ""); [exact H |].
    destruct (parse_int text) as [n |]; [| exact H].
    destruct (n <? 0) eqn:E0; [lia |].
    destruct (n >? 1000) eqn:E1; lia. }
  split; [| split].
  - intros texts.
    assert (Hall : forall interval,
               0 <= interval <= 1000 ->
               0 <= fold_left
                      (fun interval text => Gui.on_log_interval text interval)
                      texts interval <= 1000).
    { induction texts as [| t texts IH]; intros interval H; [exact H |].
      cbn [fold_left]. apply IH, Hstep, H. }
    apply Hall. unfold Gui.log_interval0. lia.
  - intros text interval n Hn. unfold Gui.on_log_interval, py_int.
    destruct (String.eqb_spec text "") as [-> | Hne]; [discriminate Hn |].
    rewrite Hn. destruct (n <? 0) eqn:E0; [lia |].
    destruct (n >? 1000) eqn:E1; lia.
  - intros text interval Hn. unfold Gui.on_log_interval, py_int.
    destruct (String.eqb text ""); [reflexivity |]. now rewrite Hn.
Qed.

(* ===================================================================== *)
(** ** The connection *)
(* ===================================================================== *)

Module ConnectFacts.

Import Returns Run Gui.
Local Open Scope M_scope.

(** The scan ends with the last usable port, and leaves the console and
    the calls alone. *)
Lemma scan_returns (ports : list PortInfo) :
  forall (found ret : string) (w : World),
    returns (scan ports found ret) w
      (fun fr w' =>
         fst fr = Ports.chosen ports found
         /\ console w' = console w /\ calls w' = calls w
         /\ sleeps w' = sleeps w /\ win_output w' = win_output w
         /\ win_comms w' = win_comms w).
Proof.
  induction ports as [| q ports IH]; intros found ret w.
  - apply returns_ret. repeat split; reflexivity.
  - cbn [scan]. unfold Ports.chosen. cbn [fold_left].
    fold (Ports.chosen ports (if Ports.usable q then port q else found)).
    unfold Ports.usable.
    destruct (contains "CP210x" (desc q)) eqn:E1;
      destruct (contains "USB Serial Port" (desc q)) eqn:E2;
      cbn [orb];
      (eapply returns_step; [reflexivity |]);
      (eapply returns_weaken; [apply IH |]);
      cbn; intros fr w' H; exact H.
Qed.

End ConnectFacts.

(** X11.  [connect_port] opens the last adapter of the sorted ports.
    Among the ports whose description contains [CP210x] or
    [USB Serial Port], the one that comes last is the one on which the
    instrument is opened, with the Modbus address and the baud rate of the
    selected product; the status says so. *)
Theorem connect_port_opens_last_adapter
        (product : nat) (p : Product)
        (open_instrument : string -> Z -> Z -> outcome unit)
        (ports : list Gui.PortInfo) (w : World) (found : string)
        (Hproduct : getitem products (Z.of_nat product) = Returned p)
        (Hchosen : Ports.chosen ports "" = found)
        (Hfound : found <> "")
        (Hopen : open_instrument found (product_address p) (product_baud p)
                 = Returned tt) :
  exists w',
    Gui.connect_port product open_instrument ports w
    = (Returned (Gui.Opened found (product_address p) (product_baud p)), w')
    /\ comm_status w'
       = "Connecting to " ++ found ++ " at " ++ str_int (product_baud p)
           ++ " baud and RS485 address " ++ str_int (product_address p)
           ++ "... "
    /\ console w' = (console w ++ [comm_status w'])%list.
Proof.
  unfold Gui.connect_port, mbind at 1, lift. rewrite Hproduct.
  destruct ports as [| q ports]; [now cbn in Hchosen; subst found |].
  change (length (q :: ports) =? 0)%nat with false. cbv iota.
  destruct (ConnectFacts.scan_returns (q :: ports) "" "" w)
    as ([fp ret] & w1 & Hscan & Hfp & Hcon & _).
  cbn [fst] in Hfp. rewrite Hchosen in Hfp. subst fp.
  unfold mbind at 1. rewrite Hscan.
  destruct (String.eqb_spec found "") as [He | _]; [contradiction |].
  unfold mbind, set_comm_status, get_comm_status, emit. cbn.
  rewrite Hopen. eexists. split; [reflexivity |]. cbn.
  split; [reflexivity | now rewrite Hcon].
Qed.

(** X11 with two adapters plugged in: the second one is opened. *)
Lemma connect_port_opens_last_adapter_witness :
  exists w',
    Gui.connect_port 0 (fun _ _ _ => Returned tt)
      [ Gui.mk_port "COM3" "Silicon Labs CP210x USB to UART Bridge (COM3)" "USB VID:PID=10C4:EA60";
        Gui.mk_port "COM4" "Bluetooth link (COM4)" "BTHENUM";
        Gui.mk_port "COM7" "USB Serial Port (COM7)" "USB VID:PID=0403:6001" ]
      initial_world
    = (Returned (Gui.Opened "COM7" 1 57600), w')
    /\ comm_status w'
       = "Connecting to COM7 at 57600 baud and RS485 address 1... "
    /\ console w' = (console initial_world ++ [comm_status w'])%list.
Proof.
  apply (connect_port_opens_last_adapter 0 hypr6000 (fun _ _ _ => Returned tt)
           _ initial_world "COM7");
    [reflexivity | reflexivity | discriminate | reflexivity].
Defined.

(** X12.  A port that cannot be opened still counts as connected.  When
    opening the adapter raises a serial exception, [connect_port] returns
    [False]; [main] takes the connection as made, because [False] is not
    [None]: the Connect button is disabled, and the Run button is enabled
    as soon as the command entry is complete. *)
Theorem failed_open_counts_as_connected
        (product : nat) (p : Product)
        (open_instrument : string -> Z -> Z -> outcome unit)
        (ports : list Gui.PortInfo) (w : World) (found : string) (e : exn)
        (float_lt_zero : pyfloat -> bool) (values : Gui.Values)
        (Hproduct : getitem products (Z.of_nat product) = Returned p)
        (Hchosen : Ports.chosen ports "" = found)
        (Hfound : found <> "")
        (Hopen : open_instrument found (product_address p) (product_baud p)
                 = Raised e)
        (Hserial : Poll.is_serial_exception (exn_cls e) = true)
        (Hok : Gui.is_run_ok float_lt_zero values = Returned true) :
  exists c w',
    Gui.connect_port product open_instrument ports w = (Returned c, w')
    /\ c = Gui.NotOpened
    /\ comm_status w' = exn_msg e
    /\ Gui.connect_disabled (Gui.connected c) = true
    /\ Gui.run_disabled float_lt_zero values (Gui.connected c)
       = Returned false.
Proof.
  unfold Gui.connect_port, mbind at 1, lift. rewrite Hproduct.
  destruct ports as [| q ports]; [now cbn in Hchosen; subst found |].
  change (length (q :: ports) =? 0)%nat with false. cbv iota.
  destruct (ConnectFacts.scan_returns (q :: ports) "" "" w)
    as ([fp ret] & w1 & Hscan & Hfp & Hcon & _).
  cbn [fst] in Hfp. rewrite Hchosen in Hfp. subst fp.
  unfold mbind at 1. rewrite Hscan.
  destruct (String.eqb_spec found "") as [He | _]; [contradiction |].
  unfold mbind, set_comm_status, get_comm_status, emit. cbn.
  rewrite Hopen, Hserial. cbn.
  eexists _, _. split; [reflexivity |].
  repeat split. unfold Gui.run_disabled. rewrite Hok. reflexivity.
Qed.

(** X12 with an adapter that another program holds open. *)
Lemma failed_open_counts_as_connected_witness :
  exists c w',
    Gui.connect_port 0
      (fun _ _ _ =>
         Raised (mk_exn (OtherException "SerialException")
                   "could not open port 'COM3': PermissionError"))
      [ Gui.mk_port "COM3" "Silicon Labs CP210x USB to UART Bridge (COM3)" "USB VID:PID=10C4:EA60" ]
      initial_world
    = (Returned c, w')
    /\ c = Gui.NotOpened
    /\ comm_status w' = "could not open port 'COM3': PermissionError"
    /\ Gui.connect_disabled (Gui.connected c) = true
    /\ Gui.run_disabled Ports.decimal_lt_zero
         (Gui.mk_values "BIT" true "1" "0" "1") (Gui.connected c)
       = Returned false.
Proof.
  apply (failed_open_counts_as_connected 0 hypr6000 _ _ initial_world "COM3"
           (mk_exn (OtherException "SerialException")
              "could not open port 'COM3': PermissionError"));
    [reflexivity | reflexivity | discriminate | reflexivity | reflexivity
    | reflexivity].
Defined.

(* ===================================================================== *)
(** ** V1.01 BUILD 20220216: the start, and what ends a script *)
(* ===================================================================== *)

Module RaisesFacts.

Import Returns Raises.
Local Open Scope M_scope.

(** The first computation raises. *)
Lemma raises_bind_now {A B} (c : M A) (k : A -> M B) (w : World)
      (Q : exn -> World -> Prop) :
  raises c w Q -> raises (mbind c k) w Q.
Proof.
  intros (e & w' & Hc & HQ). exists e, w'. split; [| exact HQ].
  unfold mbind. now rewrite Hc.
Qed.

(** The first computation returns, what follows raises. *)
Lemma raises_bind_later {A B} (c : M A) (k : A -> M B) (w : World)
      (Q : exn -> World -> Prop) :
  returns c w (fun a w' => raises (k a) w' Q) -> raises (mbind c k) w Q.
Proof.
  intros (a & w' & Hc & e & w'' & Hk & HQ). exists e, w''.
  split; [| exact HQ]. unfold mbind. now rewrite Hc.
Qed.

End RaisesFacts.

Module V101Facts.

Import Returns Raises Run RaisesFacts.
Local Open Scope M_scope.

Lemma scan_spec (ports : list Gui.PortInfo) :
  forall port found_port ret,
    exists ret',
      V101Startup.scan ports port found_port ret
      = (V101Spec.last_port ports port, V101Spec.found ports found_port, ret').
Proof.
  induction ports as [| q ports IH]; intros port found_port ret.
  - eexists. reflexivity.
  - cbn [V101Startup.scan]. unfold V101Spec.last_port, V101Spec.found.
    cbn [fold_left].
    destruct (contains "CP210x" (Gui.desc q)); apply IH.
Qed.

(** A key of a dictionary is among its items. *)
Lemma dict_lookup_In {V} (d : list (string * V)) (k : string) (v : V) :
  dict_lookup d k = Some v -> In (k, v) d.
Proof.
  induction d as [| [k' v'] d IH]; [discriminate |].
  cbn [dict_lookup]. destruct (String.eqb_spec k' k) as [-> | Hne].
  - intros H. inversion H. now left.
  - intros H. right. now apply IH.
Qed.

(** Every address of [regs] is the index of a key. *)
Lemma name_at_resolved (name : string) (addr : Z) :
  resolve V101.regs name = Some addr ->
  exists key, V101.name_at addr = Returned key.
Proof.
  intros H. apply dict_lookup_In in H.
  assert (Hall : Forall (fun kv => exists key,
                             V101.name_at (snd kv) = Returned key) V101.regs).
  { unfold V101.regs. repeat (apply Forall_cons; [eexists; reflexivity |]).
    apply Forall_nil. }
  rewrite Forall_forall in Hall. apply (Hall _ H).
Qed.

Section WithHost.

Variable h : Host.

(** The call of V1.01 whose exception escapes. *)
Lemma obtain_result_escapes (write val : Token) (addr : Z) (desc : string)
      (w : World) (e e' : exn) :
  (token_truthy h write = false ->
   exists gt, token_gt_one h val = Returned gt) ->
  let c := Tame.call_of h 16 write val addr in
  instrument h (calls w) c = Raised e ->
  V101Spec.escapes c e = Some e' ->
  raises (V101.obtain_result h write val addr desc) w
    (fun x w' => x = e' /\ calls w' = (calls w ++ [c])%list).
Proof.
  intros Hval c Ha He. subst c. unfold Tame.call_of in *.
  unfold V101.obtain_result.
  destruct (token_truthy h write) eqn:Hw.
  - unfold V101.write_register, raises, mbind, try_except, call_instrument.
    rewrite Ha. unfold V101Spec.escapes in He.
    destruct (exn_cls e) eqn:Hc; try discriminate He;
      inversion He; subst e'; eexists _, _; (split; [reflexivity |]);
      split; reflexivity.
  - destruct (Hval eq_refl) as [gt Hgt]. rewrite Hgt in *.
    unfold mbind at 1, lift at 1. destruct gt.
    + unfold V101.read_registers, raises, try_except, call_instrument.
      rewrite Ha. unfold V101Spec.escapes in He.
      destruct (exn_cls e) eqn:Hc; try discriminate He;
        inversion He; subst e'; cbn; eexists _, _; (split; [reflexivity |]);
        split; reflexivity.
    + unfold V101.read_register, raises, try_except, call_instrument.
      rewrite Ha. unfold V101Spec.escapes in He.
      destruct (exn_cls e) eqn:Hc; try discriminate He;
        inversion He; subst e'; cbn; eexists _, _; (split; [reflexivity |]);
        split; reflexivity.
Qed.

End WithHost.

End V101Facts.

(** X13.  V1.01 opens the last port of the list, not the adapter it
    found.  The scan keeps the name of the last port whose description
    contains [CP210x] for the message, but the instrument is opened on the
    loop variable, which holds the name of the last port scanned. *)
Theorem V101_opens_last_port_scanned
        (open_instrument : string -> Z -> Z -> outcome unit)
        (proceed : string) (ports : list Gui.PortInfo) (w : World)
        (Hfound : V101Spec.found ports "" <> "")
        (Hopen : open_instrument (V101Spec.last_port ports "COM5") 1 256000
                 = Returned tt) :
  V101Startup.startup open_instrument proceed ports w
  = (Returned (Gui.Opened (V101Spec.last_port ports "COM5") 1 256000),
     mk_world (comm_status w) (win_output w) (win_comms w) (calls w)
       (console w
          ++ [("Connecting to " ++ V101Spec.found ports ""
                 ++ " at 256000 baud and RS485 address 1... ")%string])%list
       (sleeps w)).
Proof.
  unfold V101Startup.startup.
  destruct (V101Facts.scan_spec ports V101Startup.port0 "" "") as [ret Hscan].
  rewrite Hscan.
  destruct (String.eqb_spec (V101Spec.found ports "") "") as [He | _];
    [contradiction |].
  unfold mbind, emit. cbn [fst snd].
  change V101Startup.port0 with "COM5".
  change V101Startup.address with 1. change V101Startup.baud with 256000.
  rewrite Hopen. reflexivity.
Qed.

(** X13 with the adapter on COM3 and a Bluetooth link on COM4: the
    message names COM3, the instrument is opened on COM4. *)
Lemma V101_opens_last_port_scanned_witness :
  V101Startup.startup (fun _ _ _ => Returned tt) "OK"
    [ Gui.mk_port "COM3" "Silicon Labs CP210x USB to UART Bridge (COM3)" "USB VID:PID=10C4:EA60";
      Gui.mk_port "COM4" "Bluetooth link (COM4)" "BTHENUM" ]
    initial_world
  = (Returned (Gui.Opened "COM4" 1 256000),
     mk_world "" "" "" []
       ["Connecting to COM3 at 256000 baud and RS485 address 1... "] []).
Proof.
  apply (V101_opens_last_port_scanned (fun _ _ _ => Returned tt) "OK"
           [ Gui.mk_port "COM3" "Silicon Labs CP210x USB to UART Bridge (COM3)" "USB VID:PID=10C4:EA60";
             Gui.mk_port "COM4" "Bluetooth link (COM4)" "BTHENUM" ]
           initial_world);
    [discriminate | reflexivity].
Defined.

(** X14.  What ends a script in V1.01.  A row that names a register of
    [regs] and runs at least once makes its call; when the instrument
    answers it with an exception that the wrapper of V1.01 lets through
    (an illegal address on a single read, a malformed response on a single
    read, which becomes [SystemExit] 74, a missing response to a write, a
    [NameError] on a read of several registers, which becomes
    [SystemExit] -1, or any class that the wrapper does not name), the
    exception leaves [do_script_line] right behind that call, and with it
    the row loop of [run_script]: the rows behind it are not run. *)
Theorem V101_transport_error_ends_script
        (h : Host) (name : string) (val write delay : Token) (n : Z)
        (rest : list Token) (addr : Z) (w : World) (e e' : exn)
        (Hresolved : resolve V101.regs name = Some addr)
        (Hval : token_truthy h write = false ->
                exists gt, token_gt_one h val = Returned gt)
        (Hrest : match rest with
                 | [] | TText _ :: _ => True
                 | _ => False
                 end)
        (Hn : 1 <= n)
        (Hanswer : instrument h (calls w) (Tame.call_of h 16 write val addr)
                   = Raised e)
        (Hescapes : V101Spec.escapes (Tame.call_of h 16 write val addr) e
                    = Some e') :
  let line := TText name :: val :: write :: delay :: TInt n :: rest in
  (forall preserve,
      exists w',
        V101.do_script_line h line preserve w = (Raised e', w')
        /\ calls w' = (calls w ++ [Tame.call_of h 16 write val addr])%list)
  /\ (forall row rows ret,
         coerce_row row = Returned line ->
         exists w', V101Script.run_rows h (row :: rows) ret w = (Raised e', w')).
Proof.
  intros line.
  assert (Hline : forall preserve w0,
             calls w0 = calls w ->
             Raises.raises (V101.do_script_line h line preserve) w0
               (fun x w' =>
                  x = e'
                  /\ calls w'
                     = (calls w ++ [Tame.call_of h 16 write val addr])%list)).
  { intros preserve w0 Hw0. unfold V101.do_script_line. subst line.
    apply RaisesFacts.raises_bind_later. eapply Run.returns_lift.
    { change 0 with (Z.of_nat 0). apply Run.getitem_nth_error. reflexivity. }
    cbv beta iota. rewrite Hresolved.
    apply RaisesFacts.raises_bind_now.
    apply RaisesFacts.raises_bind_later. eapply Run.returns_lift.
    { change 1 with (Z.of_nat 1). apply Run.getitem_nth_error. reflexivity. }
    apply RaisesFacts.raises_bind_later. eapply Run.returns_lift.
    { unfold field_or. cbn [length Nat.add Nat.ltb Nat.leb].
      apply Run.getitem_nth_error. reflexivity. }
    apply RaisesFacts.raises_bind_later. eapply Run.returns_lift.
    { unfold field_or. cbn [length Nat.add Nat.ltb Nat.leb].
      apply Run.getitem_nth_error. reflexivity. }
    apply RaisesFacts.raises_bind_later. eapply Run.returns_lift.
    { unfold field_or. cbn [length Nat.add Nat.ltb Nat.leb].
      apply Run.getitem_nth_error. reflexivity. }
    destruct (InterpreterFacts.description_returns
                (TText name :: val :: write :: delay :: TInt n :: rest))
      as [d Hd].
    { cbn. destruct rest as [| [| | |] rest']; try contradiction; exact I. }
    apply RaisesFacts.raises_bind_later. eapply Run.returns_lift;
      [exact Hd |].
    destruct (V101Facts.name_at_resolved name addr Hresolved) as [key Hkey].
    apply RaisesFacts.raises_bind_later.
    assert (Hhead : forall Q : string -> World -> Prop,
               (forall s, Q s w0) ->
               Returns.returns
                 (if token_truthy h write
                  then
                    mbind (lift (V101.name_at addr))
                      (fun name0 =>
                         mret (preserve ++ "Write " ++ fmt_token h val
                                 ++ " to " ++ name0 ++ "(" ++ str_int addr
                                 ++ ")"))
                  else
                    mbind (lift (token_gt_one h val))
                      (fun gt =>
                         mbind (lift (V101.name_at addr))
                           (fun name0 =>
                              if gt
                              then mret (preserve ++ "Read " ++ fmt_token h val
                                           ++ " registers starting at "
                                           ++ name0 ++ "(" ++ str_int addr
                                           ++ ")")
                              else mret (preserve ++ "Read from " ++ name0
                                           ++ "(" ++ str_int addr ++ ")"))))
                 w0 Q).
    { intros Q HQ. destruct (token_truthy h write) eqn:Hw.
      - apply Run.returns_bind. eapply Run.returns_lift; [exact Hkey |].
        apply Run.returns_ret, HQ.
      - destruct (Hval eq_refl) as [gt Hgt].
        apply Run.returns_bind. eapply Run.returns_lift; [exact Hgt |].
        apply Run.returns_bind. eapply Run.returns_lift; [exact Hkey |].
        destruct gt; apply Run.returns_ret, HQ. }
    apply Hhead. intros header.
    apply RaisesFacts.raises_bind_later. eapply Run.returns_lift;
      [reflexivity |].
    apply RaisesFacts.raises_bind_now.
    destruct (Z.to_nat n) as [| k] eqn:Hk; [lia |].
    cbn [iterate]. apply RaisesFacts.raises_bind_now.
    unfold V101.iteration. apply RaisesFacts.raises_bind_now.
    rewrite <- Hw0 in Hanswer.
    destruct (V101Facts.obtain_result_escapes h write val addr
                (if String.length d =? 0 then ": " else " [" ++ d ++ "]: ")%nat
                w0 e e' Hval Hanswer Hescapes)
      as (x & w' & Hrun & Hx & Hc).
    exists x, w'. split; [exact Hrun |]. split; [exact Hx |].
    now rewrite Hc, Hw0. }
  split.
  - intros preserve.
    destruct (Hline preserve w eq_refl) as (x & w' & Hrun & -> & Hc).
    exists w'. split; assumption.
  - intros row rows ret Hrow.
    destruct (CoercionFacts.coerce_row_returns row) as (b & Hb & Hlen).
    rewrite Hrow in Hb. inversion Hb; subst b.
    cbn [V101Script.run_rows].
    assert (Hlong : (length row <? 5)%nat = false).
    { apply Nat.ltb_ge. rewrite <- Hlen. subst line. cbn [length]. lia. }
    rewrite Hlong.
    unfold mbind at 1. cbn [update_output].
    unfold mbind at 1, lift at 1. rewrite Hrow.
    unfold mbind at 1.
    destruct (Hline ret
                (mk_world (comm_status w) ret (win_comms w) (calls w)
                          (console w) (sleeps w)) eq_refl)
      as (x & w' & Hrun & -> & Hc).
    rewrite Hrun. exists w'. reflexivity.
Qed.

(** X14 at the row [BIT,1,false,0,1] and an instrument that answers
    "illegal data address": the script stops there. *)
Lemma V101_transport_error_ends_script_witness :
  let line := [TText "BIT"; TInt 1; TBool false; TInt 0; TInt 1] in
  let e := mk_exn IllegalRequestError "Slave reported illegal data address" in
  (forall preserve,
      exists w',
        V101.do_script_line illegal_address_host line preserve initial_world
        = (Raised e, w')
        /\ calls w' = ([] ++ [ReadRegister 0 0])%list)
  /\ (forall row rows ret,
         coerce_row row = Returned line ->
         exists w',
           V101Script.run_rows illegal_address_host (row :: rows) ret
             initial_world
           = (Raised e, w')).
Proof.
  intros line e.
  apply (V101_transport_error_ends_script illegal_address_host "BIT"
           (TInt 1) (TBool false) (TInt 0) 1 [] 0 initial_world e e).
  - reflexivity.
  - intros _. eexists. reflexivity.
  - exact I.
  - lia.
  - reflexivity.
  - reflexivity.
Defined.

Module V101ScriptFacts.

Local Open Scope M_scope.

(** The row loop of V1.01 over two lists of rows, one behind the other. *)
Lemma run_rows_app (h : Host) (pre post : list (list string)) :
  forall (ret : string) (w : World),
    V101Script.run_rows h (pre ++ post)%list ret w
    = match V101Script.run_rows h pre ret w with
      | (Returned r, w1) => V101Script.run_rows h post r w1
      | (Raised e, w1) => (Raised e, w1)
      end.
Proof.
  induction pre as [| row pre IH]; intros ret w; [reflexivity |].
  cbn [app V101Script.run_rows].
  unfold mbind, lift, update_output. cbv beta iota.
  destruct (length row <? 5)%nat; [apply IH |].
  destruct (coerce_row row) as [b | e]; [| reflexivity].
  destruct (V101.do_script_line h b ret _) as [[r | e] w1]; [| reflexivity].
  destruct (V101Script.last_is_not_newline r) as [open | e]; [| reflexivity].
  apply IH.
Qed.

(** A text that is not empty has a last character. *)
Lemma last_is_not_newline_returns (a : string) (c : ascii) (s : string) :
  exists open, V101Script.last_is_not_newline (a ++ String c s) = Returned open.
Proof.
  unfold V101Script.last_is_not_newline.
  destruct (rev (list_ascii_of_string (a ++ String c s))) as [| x l] eqn:E.
  - exfalso. apply (f_equal (@length ascii)) in E.
    rewrite length_rev in E. revert E.
    induction a as [| y a IH]; cbn; [discriminate | discriminate].
  - eexists. reflexivity.
Qed.

(** The test of the last character, on a text that is not empty. *)
Lemma last_is_not_newline_spec (s : string) :
  s <> "" ->
  V101Script.last_is_not_newline s
  = Returned (negb (V101Spec.ends_with_newline s)).
Proof.
  unfold V101Script.last_is_not_newline.
  induction s as [| c s IH]; intros Hs; [contradiction |].
  destruct s as [| d s]; [reflexivity |].
  assert (Hne : String d s <> "") by discriminate.
  specialize (IH Hne).
  change (list_ascii_of_string (String c (String d s)))
    with (c :: list_ascii_of_string (String d s)).
  change (V101Spec.ends_with_newline (String c (String d s)))
    with (V101Spec.ends_with_newline (String d s)).
  cbn [rev].
  destruct (rev (list_ascii_of_string (String d s))) as [| x l];
    [discriminate IH | exact IH].
Qed.

(** The older build on a key that its dictionary does not have: the
    marker takes the place of the report. *)
Lemma unresolved_key_overwrites (h : Host) (key : Token)
      (cells : list Token) (preserve : string) (w : World) :
  match key with
  | TText s => resolve V101.regs s
  | _ => None
  end = None ->
  V101.do_script_line h (key :: cells) preserve w
  = (Returned ("*** ERROR *** unknown key " ++ fmt_token h key),
     Tame.refreshed_output
       ("*** ERROR *** unknown key " ++ fmt_token h key) w).
Proof.
  intros Hr. unfold V101.do_script_line.
  unfold mbind at 1, lift at 1.
  change (getitem (key :: cells) 0)
    with (getitem (key :: cells) (Z.of_nat 0)).
  rewrite (Run.getitem_nth_error _ 0 key) by reflexivity.
  cbv beta iota. rewrite Hr. reflexivity.
Qed.

End V101ScriptFacts.

(** X15.  In V1.01 a row of at least five cells whose first cell is no
    name of the dictionary erases the report.  The coercion leaves the
    cell the text that it is or reads it as a number or a truth value;
    whatever the rows before it have reported, the window shows the
    marker [*** ERROR *** unknown key <key>] alone, [<key>] being the
    coerced cell as [str] shows it, and the rows behind it start from
    that marker, with a newline added exactly when the marker does not
    end with one: what the script has reported so far is in neither. *)
Theorem V101_unknown_key_erases_report
        (h : Host) (pre post : list (list string))
        (name : string) (cells : list string)
        (ret earlier : string) (w w1 : World)
        (Hcells : (4 <= length cells)%nat)
        (Habsent : resolve V101.regs name = None)
        (Hpre : V101Script.run_rows h pre ret w = (Returned earlier, w1)) :
  exists t,
    coerce name = Returned t
    /\ (t = TText name \/ Tame.numeric t = true)
    /\ let marker := "*** ERROR *** unknown key " ++ fmt_token h t in
       let report :=
         if V101Spec.ends_with_newline marker then marker
         else marker ++ nl in
       V101Script.run_rows h (pre ++ (name :: cells) :: post)%list ret w
       = V101Script.run_rows h post report
           (Tame.refreshed_output marker w1).
Proof.
  destruct (RowFacts.coerce_text_or_number name) as (t & Ht & Hkind).
  exists t. split; [exact Ht |]. split; [exact Hkind |].
  intros marker report.
  assert (Hkey : match t with
                 | TText s => resolve V101.regs s
                 | _ => None
                 end = None).
  { destruct Hkind as [-> | Hnum]; [exact Habsent |].
    destruct t; [reflexivity | reflexivity | reflexivity | discriminate Hnum]. }
  assert (Hopen : V101Script.last_is_not_newline marker
                  = Returned (negb (V101Spec.ends_with_newline marker))).
  { apply V101ScriptFacts.last_is_not_newline_spec. discriminate. }
  rewrite V101ScriptFacts.run_rows_app, Hpre.
  cbn [V101Script.run_rows].
  assert (Hlong : (length (name :: cells) <? 5)%nat = false).
  { apply Nat.ltb_ge. cbn [length]. lia. }
  rewrite Hlong.
  destruct (CoercionFacts.coerce_row_returns cells) as (b & Hb & _).
  unfold mbind, lift, update_output. cbv beta iota.
  cbn [coerce_row]. rewrite Ht. cbn [obind]. rewrite Hb. cbn [obind].
  rewrite (V101ScriptFacts.unresolved_key_overwrites h t b earlier _ Hkey).
  fold marker. rewrite Hopen. subst report.
  destruct (V101Spec.ends_with_newline marker); reflexivity.
Qed.

(** X15 at a script of a read that succeeds and a row that names 007,
    which the coercion reads as the integer 7. *)
Lemma V101_unknown_key_erases_report_witness :
  V101Script.run_rows (Bench.bench Bench.healthy)
    ([["BIT"; "1"; "false"; "0"; "1"]]
       ++ ["007"; "1"; "false"; "0"; "1"] :: [])%list
    "" initial_world
  = V101Script.run_rows (Bench.bench Bench.healthy) []
      ("*** ERROR *** unknown key 7" ++ nl)
      (Tame.refreshed_output "*** ERROR *** unknown key 7"
         (mk_world "" ("Read from BIT(0): 7" ++ nl) "" [ReadRegister 0 0]
                   [] [TInt 0])).
Proof.
  destruct (V101_unknown_key_erases_report (Bench.bench Bench.healthy)
              [["BIT"; "1"; "false"; "0"; "1"]] [] "007"
              ["1"; "false"; "0"; "1"] "" ("Read from BIT(0): 7" ++ nl)
              initial_world
              (mk_world "" ("Read from BIT(0): 7" ++ nl) "" [ReadRegister 0 0]
                        [] [TInt 0]))
    as (t & Ht & _ & Hrun).
  - cbn. lia.
  - reflexivity.
  - reflexivity.
  - assert (E : t = TInt 7).
    { vm_compute in Ht. now inversion Ht. }
    subst t. exact Hrun.
Defined.

(* ===================================================================== *)
(** ** The report of V1.4.0 only grows *)
(* ===================================================================== *)

Module GrowFacts.

Import Prefix.
Local Open Scope M_scope.

Lemma extends_refl (s : string) : extends s s.
Proof. exists "". now rewrite append_nil_r. Qed.

Lemma extends_app (s t more : string) : extends s t -> extends s (t ++ more).
Proof.
  intros [m ->]. exists (m ++ more). now rewrite append_assoc.
Qed.

Lemma extends_trans (s t u : string) : extends s t -> extends t u -> extends s u.
Proof. intros Hst [m ->]. now apply extends_app. Qed.

(** A sequence that returned: both parts did. *)
Lemma bind_returned {A B} (c : M A) (k : A -> M B) (w w' : World) (r : B) :
  mbind c k w = (Returned r, w') ->
  exists a w1, c w = (Returned a, w1) /\ k a w1 = (Returned r, w').
Proof.
  unfold mbind. destruct (c w) as [[a | e] w1]; [| discriminate].
  intros H. now exists a, w1.
Qed.

Lemma lift_returned {A} (o : outcome A) (w w' : World) (r : A) :
  lift o w = (Returned r, w') -> o = Returned r.
Proof. unfold lift. intros H. now inversion H. Qed.

Lemma ret_returned {A} (a r : A) (w w' : World) :
  mret a w = (Returned r, w') -> r = a.
Proof. unfold mret. intros H. now inversion H. Qed.

Section WithHost.

Variable h : Host.
Variable product : nat.

Lemma check_assertion_extends assertion result ret w r w' :
  check_assertion h assertion result ret w = (Returned r, w') ->
  extends ret r.
Proof.
  unfold check_assertion. destruct (0 <? String.length assertion)%nat.
  - destruct (py_eval h assertion result) as [v | e].
    + destruct (truthy v); intros H; apply ret_returned in H; subst r;
        apply extends_app, extends_refl.
    + destruct (caught_by_assert (exn_cls e)); [| discriminate].
      intros H; apply ret_returned in H; subst r.
      apply extends_app, extends_refl.
  - intros H; apply ret_returned in H; subst r. apply extends_refl.
Qed.

Lemma iteration_extends write val delay n addr desc assertion i ret w r w' :
  iteration h product write val delay n addr desc assertion i ret w
  = (Returned r, w') ->
  extends ret r.
Proof.
  unfold iteration. intros H.
  apply bind_returned in H. destruct H as (result & w1 & _ & H).
  apply bind_returned in H. destruct H as (ret2 & w2 & Hcheck & H).
  apply bind_returned in H. destruct H as (u1 & w3 & _ & H).
  apply bind_returned in H. destruct H as (u2 & w4 & _ & H).
  apply bind_returned in H. destruct H as (u3 & w5 & _ & H).
  apply ret_returned in H. subst r.
  apply check_assertion_extends in Hcheck.
  apply extends_app.
  assert (Hret2 : extends ret ret2).
  { eapply extends_trans; [| exact Hcheck].
    apply extends_app. destruct (n >? 1);
      [apply extends_app |]; apply extends_refl. }
  destruct (i + 1 <? n); [apply extends_app |]; exact Hret2.
Qed.

Lemma iterate_extends (body : Z -> string -> M string) :
  (forall i ret w r w', body i ret w = (Returned r, w') -> extends ret r) ->
  forall k i ret w r w',
    iterate k body i ret w = (Returned r, w') -> extends ret r.
Proof.
  intros Hbody. induction k as [| k IH]; intros i ret w r w' H.
  - apply ret_returned in H. subst r. apply extends_refl.
  - cbn [iterate] in H. apply bind_returned in H.
    destruct H as (ret1 & w1 & H1 & H).
    eapply extends_trans; [eapply Hbody, H1 | eapply IH, H].
Qed.

Lemma do_script_line_extends line preserve w r w' :
  do_script_line h product line preserve w = (Returned r, w') ->
  extends preserve r.
Proof.
  unfold do_script_line.
  destruct (lookup_register h product line) as [addr | e].
  - intros H.
    apply bind_returned in H. destruct H as (u0 & w0 & _ & H).
    apply bind_returned in H. destruct H as (val & w1 & _ & H).
    apply bind_returned in H. destruct H as (write & w2 & _ & H).
    apply bind_returned in H. destruct H as (delay & w3 & _ & H).
    apply bind_returned in H. destruct H as (its & w4 & _ & H).
    apply bind_returned in H. destruct H as (desc & w5 & _ & H).
    apply bind_returned in H. destruct H as (name & w6 & _ & H).
    apply bind_returned in H. destruct H as (header & w7 & Hhead & H).
    apply bind_returned in H. destruct H as (n & w8 & _ & H).
    apply bind_returned in H. destruct H as (ret1 & w9 & Hloop & H).
    apply bind_returned in H. destruct H as (u1 & w10 & _ & H).
    apply bind_returned in H. destruct H as (u2 & w11 & _ & H).
    apply ret_returned in H. subst r.
    assert (Hheader : extends preserve header).
    { destruct (token_truthy h write).
      - apply ret_returned in Hhead. subst header.
        apply extends_app, extends_refl.
      - apply bind_returned in Hhead. destruct Hhead as (gt & wg & _ & Hhead).
        destruct gt; apply ret_returned in Hhead; subst header;
          apply extends_app, extends_refl. }
    eapply extends_trans; [apply extends_app, Hheader |].
    eapply iterate_extends; [| exact Hloop].
    intros i ret w0' r0 w0''. apply iteration_extends.
  - intros H.
    apply bind_returned in H. destruct H as (u0 & w0 & _ & H).
    apply bind_returned in H. destruct H as (u1 & w1 & _ & H).
    apply bind_returned in H. destruct H as (u2 & w2 & _ & H).
    apply ret_returned in H. subst r. apply extends_app, extends_refl.
Qed.

Lemma run_rows_extends (rows : list (list string)) :
  forall ret w r w',
    run_rows h product rows ret w = (Returned r, w') -> extends ret r.
Proof.
  induction rows as [| row rows IH]; intros ret w r w' H.
  - apply ret_returned in H. subst r. apply extends_refl.
  - cbn [run_rows] in H.
    apply bind_returned in H. destruct H as (u0 & w0 & _ & H).
    apply bind_returned in H. destruct H as (u1 & w1 & _ & H).
    destruct (length row <? 5)%nat.
    + apply IH in H. eapply extends_trans; [| exact H].
      apply extends_app, extends_refl.
    + apply bind_returned in H. destruct H as (b & w2 & _ & H).
      apply bind_returned in H. destruct H as (ret1 & w3 & Hline & H).
      apply IH in H. apply do_script_line_extends in Hline.
      eapply extends_trans; [| exact H].
      destruct (lacks_final_newline ret1); [apply extends_app |]; exact Hline.
Qed.

End WithHost.

End GrowFacts.

(** X16.  In V1.4.0 the report only grows.  Whatever the instrument and
    the evaluator answer, and whatever the rows hold, when the row loop of
    [run_script] returns, its report starts with the report it was given:
    no row, whether passed over, failed or successful, takes back what an
    earlier row has reported. *)
Theorem report_only_grows
        (h : Host) (product : nat) (rows : list (list string))
        (ret r : string) (w w' : World)
        (Hrun : run_rows h product rows ret w = (Returned r, w')) :
  Prefix.extends ret r.
Proof. exact (GrowFacts.run_rows_extends h product rows ret w r w' Hrun). Qed.

(** X16 at a script of a read and a row that names FOO, behind an
    earlier line. *)
Lemma report_only_grows_witness :
  Prefix.extends ("Earlier line" ++ nl)
    ("Earlier line" ++ nl ++ "Read from BIT: 7" ++ nl
       ++ "Unexpected register name: 'FOO'. *** FAIL ***" ++ nl).
Proof.
  eapply (report_only_grows (Bench.bench Bench.healthy) 0
            [["BIT"; "1"; "false"; "0"; "1"]; ["FOO"; "1"; "false"; "0"; "1"]]
            _ _ initial_world).
  vm_compute. reflexivity.
Defined.

(* ===================================================================== *)
(** ** The Run button, from the entry to the window *)
(* ===================================================================== *)

(** X17.  A single read from the command entry.  With the Read button
    chosen, a value of at most 1, a repeat count of 1, a delay that can be
    slept and a register of the selected product, the Run button makes one
    call, a read of that register's address, and when the instrument
    answers with a value the window shows [Read from <name>: <value>]
    and a newline; the communication status is cleared and shown, and the
    delay is slept once. *)
Theorem run_button_reads_one_register
        (h : Host) (product : nat) (p : Product) (values : Gui.Values)
        (n addr : Z) (d : pyfloat) (v : PyVal) (w : World)
        (Hproduct : getitem products (Z.of_nat product) = Returned p)
        (Hreg : resolve (product_regs p) (Gui.v_reg values) = Some addr)
        (Hread : Gui.v_radio0 values = true)
        (Hvalue : parse_int (Gui.v_value values) = Some n)
        (Hsingle : n <= 1)
        (Hdelay : parse_float (Gui.v_delay values) = Some d)
        (Hsleep : float_sleepable (floats h) d = true)
        (Hrepeat : parse_int (Gui.v_repeat values) = Some 1)
        (Hanswer : instrument h (calls w) (ReadRegister addr 0) = Returned v) :
  Gui.on_run h product values w
  = (Returned tt,
     mk_world "" ("Read from " ++ Gui.v_reg values ++ ": " ++ str_val v ++ nl)
       "" (calls w ++ [ReadRegister addr 0])%list (console w)
       (sleeps w ++ [TFloat d])%list).
Proof.
  unfold Gui.on_run, Gui.run_line, py_int, py_float.
  rewrite Hvalue, Hdelay, Hrepeat, Hread. cbn [obind].
  unfold mbind at 1, lift at 1.
  unfold mbind at 1.
  assert (Hline :
            do_script_line h product
              [TText (Gui.v_reg values); TInt n; TInt 0; TFloat d; TInt 1;
               TText ""] "" w
            = (Returned ("Read from " ++ Gui.v_reg values ++ ": "
                           ++ str_val v ++ nl),
               mk_world ""
                 ("Read from " ++ Gui.v_reg values ++ ": " ++ str_val v ++ nl)
                 "" (calls w ++ [ReadRegister addr 0])%list (console w)
                 (sleeps w ++ [TFloat d])%list)).
  { unfold do_script_line, lookup_register. rewrite Hproduct.
    cbn [obind].
    change (getitem [TText (Gui.v_reg values); TInt n; TInt 0; TFloat d;
                     TInt 1; TText ""] 0)
      with (Returned (TText (Gui.v_reg values))).
    cbn [obind]. rewrite Hreg.
    unfold mbind, lift, set_comm_status, field_or, description.
    cbn [length Nat.ltb Nat.leb Nat.add].
    change (getitem [TText (Gui.v_reg values); TInt n; TInt 0; TFloat d;
                     TInt 1; TText ""] 0)
      with (Returned (TText (Gui.v_reg values))).
    change (getitem [TText (Gui.v_reg values); TInt n; TInt 0; TFloat d;
                     TInt 1; TText ""] 1) with (Returned (TInt n)).
    change (getitem [TText (Gui.v_reg values); TInt n; TInt 0; TFloat d;
                     TInt 1; TText ""] (Z.of_nat 2)) with (Returned (TInt 0)).
    change (getitem [TText (Gui.v_reg values); TInt n; TInt 0; TFloat d;
                     TInt 1; TText ""] (Z.of_nat 3))
      with (Returned (TFloat d)).
    change (getitem [TText (Gui.v_reg values); TInt n; TInt 0; TFloat d;
                     TInt 1; TText ""] (Z.of_nat 4)) with (Returned (TInt 1)).
    change (getitem [TText (Gui.v_reg values); TInt n; TInt 0; TFloat d;
                     TInt 1; TText ""] 5) with (Returned (TText "")).
    cbn [obind token_strip token_truthy Z.eqb negb token_gt_one range_count
         fmt_token].
    change (Coercion.strip "") with "".
    cbn [String.length Nat.eqb assertion_of].
    assert (Hgt : (n >? 1) = false) by lia. rewrite Hgt.
    change (Z.to_nat 1) with 1%nat. cbn [iterate].
    unfold iteration, obtain_result, mbind, lift.
    cbn [token_truthy Z.eqb negb token_gt_one]. rewrite Hgt.
    unfold read_register, try_except, call_instrument.
    unfold mret. cbv beta iota. cbn [calls]. rewrite Hanswer.
    cbv beta iota.
    unfold check_assertion, assertion_of. cbn [String.length Nat.leb andb Nat.ltb].
    unfold mret, update_output, update_comms, time_sleep.
    rewrite Hsleep. unfold record_sleep. cbn.
    rewrite !append_assoc. reflexivity. }
  rewrite Hline. reflexivity.
Qed.

(** X17 at the entry BUS_VOLTAGE, Read, 1, 0.5, 1 and an instrument with
    7 in every register. *)
Lemma run_button_reads_one_register_witness :
  Gui.on_run (Bench.bench Bench.healthy) 0
    (Gui.mk_values "BUS_VOLTAGE" true "1" "0.5" "1") initial_world
  = (Returned tt,
     mk_world "" ("Read from BUS_VOLTAGE: 7" ++ nl) "" [ReadRegister 45 0] []
       [TFloat (FDec false 5 (-1))]).
Proof.
  apply (run_button_reads_one_register (Bench.bench Bench.healthy) 0 hypr6000
           (Gui.mk_values "BUS_VOLTAGE" true "1" "0.5" "1") 1 45
           (FDec false 5 (-1)) (VInt 7) initial_world);
    (reflexivity || lia).
Defined.

(* ===================================================================== *)
(** ** Cells: the names of registers *)
(* ===================================================================== *)

Module NameFacts.

Lemma getitem_In {A} (l : list A) (i : Z) (a : A) :
  getitem l i = Returned a -> In a l.
Proof.
  unfold getitem. cbv zeta. destruct (_ || _); [discriminate |].
  destruct (nth_error l _) as [x |] eqn:E; [| discriminate].
  intros H. inversion H; subst. eapply nth_error_In, E.
Qed.

(** Checked on the two dictionaries of [products]. *)
Lemma all_names_ok :
  Forall (fun p => forallb (Names.name_ok (product_regs p)) (product_regs p)
                   = true) products.
Proof. repeat constructor. Qed.

Lemma name_ok_spec (regs : RegisterMap) (name : string) (addr : Z) :
  Names.name_ok regs (name, addr) = true ->
  coerce name = Returned (TText name) /\ resolve regs name = Some addr.
Proof.
  unfold Names.name_ok. cbn [fst snd].
  destruct (coerce name) as [[n | f | b | s] | e]; try discriminate.
  destruct (resolve regs name) as [a |]; [| discriminate].
  intros H. apply andb_true_iff in H. destruct H as [Hs Ha].
  apply String.eqb_eq in Hs. apply Z.eqb_eq in Ha. now subst.
Qed.

End NameFacts.

(** X19.  A script can name every register.  For each of the products,
    every name of its register dictionary is left a text by the cell
    coercion (none of them reads as a number or a truth value), and a row
    that starts with it resolves to the address that the dictionary gives
    for the name. *)
Theorem register_names_resolve
        (h : Host) (product : nat) (p : Product)
        (name : string) (addr : Z) (cells : list string)
        (Hproduct : getitem products (Z.of_nat product) = Returned p)
        (Hentry : In (name, addr) (product_regs p)) :
  exists b,
    coerce_row (name :: cells) = Returned (TText name :: b)
    /\ length b = length cells
    /\ lookup_register h product (TText name :: b) = Returned addr.
Proof.
  pose proof NameFacts.all_names_ok as Hall.
  rewrite Forall_forall in Hall.
  specialize (Hall p (NameFacts.getitem_In _ _ _ Hproduct)).
  rewrite forallb_forall in Hall. specialize (Hall _ Hentry).
  apply NameFacts.name_ok_spec in Hall. destruct Hall as [Hc Hr].
  destruct (CoercionFacts.coerce_row_returns cells) as (b & Hb & Hlen).
  exists b. split; [| split; [exact Hlen |]].
  - cbn [coerce_row]. rewrite Hc. cbn [obind]. rewrite Hb. reflexivity.
  - unfold lookup_register. rewrite Hproduct. cbn [obind].
    change (getitem (TText name :: b) 0)
      with (getitem (TText name :: b) (Z.of_nat 0)).
    rewrite (Run.getitem_nth_error _ 0 (TText name)) by reflexivity.
    cbn [obind]. rewrite Hr. reflexivity.
Qed.

(** X19 at the register [Battery voltage] of the PRO-Verter 5000. *)
Lemma register_names_resolve_witness :
  exists b,
    coerce_row ["Battery voltage"; "1"; "false"; "0"; "1"]
    = Returned (TText "Battery voltage" :: b)
    /\ length b = length ["1"; "false"; "0"; "1"]
    /\ lookup_register (Bench.bench Bench.healthy) 1
         (TText "Battery voltage" :: b) = Returned 276.
Proof.
  apply (register_names_resolve (Bench.bench Bench.healthy) 1
           (mk_product "24VDC PRO-Verter 5000-220 AFF1 (20-0104033)" 9600 1
              proverter_regs 6)
           "Battery voltage" 276 ["1"; "false"; "0"; "1"]).
  - reflexivity.
  - unfold proverter_regs. cbn [product_regs].
    repeat (try (left; reflexivity); right).
Defined.

(* ===================================================================== *)
(** ** What a row does to the outside, and how its report ends *)
(* ===================================================================== *)



(** X21.  The last lines of a report start on a line of their own.  When
    the row loop of [run_script] returns from at least one row, its report
    ends with a newline, whatever the rows and the instrument did: the
    line [<N> commands processed.] never continues the last row's text. *)
Theorem report_ends_with_newline
        (h : Host) (product : nat) (rows : list (list string))
        (ret r : string) (w w' : World)
        (Hrows : rows <> [])
        (Hrun : run_rows h product rows ret w = (Returned r, w')) :
  exists body, r = body ++ nl.
Proof.
  assert (Hends : forall s, lacks_final_newline s = false ->
                            exists body, s = body ++ nl).
  { intros s Hs. unfold lacks_final_newline in Hs.
    apply orb_false_iff in Hs. destruct Hs as [_ Hs].
    destruct (rev (list_ascii_of_string s)) as [| c l] eqn:E;
      [discriminate |].
    apply negb_false_iff, Ascii.eqb_eq in Hs. subst c.
    exists (string_of_list_ascii (rev l)).
    rewrite <- (string_of_list_ascii_of_string s).
    rewrite <- (rev_involutive (list_ascii_of_string s)), E.
    cbn [rev]. clear. induction (rev l) as [| x t IH]; [reflexivity |].
    cbn. now rewrite IH. }
  assert (Hsnoc : forall s, lacks_final_newline (s ++ nl) = false).
  { intros s. unfold lacks_final_newline.
    assert (Hrev : rev (list_ascii_of_string (s ++ nl))
                   = "010"%char :: rev (list_ascii_of_string s)).
    { induction s as [| x s IH]; [reflexivity |]. cbn. now rewrite IH. }
    rewrite Hrev.
    assert (Hlen : (String.length (s ++ nl) =? 0)%nat = false).
    { destruct s; reflexivity. }
    rewrite Hlen. reflexivity. }
  assert (Hstep : forall row rows ret w r w',
             (forall mid w1,
                 lacks_final_newline mid = false ->
                 run_rows h product rows mid w1 = (Returned r, w') ->
                 lacks_final_newline r = false) ->
             run_rows h product (row :: rows) ret w = (Returned r, w') ->
             lacks_final_newline r = false).
  { clear Hrows Hrun rows ret r w w'.
    intros row rows ret w r w' Hrest H. cbn [run_rows] in H.
    apply GrowFacts.bind_returned in H. destruct H as (u0 & w0 & _ & H).
    apply GrowFacts.bind_returned in H. destruct H as (u1 & w1 & _ & H).
    destruct (length row <? 5)%nat.
    - eapply Hrest; [| exact H]. rewrite <- !append_assoc. apply Hsnoc.
    - apply GrowFacts.bind_returned in H. destruct H as (b & w2 & _ & H).
      apply GrowFacts.bind_returned in H. destruct H as (ret1 & w3 & _ & H).
      eapply Hrest; [| exact H].
      destruct (lacks_final_newline ret1) eqn:E; [apply Hsnoc | exact E]. }
  assert (Hall : forall rows ret w r w',
             lacks_final_newline ret = false ->
             run_rows h product rows ret w = (Returned r, w') ->
             lacks_final_newline r = false).
  { clear Hrows Hrun rows ret r w w'.
    induction rows as [| row rows IH]; intros ret w r w' Hret H.
    - apply GrowFacts.ret_returned in H. now subst r.
    - eapply Hstep; [| exact H]. intros mid w1 Hmid Hr.
      eapply IH; [exact Hmid | exact Hr]. }
  apply Hends.
  destruct rows as [| row rows]; [contradiction |].
  eapply Hstep; [| exact Hrun]. intros mid w1 Hmid Hr.
  eapply Hall; [exact Hmid | exact Hr].
Qed.

(** X21 at a script of one row of too few columns, from an empty
    report. *)
Lemma report_ends_with_newline_witness :
  exists body,
    "not enough columns in " ++ String dquote_c "" ++ "['BIT', '1']"
      ++ String dquote_c "" ++ nl
    = body ++ nl.
Proof.
  eapply (report_ends_with_newline (Bench.bench Bench.healthy) 0
            [["BIT"; "1"]] "" _ initial_world).
  - discriminate.
  - vm_compute. reflexivity.
Defined.

(* ===================================================================== *)
(** ** V1.01 BUILD 20220216: the log *)
(* ===================================================================== *)

(** X22.  V1.01 prints a frame piece by piece, so a frame that it cannot
    decode leaves a line without end in the window.  For a J1939_STATUS
    frame (code 2) whose status is above 3, with a level of at most 15, a
    device of at most 2 and at most 8 bytes, [showlog] raises the
    [TypeError] of [hex(None)] after the level, the code, the device and
    the byte count have been printed: the window keeps them, with no
    newline behind, and the raw words are never shown. *)
Theorem V101_showlog_leaves_partial_line
        (now_asc : string) (level dev count v0 v1 v2 v3 : Z) (log : string)
        (lvl d : string)
        (Hlevel : getitem Decoder.log_levels level = Returned lvl)
        (Hlevel15 : level <= 15)
        (Hdev : getitem Decoder.devices dev = Returned d)
        (Hdev2 : dev <= 2)
        (Hcount : count <= 8)
        (Hstatus : 3 < v0) :
  V101Log.showlog now_asc [level; 2; dev; count; v0; v1; v2; v3] false log
  = (Raised (mk_exn TypeError
               "'NoneType' object cannot be interpreted as an integer"),
     log ++ lvl ++ ", J1939_STATUS, " ++ d ++ ", bytes:" ++ str_int count).
Proof.
  unfold V101Log.showlog, V101Log.pbind, V101Log.plift, V101Log.pret,
    V101Log.print.
  change (getitem [level; 2; dev; count; v0; v1; v2; v3] 0)
    with (Returned level).
  change (getitem [level; 2; dev; count; v0; v1; v2; v3] 1) with (Returned 2).
  change (getitem [level; 2; dev; count; v0; v1; v2; v3] 2) with (Returned dev).
  change (getitem [level; 2; dev; count; v0; v1; v2; v3] 3)
    with (Returned count).
  change (getitem [level; 2; dev; count; v0; v1; v2; v3] 4) with (Returned v0).
  change (Z.of_nat (length Decoder.log_levels) - 1) with 15.
  change (Z.of_nat (length Decoder.devices) - 1) with 2.
  assert (E1 : (level >? 15) = false) by lia.
  assert (E2 : (dev >? 2) = false) by lia.
  assert (E3 : (count <=? 8) = true) by lia.
  change (dict_get V101Log.codes 2) with (Some "J1939_STATUS").
  cbn [truthy_text String.eqb Ascii.eqb Bool.eqb negb fmt_opt_text
       Decoder.code_is].
  cbv beta iota. rewrite E1. cbv beta iota. rewrite Hlevel.
  cbv beta iota. rewrite E2. cbv beta iota. rewrite Hdev.
  cbv beta iota. rewrite E3. cbv beta iota.
  rewrite (DecoderFacts.j1939_status_miss v0 Hstatus).
  cbn [truthy_text Decoder.hex_of_lookup]. cbv beta iota.
  change (dict_get V101Log.codes 2) with (Some "J1939_STATUS").
  cbn [truthy_text String.eqb Ascii.eqb Bool.eqb negb fmt_opt_text
       Decoder.code_is].
  cbv beta iota.
  now rewrite !append_assoc.
Qed.

(** X22 at the frame [2, 2, 1, 4, 7, 0, 0, 0] behind an earlier line. *)
Lemma V101_showlog_leaves_partial_line_witness :
  V101Log.showlog "" [2; 2; 1; 4; 7; 0; 0; 0] false ("INFO, null" ++ nl)
  = (Raised (mk_exn TypeError
               "'NoneType' object cannot be interpreted as an integer"),
     ("INFO, null" ++ nl) ++ "CRIT" ++ ", J1939_STATUS, " ++ "CAN_B"
       ++ ", bytes:" ++ str_int 4).
Proof.
  apply (V101_showlog_leaves_partial_line "" 2 1 4 7 0 0 0
           ("INFO, null" ++ nl) "CRIT" "CAN_B");
    (reflexivity || lia).
Defined.

(** X23.  V1.01 polls the log at every time-out, whether logging is on or
    not: the eight registers from the address 5 of LOG_LEVEL are read,
    and with the Log Enable box cleared the frame read, whatever it
    holds, is dropped without being shown. *)
Theorem V101_polls_without_logging
        (h : Host) (now_asc : string) (timestamp : bool)
        (w : World) (log : string) (l : list Z) (first : Z)
        (Hanswer : instrument h (calls w) (ReadRegisters 5 (TInt 8))
                   = Returned (VList l))
        (Hfirst : getitem l 0 = Returned first) :
  V101Log.on_timeout h now_asc false timestamp w log
  = (Returned tt,
     mk_world (comm_status w) (win_output w) (win_comms w)
       (calls w ++ [ReadRegisters 5 (TInt 8)])%list (console w) (sleeps w),
     log).
Proof.
  unfold V101Log.on_timeout.
  change (resolve V101.regs "LOG_LEVEL") with (Some 5).
  unfold V101.read_registers, try_except, call_instrument.
  rewrite Hanswer. cbn [Poll.subscript0]. rewrite Hfirst. cbn [obind].
  now rewrite andb_false_r.
Qed.

(** X23 at an instrument that holds a frame of level INFO. *)
Lemma V101_polls_without_logging_witness :
  V101Log.on_timeout
    (Bench.bench (fun _ _ => Returned (VList [6; 0x1234; 2; 4; 1; 2; 0; 0])))
    "" false false initial_world ""
  = (Returned tt,
     mk_world "" "" "" ([] ++ [ReadRegisters 5 (TInt 8)])%list [] [], "").
Proof.
  apply (V101_polls_without_logging
           (Bench.bench
              (fun _ _ => Returned (VList [6; 0x1234; 2; 4; 1; 2; 0; 0])))
           "" false initial_world "" [6; 0x1234; 2; 4; 1; 2; 0; 0] 6);
    reflexivity.
Defined.

(* ===================================================================== *)
(** ** Cells of a row: the assertion and the register *)
(* ===================================================================== *)


(** X24.  The assertion of a description.  A description that starts with
    the seven characters [assert:], in any mix of upper and lower case, is
    an assertion: the expression is what follows, without the white space
    around it.  A description of fewer than seven characters holds no
    assertion. *)
Theorem assertion_prefix_any_case (p e : string)
        (Hlen : String.length p = 7%nat)
        (Hprefix : Coercion.lower p = "assert:") :
  assertion_of (p ++ e) = Coercion.strip e
  /\ forall desc, (String.length desc < 7)%nat -> assertion_of desc = "".
Proof.
  split.
  - now apply CellFacts.assertion_of_prefixed.
  - intros desc Hd. unfold assertion_of.
    assert (E : (7 <=? String.length desc)%nat = false)
      by (apply Nat.leb_gt; exact Hd).
    now rewrite E.
Qed.

(** X24 at the description [Assert: x > 0 ]. *)
Lemma assertion_prefix_any_case_witness :
  assertion_of ("Assert:" ++ " x > 0 ") = Coercion.strip " x > 0 "
  /\ forall desc, (String.length desc < 7)%nat -> assertion_of desc = "".
Proof.
  apply (assertion_prefix_any_case "Assert:" " x > 0 "); reflexivity.
Defined.

(** X25.  A register cannot be addressed by its number from a script.  A
    first cell that the coercion reads as an integer, a float or a truth
    value is not a key of any register dictionary: the row makes no call,
    and the report gains [Unexpected register name: <the value>.
    *** FAIL ***], whatever the other cells hold. *)
Theorem numeric_first_cell_never_resolves
        (h : Host) (product : nat) (p : Product)
        (t : Token) (cells : list Token) (preserve : string) (w : World)
        (Hproduct : getitem products (Z.of_nat product) = Returned p)
        (Hnumber : Tame.numeric t = true) :
  let status := "Unexpected register name: " ++ repr_token h t
                  ++ ". *** FAIL ***" in
  do_script_line h product (t :: cells) preserve w
  = (Returned (preserve ++ status),
     mk_world status (preserve ++ status) status (calls w) (console w)
              (sleeps w)).
Proof.
  intros status.
  assert (Hlook : lookup_register h product (t :: cells)
                  = Raised (mk_exn KeyError (repr_token h t))).
  { unfold lookup_register. rewrite Hproduct. cbn [obind].
    change (getitem (t :: cells) 0) with (getitem (t :: cells) (Z.of_nat 0)).
    rewrite (Run.getitem_nth_error _ 0 t) by reflexivity.
    cbn [obind]. destruct t; try reflexivity. discriminate Hnumber. }
  apply (InterpreterFacts.do_script_line_unresolved h product _ preserve w
           _ Hlook).
Qed.

(** X25 at the row [44,2200,true,0,1]: the address of LVCO is not its
    name. *)
Lemma numeric_first_cell_never_resolves_witness :
  do_script_line (Bench.bench Bench.healthy) 0
    [TInt 44; TInt 2200; TBool true; TInt 0; TInt 1] "" initial_world
  = (Returned ("" ++ "Unexpected register name: 44. *** FAIL ***"),
     mk_world "Unexpected register name: 44. *** FAIL ***"
       ("" ++ "Unexpected register name: 44. *** FAIL ***")
       "Unexpected register name: 44. *** FAIL ***" [] [] []).
Proof.
  apply (numeric_first_cell_never_resolves (Bench.bench Bench.healthy) 0
           hypr6000 (TInt 44)
           [TInt 2200; TBool true; TInt 0; TInt 1] "" initial_world);
    reflexivity.
Defined.
